(** * Multimodal Request Gateway: client, vision orchestrator, admission rule

    A shallow embedding of
      - [src/frontend/pi-client-multimodal.js]   (class MultimodalAIStationClient)
      - [src/frontend/gemmorandum-multimodal.js] and its [-fixed] variant
        (class GemmorandumMultimodal, the two-stage vision pipeline)
    together with the admission rule of the server-side request queue, which
    the repository only announces (start_enhanced_server.sh) and whose rule is
    taken from the specification.

    Asynchronous methods are functions in a state-and-exception monad: an
    [await]ed promise that rejects is a [Throw], [try]/[catch] is [try_catch].
    The network is an oracle indexed by the position of a fetch in the log of
    fetches issued so far, so that the same address may answer differently at
    different moments. *)

From Stdlib Require Import ZArith String Ascii List Bool Lia.
From stdpp Require Import base gmap strings list.
Import ListNotations.

Local Open Scope string_scope.
Local Open Scope list_scope.
Local Open Scope Z_scope.

#[local] Set Warnings "-register-all".

(** ** JavaScript values *)

(** The values that [response.json()] yields, plus [undefined]. Numbers are
    kept as integers: no claim below depends on a fractional value. *)
Inductive JSValue : Type :=
| JUndefined
| JNull
| JBool (b : bool)
| JNum (n : Z)
| JStr (s : string)
| JArr (xs : list JSValue)
| JObj (fields : list (string * JSValue)).

(** An exception value: [error.name] and [error.message]. *)
Record JSError : Type := mkError { err_name : string; err_message : string }.

Definition newError (msg : string) : JSError := mkError "Error" msg.
Definition TypeError (msg : string) : JSError := mkError "TypeError" msg.
Definition SyntaxError (msg : string) : JSError := mkError "SyntaxError" msg.
Definition AbortError : JSError := mkError "AbortError" "The user aborted a request.".

(** ToBoolean. *)
Definition truthy (v : JSValue) : bool :=
  match v with
  | JUndefined | JNull => false
  | JBool b => b
  | JNum n => negb (n =? 0)
  | JStr s => negb (String.eqb s "")
  | JArr _ | JObj _ => true
  end.

(** [a || b] on values. *)
Definition js_or (a b : JSValue) : JSValue := if truthy a then a else b.

(** A key of a parsed object: the last occurrence wins, as in [JSON.parse]. *)
Definition obj_get (name : string) (fields : list (string * JSValue)) : option JSValue :=
  fold_left (fun acc kv => if String.eqb (fst kv) name then Some (snd kv) else acc)
            fields None.

(** ** Completions and the monad of asynchronous methods *)

Inductive Completion (A : Type) : Type :=
| Return (a : A)
| Throw (e : JSError).
Arguments Return {A} a.
Arguments Throw {A} e.

Definition Async (S A : Type) : Type := S -> Completion A * S.

Definition ret {S A} (a : A) : Async S A := fun s => (Return a, s).
Definition throw {S A} (e : JSError) : Async S A := fun s => (Throw e, s).
Definition bind {S A B} (m : Async S A) (k : A -> Async S B) : Async S B :=
  fun s => match m s with
           | (Return a, s') => k a s'
           | (Throw e, s') => (Throw e, s')
           end.
Definition try_catch {S A} (m : Async S A) (h : JSError -> Async S A) : Async S A :=
  fun s => match m s with
           | (Return a, s') => (Return a, s')
           | (Throw e, s') => h e s'
           end.
Definition get {S} : Async S S := fun s => (Return s, s).
Definition modify {S} (f : S -> S) : Async S unit := fun s => (Return tt, f s).
Definition lift_completion {S A} (c : Completion A) : Async S A := fun s => (c, s).

Declare Scope async_scope.
Delimit Scope async_scope with async.
Notation "x <- m ;; k" := (bind m (fun x => k))
  (at level 100, m at next level, right associativity) : async_scope.
Notation "m ;;; k" := (bind m (fun _ => k))
  (at level 100, right associativity) : async_scope.
Local Open Scope async_scope.

(** Property access [v.name]: a TypeError on [null] and [undefined], the
    field of an object, [length] of a string or an array, [undefined]
    otherwise. *)
Definition getProp (v : JSValue) (name : string) : Completion JSValue :=
  match v with
  | JUndefined | JNull =>
      Throw (TypeError ("Cannot read properties of null or undefined (reading '" +:+ name +:+ "')"))
  | JObj fields => Return (default JUndefined (obj_get name fields))
  | JStr s => Return (if String.eqb name "length" then JNum (Z.of_nat (String.length s)) else JUndefined)
  | JArr xs => Return (if String.eqb name "length" then JNum (Z.of_nat (List.length xs)) else JUndefined)
  | JBool _ | JNum _ => Return JUndefined
  end.

(** ToPrimitive of a parsed value completes unless an object it has to
    convert has a [toString] key of its own: the key shadows
    [Object.prototype.toString] with a value that cannot be called, and
    [valueOf] gives the object back. An array converts by joining its
    elements, each of which is converted in turn. *)
Fixpoint convertible (v : JSValue) : bool :=
  match v with
  | JObj fields => negb (existsb (fun kv => String.eqb (fst kv) "toString") fields)
  | JArr xs => forallb convertible xs
  | _ => true
  end.

(** A conversion whose result is only shown or logged: a template literal,
    [v * 100], [a + b], or the use of [v] as a property key. *)
Definition convert (v : JSValue) : Completion unit :=
  if convertible v then Return tt
  else Throw (TypeError "Cannot convert object to primitive value").

(** What a log line prints of a result: each field is read and converted,
    by [(result.f * 100).toFixed(1)] to a number or by [${result.f}] to a
    string, in the order of the lines. *)
Fixpoint printFields (result : JSValue) (names : list string) : Completion unit :=
  match names with
  | [] => Return tt
  | name :: rest =>
      match getProp result name with
      | Throw e => Throw e
      | Return v =>
          match convert v with
          | Throw e => Throw e
          | Return _ => printFields result rest
          end
      end
  end.

(** ** The network and the browser *)

(** A fetch: method, full URL, and the JSON body (the [timestamp: Date.now()]
    field that every payload carries is left out; the oracle below is indexed
    by the moment of the fetch instead). *)
Record Request : Type := mkRequest {
  req_method : string;
  req_url : string;
  req_body : option JSValue
}.

Record Response : Type := mkResponse {
  status : Z;
  statusText : string;
  body : option JSValue   (* [None]: the body is not JSON, [json()] rejects *)
}.

(** [response.ok] *)
Definition ok (r : Response) : bool := (200 <=? status r) && (status r <=? 299).

Inductive Settled : Type :=
| Resolved (r : Response)
| NetworkError (msg : string).   (* fetch rejects with a TypeError *)

(** What the network does with a fetch: it settles after [latency] ms. *)
Record Reply : Type := mkReply { latency : Z; settled : Settled }.

Record World : Type := mkWorld {
  network : nat -> Request -> Reply;
  fetchLog : list Request;
  localStorage : gmap string string
}.

Definition logFetch (req : Request) (w : World) : World :=
  mkWorld (network w) (fetchLog w ++ [req]) (localStorage w).

Definition setItem (k v : string) (w : World) : World :=
  mkWorld (network w) (fetchLog w) (<[k := v]> (localStorage w)).

(** [fetch(url, {signal})] raced against [setTimeout(() => controller.abort(), t)]:
    the reply is the one the oracle gives to the [n]-th fetch; with a timer of
    [t] ms a reply that has not settled before the timer fires is an
    AbortError. [timer = None] is a fetch without a signal. *)
Definition fetch_outcome (timer : option Z) (r : Reply) : Completion Response :=
  let settle :=
    match settled r with
    | Resolved resp => Return resp
    | NetworkError msg => Throw (TypeError msg)
    end in
  match timer with
  | Some t => if t <=? latency r then Throw AbortError else settle
  | None => settle
  end.

Definition fetch_world (timer : option Z) (req : Request) (w : World)
  : Completion Response * World :=
  (fetch_outcome timer (network w (List.length (fetchLog w)) req), logFetch req w).

(** [await response.json()] *)
Definition json (r : Response) : Completion JSValue :=
  match body r with
  | Some v => Return v
  | None => Throw (SyntaxError "Unexpected token in JSON")
  end.

(** ** MultimodalAIStationClient: the data *)

Record Capabilities : Type := mkCapabilities {
  multimodal : JSValue;
  vision_processing : JSValue;
  server_mode : JSValue;
  model_type : JSValue
}.

(** An insertion-ordered [Map] from string keys: an association list without
    duplicate keys, oldest key first. *)
Definition JSMap : Type := list (string * JSValue).

Record MultimodalAIStationClient : Type := mkClient {
  stationURL : option string;          (* [null] is [None] *)
  isConnected : bool;
  timeout : Z;
  visionTimeout : Z;
  translationTimeout : Z;
  commonIPs : list string;
  visionCache : JSMap;
  maxCacheSize : Z;
  capabilities : Capabilities
}.

(** The endpoints table of the constructor. *)
Module endpoints.
Definition status := "/api/status".
Definition translate := "/api/translate".
Definition search := "/api/search".
Definition medical := "/api/medical".
Definition legal := "/api/legal".
Definition chat := "/api/chat".
Module vision.
Definition ocr := "/api/vision/ocr".
Definition document := "/api/vision/document".
Definition medical := "/api/vision/medical".
End vision.
Module multimodal.
Definition chat := "/api/multimodal/chat".
End multimodal.
End endpoints.

Definition defaultIPs : list string :=
  [ "localhost:8080"; "127.0.0.1:8080"; "192.168.1.87:8080";
    "192.168.1.200:8080"; "192.168.0.200:8080"; "10.0.0.200:8080";
    "172.16.0.200:8080"; "192.168.4.1:8080"; "10.42.0.1:8080" ].

Definition mdnsNames : list string :=
  [ "refugee-connect.local:8080"; "ai-station.local:8080";
    "raspberrypi.local:8080"; "gemma-station.local:8080" ].

(** [checkURLParameter]: a non-empty [ai_server] query parameter is put in
    front of the addresses to scan. *)
Definition checkURLParameter (aiServer : option string) (ips : list string) : list string :=
  match aiServer with
  | Some a => if String.eqb a "" then ips else a :: ips
  | None => ips
  end.

(** [new MultimodalAIStationClient()], given the [ai_server] query parameter
    of the page. *)
Definition constructor (aiServer : option string) : MultimodalAIStationClient :=
  {| stationURL := None;
     isConnected := false;
     timeout := 600000;
     visionTimeout := 600000;
     translationTimeout := 900000;
     commonIPs := checkURLParameter aiServer defaultIPs;
     visionCache := [];
     maxCacheSize := 50;
     capabilities := mkCapabilities (JBool false) (JBool false) (JStr "unknown") JUndefined |}.

(** ** The vision cache *)

(** A string as the code units [charCodeAt] reads (code units below 256). *)
Definition charCodes (s : string) : list Z :=
  map (fun a => Z.of_nat (nat_of_ascii a)) (list_ascii_of_string s).

(** ToInt32: wrap-around to a signed 32-bit integer. *)
Definition toInt32 (z : Z) : Z :=
  let m := z mod 2 ^ 32 in if m <? 2 ^ 31 then m else m - 2 ^ 32.

(** [a << k] and [a & b] on 32-bit integers. *)
Definition shl32 (a : Z) (k : Z) : Z := toInt32 (Z.shiftl (toInt32 a) k).
Definition and32 (a b : Z) : Z := Z.land (toInt32 a) (toInt32 b).

(** One turn of the loop of [hashString]:
    [hash = ((hash << 5) - hash) + char; hash = hash & hash]. *)
Definition hashStep (hash char : Z) : Z :=
  let hash := (shl32 hash 5 - hash) + char in
  and32 hash hash.

Definition hashCodes (codes : list Z) : Z := fold_left hashStep codes 0.

(** Digits of [n > 0] in base [radix], most significant first. *)
Definition digitChar (d : Z) : ascii :=
  if d <? 10 then ascii_of_nat (Z.to_nat (48 + d)) else ascii_of_nat (Z.to_nat (97 + d - 10)).

Fixpoint digits (radix : Z) (fuel : nat) (n : Z) (acc : string) : string :=
  match fuel with
  | O => acc
  | S fuel' =>
      if n <=? 0 then acc
      else digits radix fuel' (n / radix) (String (digitChar (n mod radix)) acc)
  end.

(** [n.toString(radix)] for an integer [n]; [Z.log2 n + 1] digits always
    suffice. *)
Definition toStringRadix (radix : Z) (n : Z) : string :=
  if n =? 0 then "0"
  else if n <? 0 then "-" +:+ digits radix (S (Z.to_nat (Z.log2 (- n)))) (- n) ""
  else digits radix (S (Z.to_nat (Z.log2 n))) n "".

Definition toString36 (n : Z) : string := toStringRadix 36 n.

Definition hashString (str : string) : string := toString36 (hashCodes (charCodes str)).

Definition generateCacheKey (type imageData additional : string) : string :=
  type +:+ "_" +:+ hashString imageData +:+ "_" +:+ hashString additional.

Module Map.
Definition size (m : JSMap) : Z := Z.of_nat (List.length m).

Fixpoint get (k : string) (m : JSMap) : option JSValue :=
    match m with
    | [] => None
    | (k', v) :: m' => if String.eqb k' k then Some v else get k m'
    end.

Definition has (k : string) (m : JSMap) : bool :=
    match get k m with Some _ => true | None => false end.

  (** [set]: an existing key keeps its place, a new key goes last. *)
Fixpoint set (k : string) (v : JSValue) (m : JSMap) : JSMap :=
    match m with
    | [] => [(k, v)]
    | (k', v') :: m' => if String.eqb k' k then (k', v) :: m' else (k', v') :: set k v m'
    end.

Fixpoint delete (k : string) (m : JSMap) : JSMap :=
    match m with
    | [] => []
    | (k', v') :: m' => if String.eqb k' k then m' else (k', v') :: delete k m'
    end.

  (** [m.keys().next().value] *)
Definition firstKey (m : JSMap) : option string :=
    match m with
    | [] => None
    | (k, _) :: _ => Some k
    end.

Definition keys (m : JSMap) : list string := map fst m.
End Map.

(** [cacheVisionResult(key, result)] on the cache. With an empty map
    [firstKey] is [undefined] and [delete(undefined)] removes nothing. *)
Definition cacheVisionResult_map (maxSize : Z) (key : string) (result : JSValue)
    (cache : JSMap) : JSMap :=
  let cache :=
    if maxSize <=? Map.size cache then
      match Map.firstKey cache with
      | Some firstKey => Map.delete firstKey cache
      | None => cache
      end
    else cache in
  Map.set key result cache.

(** ** MultimodalAIStationClient: the methods *)

(** The state a method runs in: the browser and network, and [this]. *)
Record St : Type := mkSt { world : World; this : MultimodalAIStationClient }.

Definition setWorld (w : World) (st : St) : St := mkSt w (this st).
Definition setThis (c : MultimodalAIStationClient) (st : St) : St := mkSt (world st) c.

Definition setStationURL (u : string) (c : MultimodalAIStationClient) :=
  mkClient (Some u) (isConnected c) (timeout c) (visionTimeout c) (translationTimeout c)
           (commonIPs c) (visionCache c) (maxCacheSize c) (capabilities c).
Definition setIsConnected (b : bool) (c : MultimodalAIStationClient) :=
  mkClient (stationURL c) b (timeout c) (visionTimeout c) (translationTimeout c)
           (commonIPs c) (visionCache c) (maxCacheSize c) (capabilities c).
Definition setVisionCache (m : JSMap) (c : MultimodalAIStationClient) :=
  mkClient (stationURL c) (isConnected c) (timeout c) (visionTimeout c) (translationTimeout c)
           (commonIPs c) m (maxCacheSize c) (capabilities c).
Definition setCapabilities (k : Capabilities) (c : MultimodalAIStationClient) :=
  mkClient (stationURL c) (isConnected c) (timeout c) (visionTimeout c) (translationTimeout c)
           (commonIPs c) (visionCache c) (maxCacheSize c) k.

Definition update (f : MultimodalAIStationClient -> MultimodalAIStationClient) : Async St unit :=
  modify (fun st => setThis (f (this st)) st).

Definition fetch (timer : option Z) (req : Request) : Async St Response :=
  fun st => let '(c, w) := fetch_world timer req (world st) in (c, setWorld w st).

(** [`${this.stationURL}`]: [null] prints as the text null. *)
Definition urlText (u : option string) : string := default "null" u.

(** [GET url/api/status] *)
Definition statusProbe (url : string) : Request :=
  mkRequest "GET" (url +:+ endpoints.status) None.

(** [data.status === 'ready' || data.status === 'ok' || data.status === 'online'] *)
Definition recognizedStatus (v : JSValue) : bool :=
  match v with
  | JStr s => String.eqb s "ready" || String.eqb s "ok" || String.eqb s "online"
  | _ => false
  end.

(** [testConnection(url)]: a probe under a 3000 ms timer; every failure is
    caught and answered [false]. *)
Definition testConnection (url : string) : Async St bool :=
  try_catch
    (response <- fetch (Some 3000) (statusProbe url) ;;
     if ok response then
       data <- lift_completion (json response) ;;
       st <- lift_completion (getProp data "status") ;;
       ret (recognizedStatus st)
     else ret false)
    (fun _ => ret false).

(** [updateCapabilities()]: a fetch without timer; failures are logged only. *)
Definition updateCapabilities : Async St unit :=
  try_catch
    (st <- get ;;
     response <- fetch None (statusProbe (urlText (stationURL (this st)))) ;;
     data <- lift_completion (json response) ;;
     mm <- lift_completion (getProp data "multimodal_enabled") ;;
     vp <- lift_completion (getProp data "vision_processing") ;;
     mode <- lift_completion (getProp data "mode") ;;
     mt <- lift_completion (getProp data "model_type") ;;
     update (setCapabilities
               (mkCapabilities (js_or mm (JBool false)) (js_or vp (JBool false))
                               (js_or mode (JStr "unknown")) (js_or mt (JStr "unknown")))))
    (fun _ => ret tt).

(** The body of the two scanning loops of [detectStation]: probe the
    addresses in order, adopt and persist the first that answers. *)
Fixpoint scanAddresses (addresses : list string) : Async St bool :=
  match addresses with
  | [] => ret false
  | ip :: rest =>
      let url := "http://" +:+ ip in
      isValid <- testConnection url ;;
      if isValid then
        update (setStationURL url) ;;;
        update (setIsConnected true) ;;;
        modify (fun st => setWorld (setItem "aiStationURL" url (world st)) st) ;;;
        updateCapabilities ;;;
        ret true
      else scanAddresses rest
  end.

(** The first step of [detectStation]: the saved address, when there is one
    ([getItem] gives [null] or a string; the empty string is falsy). *)
Definition trySavedURL : Async St bool :=
  st <- get ;;
  match localStorage (world st) !! "aiStationURL" with
  | Some savedURL =>
      if String.eqb savedURL "" then ret false
      else
        isValid <- testConnection savedURL ;;
        if isValid then
          update (setStationURL savedURL) ;;;
          update (setIsConnected true) ;;;
          updateCapabilities ;;;
          ret true
        else ret false
  | None => ret false
  end.

Definition detectStation : Async St bool :=
  found <- trySavedURL ;;
  if found then ret true
  else
    st <- get ;;
    found <- scanAddresses (commonIPs (this st)) ;;
    if found then ret true
    else
      found <- scanAddresses mdnsNames ;;
      if found then ret true
      else
        update (setIsConnected false) ;;;
        ret false.

(** [str.includes(sub)] *)
Fixpoint includes (str sub : string) : bool :=
  String.prefix sub str ||
  match str with
  | EmptyString => false
  | String _ rest => includes rest sub
  end.

(** The [options] argument of [makeRequest]: absent fields are [None]. *)
Record Options : Type := mkOptions { opt_timeout : option Z; opt_method : option string }.
Definition noOptions : Options := mkOptions None None.

(** [options.timeout || this.timeout] *)
Definition requestTimeout (options : Options) (c : MultimodalAIStationClient) : Z :=
  match opt_timeout options with
  | Some t => if t =? 0 then timeout c else t
  | None => timeout c
  end.

Definition isVisionRequest (endpoint : string) : bool :=
  includes endpoint "/vision/" || includes endpoint "/multimodal/".

Definition actualTimeout (endpoint : string) (options : Options)
    (c : MultimodalAIStationClient) : Z :=
  if isVisionRequest endpoint then visionTimeout c else requestTimeout options c.

(** [options.method || 'POST'] *)
Definition requestMethod (options : Options) : string :=
  match opt_method options with
  | Some m => if String.eqb m "" then "POST" else m
  | None => "POST"
  end.

(** [!this.isConnected || !this.stationURL] *)
Definition needsDiscovery (c : MultimodalAIStationClient) : bool :=
  negb (isConnected c) ||
  match stationURL c with
  | Some u => String.eqb u ""
  | None => true
  end.

(** The [try] block of [makeRequest] with its [catch]. *)
Definition sendRequest (endpoint : string) (data : JSValue) (options : Options)
  : Async St JSValue :=
  st <- get ;;
  let c := this st in
  try_catch
    (response <- fetch (Some (actualTimeout endpoint options c))
                       (mkRequest (requestMethod options)
                                  (urlText (stationURL c) +:+ endpoint) (Some data)) ;;
     if negb (ok response) then
       throw (newError ("API request failed: " +:+ toStringRadix 10 (status response)
                          +:+ " " +:+ statusText response))
     else
       result <- lift_completion (json response) ;;
       ret result)
    (fun error =>
       if String.eqb (err_name error) "AbortError" then
         throw (newError "Request timeout - AI station is taking too long to respond")
       else
         update (setIsConnected false) ;;;
         throw error).

Definition makeRequest (endpoint : string) (data : JSValue) (options : Options)
  : Async St JSValue :=
  st <- get ;;
  (if needsDiscovery (this st) then
     connected <- detectStation ;;
     if negb connected then throw (newError "No AI station available") else ret tt
   else ret tt) ;;;
  sendRequest endpoint data options.

(** [cacheVisionResult(key, result)] *)
Definition cacheVisionResult (key : string) (result : JSValue) : Async St unit :=
  update (fun c =>
    setVisionCache (cacheVisionResult_map (maxCacheSize c) key result (visionCache c)) c).

(** The common shape of [serverOCR], [analyzeDocument] and
    [analyzeMedicalImage]: look the key up, dispatch on a miss, print the
    [logged] fields of the result in the log lines (a TypeError when the
    result is [null], or when a field does not convert), store the result.
    The outer [catch] logs and rethrows. *)
Definition cachedVisionRequest (type endpoint imageData additional : string)
    (payload : JSValue) (logged : list string) (useCache : bool) : Async St JSValue :=
  try_catch
    (let cacheKey := generateCacheKey type imageData additional in
     st <- get ;;
     if useCache && Map.has cacheKey (visionCache (this st)) then
       ret (default JUndefined (Map.get cacheKey (visionCache (this st))))
     else
       result <- makeRequest endpoint payload noOptions ;;
       lift_completion (printFields result logged) ;;;
       (if useCache then cacheVisionResult cacheKey result else ret tt) ;;;
       ret result)
    (fun error => throw error).

Definition serverOCR (imageData language : string) (useCache : bool) : Async St JSValue :=
  cachedVisionRequest "ocr" endpoints.vision.ocr imageData language
    (JObj [("image", JStr imageData); ("language", JStr language)])
    ["confidence"; "character_count"; "word_count"] useCache.

Definition analyzeDocument (imageData documentType : string) (useCache : bool)
  : Async St JSValue :=
  cachedVisionRequest "document" endpoints.vision.document imageData documentType
    (JObj [("image", JStr imageData); ("document_type", JStr documentType)])
    ["document_type"; "completion_percentage"] useCache.

Definition analyzeMedicalImage (imageData symptoms : string) (useCache : bool)
  : Async St JSValue :=
  cachedVisionRequest "medical" endpoints.vision.medical imageData symptoms
    (JObj [("image", JStr imageData); ("symptoms", JStr symptoms)])
    ["urgency_level"] useCache.

(** An optional image: [null] or a string; the empty string is falsy. *)
Definition imageValue (imageData : option string) : JSValue :=
  match imageData with
  | Some s => JStr s
  | None => JNull
  end.

Definition multimodalChat (text : string) (imageData : option string) (useCache : bool)
  : Async St JSValue :=
  try_catch
    (let withImage := truthy (imageValue imageData) && useCache in
     let cacheKey :=
       if withImage then Some (generateCacheKey "chat" (default "" imageData) text)
       else None in
     st <- get ;;
     let cached :=
       match cacheKey with
       | Some key =>
           if Map.has key (visionCache (this st))
           then Some (default JUndefined (Map.get key (visionCache (this st))))
           else None
       | None => None
       end in
     match cached with
     | Some hit => ret hit
     | None =>
         result <- makeRequest endpoints.multimodal.chat
                     (JObj [("text", JStr text); ("image", imageValue imageData)]) noOptions ;;
         lift_completion (printFields result ["language_detected"]) ;;;
         match cacheKey with
         | Some key =>
             if withImage && truthy (JStr key) then cacheVisionResult key result else ret tt
         | None => ret tt
         end ;;;
         ret result
     end)
    (fun error => throw error).

(** The reshaping at the end of [translate]: the backend answers
    [translated_text], the frontend expects [translation]. *)
Definition transformTranslation (result : JSValue) : Completion JSValue :=
  if truthy result then
    match getProp result "translated_text" with
    | Return translated =>
        if truthy translated then
          match getProp result "from_language", getProp result "to_language" with
          | Return from_language, Return to_language =>
              Return (JObj [("translation", translated); ("from_language", from_language);
                            ("to_language", to_language); ("success", JBool true)])
          | Throw e, _ | _, Throw e => Throw e
          end
        else Return result
    | Throw e => Throw e
    end
  else Return result.

(** [translate]: dispatched with [timeout: this.translationTimeout]; a
    result with a truthy [translated_text] is reshaped for the frontend. *)
Definition translate (text fromLang toLang context : string) : Async St JSValue :=
  try_catch
    (st <- get ;;
     result <- makeRequest endpoints.translate
                 (JObj [("text", JStr text); ("from", JStr fromLang);
                        ("to", JStr toLang); ("context", JStr context)])
                 (mkOptions (Some (translationTimeout (this st))) (Some "POST")) ;;
     lift_completion (transformTranslation result))
    (fun error => throw error).

Definition chatWithGemma (message : string) : Async St JSValue :=
  try_catch
    (makeRequest endpoints.chat (JObj [("message", JStr message)]) noOptions)
    (fun error => throw error).

(** [searchFamily]: the [catch] logs the error and returns an empty array. *)
Definition searchFamily (query : string) : Async St JSValue :=
  try_catch
    (result <- makeRequest endpoints.search
                 (JObj [("query", JStr query); ("type", JStr "family")]) noOptions ;;
     matches <- lift_completion (getProp result "matches") ;;
     ret (js_or matches (JArr [])))
    (fun error => ret (JArr [])).

Definition getMedicalAdvice (symptoms urgency : string) : Async St JSValue :=
  try_catch
    (makeRequest endpoints.medical
       (JObj [("symptoms", JStr symptoms); ("urgency", JStr urgency)]) noOptions)
    (fun error => throw error).

Definition getLegalAdvice (situation country : string) : Async St JSValue :=
  try_catch
    (makeRequest endpoints.legal
       (JObj [("situation", JStr situation); ("country", JStr country)]) noOptions)
    (fun error => throw error).

(** ** Values where a primitive is expected *)

(** [0 < v] (or [v > 0]). [numeral] is what the engine answers for a string
    or for an array that converts; its numeric grammar is not modelled, and
    every property holds whatever this function is. *)
Definition positive (numeral : JSValue -> bool) (v : JSValue) : Completion bool :=
  match v with
  | JUndefined | JNull => Return false
  | JBool b => Return b
  | JNum n => Return (0 <? n)
  | JStr _ => Return (numeral v)
  | JArr _ =>
      if convertible v then Return (numeral v)
      else Throw (TypeError "Cannot convert object to primitive value")
  | JObj _ =>
      if convertible v then Return false
      else Throw (TypeError "Cannot convert object to primitive value")
  end.

(** Two parsed values look the same: the same shape, keys and leaves. *)
Fixpoint sameValue (a b : JSValue) : bool :=
  match a, b with
  | JUndefined, JUndefined | JNull, JNull => true
  | JBool x, JBool y => Bool.eqb x y
  | JNum x, JNum y => x =? y
  | JStr x, JStr y => String.eqb x y
  | JArr xs, JArr ys =>
      (fix all (l1 l2 : list JSValue) : bool :=
         match l1, l2 with
         | [], [] => true
         | x :: r1, y :: r2 => sameValue x y && all r1 r2
         | _, _ => false
         end) xs ys
  | JObj fs, JObj gs =>
      (fix all (l1 l2 : list (string * JSValue)) : bool :=
         match l1, l2 with
         | [], [] => true
         | (k1, x) :: r1, (k2, y) :: r2 => String.eqb k1 k2 && sameValue x y && all r1 r2
         | _, _ => false
         end) fs gs
  | _, _ => false
  end.

(** [a === b]. Primitives are compared by value. Two objects or two arrays
    are equal only as one and the same object; whether they are is not in
    the values, it is what the engine answers ([same]), and it can answer
    yes only for values that look the same. *)
Definition strictEquals (same : JSValue -> JSValue -> bool) (a b : JSValue) : bool :=
  match a, b with
  | JUndefined, JUndefined | JNull, JNull => true
  | JBool x, JBool y => Bool.eqb x y
  | JNum x, JNum y => x =? y
  | JStr x, JStr y => String.eqb x y
  | JArr _, JArr _ | JObj _, JObj _ => sameValue a b && same a b
  | _, _ => false
  end.

(** ToString, as a template literal applies it to a value that converts
    (see [convertible]). *)
Fixpoint toStringJS (v : JSValue) : string :=
  match v with
  | JUndefined => "undefined"
  | JNull => "null"
  | JBool b => if b then "true" else "false"
  | JNum n => toStringRadix 10 n
  | JStr s => s
  | JArr xs =>
      (fix join (l : list JSValue) : string :=
         match l with
         | [] => ""
         | x :: rest =>
             let item := match x with
                         | JUndefined | JNull => ""
                         | _ => toStringJS x
                         end in
             match rest with
             | [] => item
             | _ :: _ => item +:+ "," +:+ join rest
             end
         end) xs
  | JObj _ => "[object Object]"
  end.

(** The position that an index key names: the key is the decimal numeral of
    a position below [len]. *)
Definition indexOfKey (key : string) (len : nat) : option nat :=
  List.find (fun i => String.eqb (toStringRadix 10 (Z.of_nat i)) key) (List.seq 0 len).

(** [v[key]] on the properties of [v] itself: as [getProp], and the elements
    of an array and the characters of a string by position. Inherited
    members are functions; they read as [undefined] here, which converts as
    a function does. *)
Definition getMember (v : JSValue) (key : string) : Completion JSValue :=
  match v with
  | JArr xs =>
      match indexOfKey key (List.length xs) with
      | Some i => Return (nth i xs JUndefined)
      | None => getProp v key
      end
  | JStr s =>
      match indexOfKey key (String.length s) with
      | Some i => Return (JStr (String.substring i 1 s))
      | None => getProp v key
      end
  | _ => getProp v key
  end.

(** ** [serverOCR] called with a language of any type *)

(** [hashString(v)] for a [v] that is not a string: [null.length] throws; a
    positive [length] enters the loop, where [v.charCodeAt] is not a
    function; otherwise the loop is skipped and the hash is 0, which prints
    as the hash of the empty string does. *)
Definition hashOther (numeral : JSValue -> bool) (v : JSValue) : Completion unit :=
  match getProp v "length" with
  | Throw e => Throw e
  | Return length =>
      match positive numeral length with
      | Throw e => Throw e
      | Return true => Throw (TypeError "str.charCodeAt is not a function")
      | Return false => Return tt
      end
  end.

(** [serverOCR(imageData, language)] as the orchestrator calls it, with
    whatever [this.currentLanguage] holds. [undefined] takes the default
    'en' and a string is the method above. Any other value is hashed by
    [hashOther]; on a miss it is printed into the log line before the
    dispatch, and it goes into the payload as it is. *)
Definition serverOCR_value (numeral : JSValue -> bool) (imageData : string)
    (language : JSValue) (useCache : bool) : Async St JSValue :=
  match language with
  | JUndefined => serverOCR imageData "en" useCache
  | JStr language => serverOCR imageData language useCache
  | _ =>
      try_catch
        (lift_completion (hashOther numeral language) ;;;
         st <- get ;;
         (if useCache && Map.has (generateCacheKey "ocr" imageData "") (visionCache (this st))
          then ret tt
          else lift_completion (convert language)) ;;;
         cachedVisionRequest "ocr" endpoints.vision.ocr imageData ""
           (JObj [("image", JStr imageData); ("language", language)])
           ["confidence"; "character_count"; "word_count"] useCache)
        (fun error => throw error)
  end.

(** ** GemmorandumMultimodal: the vision pipeline *)

Module Gemmorandum.

  (** An image handed to the pipeline, by what the browser makes of it:
      [FileReader.readAsDataURL] and the canvas re-encoding of
      [processImageFile]; [None] is a rejected promise. *)
Record ImageFile : Type := mkImageFile {
    readAsDataURL : option string;
    canvasJPEG : option string
  }.

Record ProcessingState : Type := mkProcessing {
    stage : string;
    progress : Z;
    message : string
  }.

  (** [this.formData] once [processVisionResults] has filled it;
      [processingTime] keeps the two operands of the sum. *)
Record FormData : Type := mkFormData {
    extractedText : JSValue;
    documentType : JSValue;
    detectedLanguage : JSValue;
    extractedFields : JSValue;
    criticalFields : JSValue;
    processingTime : JSValue * JSValue
  }.

  (** What the page shows; rendering itself is outside the model. *)
Inductive UIEvent : Type :=
  | HideProgress
  | ShowError (msg : string)
  | ShowSection (id : string)
  | ShowAnalysis.

  (** [currentLanguage] is 'en' at first and then whatever
      [language_detected] was last assigned to it, a string or not.
      [formData = None] is the empty object of the constructor.
      [conversationHistory] and [sessionState.currentField] are written but
      not read by the pipeline and are left out. *)
Record GemmorandumMultimodal : Type := mkGem {
    aiClient : option MultimodalAIStationClient;
    currentLanguage : JSValue;
    processingState : ProcessingState;
    formData : option FormData;
    formType : JSValue;
    ui : list UIEvent
  }.

  (** The page: the world it shares with the client, the orchestrator, and
      what the engine answers where the values do not decide it: [0 < v] for
      strings and arrays (see [positive]), and whether two objects are one
      and the same (see [strictEquals]). *)
Record GSt : Type := mkGSt {
    gworld : World;
    gthis : GemmorandumMultimodal;
    numeral : JSValue -> bool;
    sameObject : JSValue -> JSValue -> bool
  }.

Definition setAiClient (c : option MultimodalAIStationClient) (g : GemmorandumMultimodal) :=
    mkGem c (currentLanguage g) (processingState g) (formData g) (formType g) (ui g).
Definition setCurrentLanguage (l : JSValue) (g : GemmorandumMultimodal) :=
    mkGem (aiClient g) l (processingState g) (formData g) (formType g) (ui g).
Definition setProcessingState (p : ProcessingState) (g : GemmorandumMultimodal) :=
    mkGem (aiClient g) (currentLanguage g) p (formData g) (formType g) (ui g).
Definition setFormData (f : option FormData) (g : GemmorandumMultimodal) :=
    mkGem (aiClient g) (currentLanguage g) (processingState g) f (formType g) (ui g).
Definition setFormType (t : JSValue) (g : GemmorandumMultimodal) :=
    mkGem (aiClient g) (currentLanguage g) (processingState g) (formData g) t (ui g).
Definition show (e : UIEvent) (g : GemmorandumMultimodal) :=
    mkGem (aiClient g) (currentLanguage g) (processingState g) (formData g) (formType g)
          (ui g ++ [e]).

Definition gupdate (f : GemmorandumMultimodal -> GemmorandumMultimodal) : Async GSt unit :=
    modify (fun gs => mkGSt (gworld gs) (f (gthis gs)) (numeral gs) (sameObject gs)).

  (** A call [this.aiClient.method(...)]: a TypeError when [aiClient] is
      [null]; otherwise the method runs on the client and the shared world. *)
Definition onClient {A} (m : Async St A) : Async GSt A :=
    fun gs =>
      match aiClient (gthis gs) with
      | None => (Throw (TypeError "Cannot read properties of null"), gs)
      | Some c =>
          let '(r, st) := m (mkSt (gworld gs) c) in
          (r, mkGSt (world st) (setAiClient (Some (this st)) (gthis gs)) (numeral gs) (sameObject gs))
      end.

Definition rejected : JSError := mkError "Event" "error".

  (** [aiClient.processImageFile(file, maxSize)] *)
Definition processImageFile (file : ImageFile) : Async St string :=
    match readAsDataURL file with
    | Some _ =>
        match canvasJPEG file with
        | Some base64 => ret base64
        | None => throw rejected
        end
    | None => throw rejected
    end.

Definition fileToBase64 (file : ImageFile) : Async GSt string :=
    match readAsDataURL file with
    | Some dataURL => ret dataURL
    | None => throw rejected
    end.

  (** [updateVisionProgress()] writes the progress and its message into the
      page where the elements exist. *)
Definition updateVisionProgress : Async GSt unit := ret tt.

Definition handleVisionProcessingError (error : JSError) : Async GSt unit :=
    gupdate (show HideProgress) ;;;
    gupdate (show (ShowError "Vision processing failed. Please try again or use manual entry.")) ;;;
    gupdate (show (ShowSection "form-capture-section")).

  (** [updateLanguageDisplay()]: [this.supportedLanguages[this.currentLanguage]]
      uses the language as a property key; the class and direction of the
      page are rendering. *)
Definition updateLanguageDisplay : Async GSt unit :=
    gs <- get ;;
    lift_completion (convert (currentLanguage (gthis gs))).

  (** [getFormTypeDisplay(formType)]: [types[formType]] uses its argument as
      a property key; the name it finds is rendering. *)
Definition getFormTypeDisplay (formType : JSValue) : Completion unit := convert formType.

  (** [field.replace('_', ' ')] is there on a string only. *)
Definition replaceUnderscore (field : JSValue) : Completion unit :=
    match field with
    | JStr _ => Return tt
    | JUndefined | JNull =>
        Throw (TypeError "Cannot read properties of null or undefined (reading 'replace')")
    | _ => Throw (TypeError "field.replace is not a function")
    end.

  (** [fields.forEach(field => ... field.replace('_', ' ') ...)]: the
      elements in order, up to the first on which the callback throws; on
      anything but an array [forEach] is not a function. *)
Fixpoint forEachField (fields : list JSValue) : Completion unit :=
    match fields with
    | [] => Return tt
    | field :: rest =>
        match replaceUnderscore field with
        | Return _ => forEachField rest
        | Throw e => Throw e
        end
    end.

Definition forEach (fields : JSValue) : Completion unit :=
    match fields with
    | JArr xs => forEachField xs
    | _ => Throw (TypeError "docResult.critical_fields.forEach is not a function")
    end.

  (** [createFormAnalysisMessage(ocrResult, docResult)]: the text of the
      message is rendering; what is kept is every step of building it that
      can throw. *)
Definition createFormAnalysisMessage (ocrResult docResult : JSValue) : Async GSt unit :=
    document_type <- lift_completion (getProp docResult "document_type") ;;
    lift_completion (getFormTypeDisplay document_type) ;;;
    confidence <- lift_completion (getProp ocrResult "confidence") ;;
    lift_completion (convert confidence) ;;;
    completion_percentage <- lift_completion (getProp docResult "completion_percentage") ;;
    lift_completion (convert completion_percentage) ;;;
    language_detected <- lift_completion (getProp ocrResult "language_detected") ;;
    lift_completion (convert language_detected) ;;;
    critical_fields <- lift_completion (getProp docResult "critical_fields") ;;
    if truthy critical_fields then
      gs <- get ;;
      length <- lift_completion (getProp critical_fields "length") ;;
      some <- lift_completion (positive (numeral gs) length) ;;
      if some then lift_completion (forEach critical_fields) else ret tt
    else ret tt.

  (** [startGuidedFormCompletion()]: with no critical field it asks what to
      work on; otherwise it takes the first one, which has to be a string,
      looks its value up among the extracted fields (the field is the
      property key) and prints it when there is one. The messages are
      rendering. The test [existingValue !== `[...]`] matters for a string
      only, and a falsy value is not printed: the conversion of either
      completes. *)
Definition startGuidedFormCompletion : Async GSt unit :=
    gs <- get ;;
    let criticalFields := match formData (gthis gs) with
                          | Some data => criticalFields data
                          | None => JUndefined
                          end in
    let extractedFields := match formData (gthis gs) with
                           | Some data => extractedFields data
                           | None => JUndefined
                           end in
    if negb (truthy criticalFields) then ret tt
    else
      length <- lift_completion (getProp criticalFields "length") ;;
      if strictEquals (sameObject gs) length (JNum 0) then ret tt
      else
        firstField <- lift_completion (getMember criticalFields "0") ;;
        lift_completion (convert firstField) ;;;
        existingValue <- lift_completion (getMember extractedFields (toStringJS firstField)) ;;
        lift_completion (replaceUnderscore firstField) ;;;
        lift_completion (convert existingValue).

  (** [processVisionResults(ocrResult, docResult)]. The progress element is
      hidden, the language, the form type and the session result are
      assigned in this order, then the form info, the analysis message, the
      conversation section and the first question are put on the page. An
      expression that throws leaves what was assigned before it.
      [updateFormInfo] prints the number of critical fields where the page
      has the element for it; the same value is compared with 0 in
      [createFormAnalysisMessage], in the same state. *)
Definition processVisionResults (ocrResult docResult : JSValue) : Async GSt unit :=
    gupdate (show HideProgress) ;;;
    extractedText <- lift_completion (getProp ocrResult "extracted_text") ;;
    documentType <- lift_completion (getProp docResult "document_type") ;;
    detectedLanguage <- lift_completion (getProp ocrResult "language_detected") ;;
    gs <- get ;;
    (if negb (strictEquals (sameObject gs) detectedLanguage (currentLanguage (gthis gs))) then
       gupdate (setCurrentLanguage detectedLanguage) ;;;
       updateLanguageDisplay
     else ret tt) ;;;
    gupdate (setFormType documentType) ;;;
    extracted_fields <- lift_completion (getProp docResult "extracted_fields") ;;
    critical_fields <- lift_completion (getProp docResult "critical_fields") ;;
    ocrTime <- lift_completion (getProp ocrResult "processing_time") ;;
    docTime <- lift_completion (getProp docResult "processing_time") ;;
    lift_completion (convert ocrTime) ;;;
    lift_completion (convert docTime) ;;;
    gupdate (setFormData (Some
      (mkFormData extractedText documentType detectedLanguage
                  (js_or extracted_fields (JObj [])) (js_or critical_fields (JArr []))
                  (ocrTime, docTime)))) ;;;
    lift_completion (getFormTypeDisplay documentType) ;;;
    createFormAnalysisMessage ocrResult docResult ;;;
    gupdate (show ShowAnalysis) ;;;
    gupdate (show (ShowSection "formConversationSection")) ;;;
    startGuidedFormCompletion.

  (** The body of [processImageWithServerVision] in gemmorandum-multimodal.js
      once the image is encoded: stage 1, stage 2, the two log lines and the
      results. *)
Definition visionStages (base64Image : string) : Async GSt unit :=
    gupdate (setProcessingState (mkProcessing "ocr" 10 "Extracting text from image...")) ;;;
    updateVisionProgress ;;;
    gs <- get ;;
    ocrResult <- onClient (serverOCR_value (numeral gs) base64Image
                                           (currentLanguage (gthis gs)) true) ;;
    gupdate (setProcessingState (mkProcessing "analysis" 50 "Analyzing document structure...")) ;;;
    updateVisionProgress ;;;
    docResult <- onClient (analyzeDocument base64Image "general" true) ;;
    gupdate (setProcessingState (mkProcessing "complete" 100 "Processing complete!")) ;;;
    updateVisionProgress ;;;
    confidence <- lift_completion (getProp ocrResult "confidence") ;;
    lift_completion (convert confidence) ;;;
    document_type <- lift_completion (getProp docResult "document_type") ;;
    lift_completion (convert document_type) ;;;
    processVisionResults ocrResult docResult.

  (** gemmorandum-multimodal.js *)
Definition processImageWithServerVision (imageFile : ImageFile) : Async GSt unit :=
    try_catch
      (base64Image <- onClient (processImageFile imageFile) ;;
       visionStages base64Image)
      handleVisionProcessingError.

  (** A call of a method that the class does not define. *)
Definition notAFunction {A} (name : string) : Async GSt A :=
    throw (TypeError (name +:+ " is not a function")).

  (** gemmorandum-multimodal-fixed.js, as the file stands: its class defines
      [fileToBase64] and [showError] but none of [updateVisionProgress],
      [processVisionResults] and [handleVisionProcessingError], which the
      body and its [catch] call. *)
Definition processImageWithServerVision_fixed (imageFile : ImageFile) : Async GSt unit :=
    try_catch
      (gs <- get ;;
       match aiClient (gthis gs) with
       | None => throw (newError "AI client not available")
       | Some _ => ret tt
       end ;;;
       base64Image <- try_catch (onClient (processImageFile imageFile))
                                (fun _ => fileToBase64 imageFile) ;;
       gupdate (setProcessingState (mkProcessing "ocr" 10 "Extracting text from image...")) ;;;
       notAFunction (A := unit) "this.updateVisionProgress" ;;;
       gs <- get ;;
       ocrResult <- onClient (serverOCR_value (numeral gs) base64Image
                                              (currentLanguage (gthis gs)) true) ;;
       gupdate (setProcessingState
                  (mkProcessing "analysis" 50 "Analyzing document structure...")) ;;;
       notAFunction (A := unit) "this.updateVisionProgress" ;;;
       docResult <- onClient (analyzeDocument base64Image "general" true) ;;
       gupdate (setProcessingState (mkProcessing "complete" 100 "Processing complete!")) ;;;
       notAFunction (A := unit) "this.updateVisionProgress" ;;;
       confidence <- lift_completion (getProp ocrResult "confidence") ;;
       lift_completion (convert confidence) ;;;
       document_type <- lift_completion (getProp docResult "document_type") ;;
       lift_completion (convert document_type) ;;;
       notAFunction "this.processVisionResults")
      (fun error => notAFunction "this.handleVisionProcessingError").

  (** [new GemmorandumMultimodal()] after [initialize] has made its client. *)
Definition constructor (client : option MultimodalAIStationClient) : GemmorandumMultimodal :=
    mkGem client (JStr "en") (mkProcessing "idle" 0 "") None JNull [].

End Gemmorandum.

(** ** The admission rule of the server-side request queue *)

Module AdmissionScheduler.

  (** Modelled from the spec: the priority classes of a RequestEnvelope,
      emergency > medical > legal > translation > chat > background; the
      queue component (enhanced/request_queue.py) is not in the repository. *)
Inductive PriorityClass : Type :=
  | emergency | medical | legal | translation | chat | background.

Definition rank (p : PriorityClass) : nat :=
    match p with
    | emergency => 5 | medical => 4 | legal => 3
    | translation => 2 | chat => 1 | background => 0
    end%nat.

Record RequestEnvelope : Type := mkEnvelope { id : nat; priorityClass : PriorityClass }.

  (** Modelled from the spec: the admission state, the requests that execute
      and the queued ones, oldest first; request_queue.py is missing. *)
Record Scheduler : Type := mkScheduler {
    maxConcurrent : nat;
    maxQueueSize : nat;
    executing : list RequestEnvelope;
    queue : list RequestEnvelope
  }.

Inductive Decision : Type :=
  | Executes                                   (* executes at once *)
  | Queued
  | QueuedEvicting (dropped : RequestEnvelope) (* [dropped] gets OverflowDropped *)
  | Rejected.                                  (* AdmissionRejected *)

  (** Modelled from the spec: "the lowest-priority entry currently queued";
      among several of the lowest class the one enqueued last is taken (the
      spec leaves the choice open); request_queue.py is missing. *)
Fixpoint lowest (q : list RequestEnvelope) : option RequestEnvelope :=
    match q with
    | [] => None
    | e :: q' =>
        match lowest q' with
        | Some l => if (rank (priorityClass e) <? rank (priorityClass l))%nat then Some e else Some l
        | None => Some e
        end
    end.

Fixpoint remove (e : RequestEnvelope) (q : list RequestEnvelope) : list RequestEnvelope :=
    match q with
    | [] => []
    | x :: q' => if (id x =? id e)%nat then q' else x :: remove e q'
    end.

  (** Modelled from the spec: the admission rule of section 4.3 (admit below
      the concurrency ceiling, else enqueue below the queue bound, else evict
      the lowest queued entry for a strictly higher arrival, else reject);
      the queue implementation request_queue.py is missing. *)
Definition submit (s : Scheduler) (r : RequestEnvelope) : Scheduler * Decision :=
    if (List.length (executing s) <? maxConcurrent s)%nat then
      (mkScheduler (maxConcurrent s) (maxQueueSize s) (executing s ++ [r]) (queue s), Executes)
    else if (List.length (queue s) <? maxQueueSize s)%nat then
      (mkScheduler (maxConcurrent s) (maxQueueSize s) (executing s) (queue s ++ [r]), Queued)
    else
      match lowest (queue s) with
      | Some victim =>
          if (rank (priorityClass victim) <? rank (priorityClass r))%nat then
            (mkScheduler (maxConcurrent s) (maxQueueSize s) (executing s)
                         (remove victim (queue s) ++ [r]),
             QueuedEvicting victim)
          else (s, Rejected)
      | None => (s, Rejected)
      end.

  (** Submissions in order, with the decision taken for each. *)
Fixpoint submitAll (s : Scheduler) (rs : list RequestEnvelope) : Scheduler * list Decision :=
    match rs with
    | [] => (s, [])
    | r :: rs' =>
        let '(s1, d) := submit s r in
        let '(s2, ds) := submitAll s1 rs' in
        (s2, d :: ds)
    end.

Definition start (maxConcurrent maxQueueSize : nat) : Scheduler :=
    mkScheduler maxConcurrent maxQueueSize [] [].

  (** Envelopes numbered from [n] for a list of priorities. *)
Fixpoint envelopes (n : nat) (ps : list PriorityClass) : list RequestEnvelope :=
    match ps with
    | [] => []
    | p :: ps' => mkEnvelope n p :: envelopes (S n) ps'
    end.

End AdmissionScheduler.

(** ** More of the client: health check, server info, cache reset *)

(** [checkConnection()]: the periodic health check. Without a station
    address it answers [false] at once; otherwise one fetch without timer,
    and [isConnected] becomes [response.ok]. *)
Definition checkConnection : Async St bool :=
  st <- get ;;
  if negb (truthy (match stationURL (this st) with Some u => JStr u | None => JNull end))
  then ret false
  else
    try_catch
      (response <- fetch None (statusProbe (urlText (stationURL (this st)))) ;;
       let isConnected := ok response in
       update (setIsConnected isConnected) ;;;
       ret isConnected)
      (fun _ => update (setIsConnected false) ;;; ret false).

(** [getServerInfo()]: the parsed status document, [null] on any failure. *)
Definition getServerInfo : Async St JSValue :=
  try_catch
    (st <- get ;;
     response <- fetch None (statusProbe (urlText (stationURL (this st)))) ;;
     data <- lift_completion (json response) ;;
     ret data)
    (fun _ => ret JNull).

(** [clearVisionCache()] *)
Definition clearVisionCache : Async St unit := update (setVisionCache []).

Definition isMultimodalEnabled (c : MultimodalAIStationClient) : JSValue :=
  multimodal (capabilities c).
Definition isVisionProcessingEnabled (c : MultimodalAIStationClient) : JSValue :=
  vision_processing (capabilities c).
Definition getServerMode (c : MultimodalAIStationClient) : JSValue :=
  server_mode (capabilities c).

(** ** More of the orchestrator: uploads, capabilities, guidance *)

Module GemmorandumForms.
Import Gemmorandum.

(** The file of a change event on the upload control. *)
Record Upload : Type := mkUpload {
  upload_name : string;
  upload_type : string;
  upload_size : Z;
  upload_image : ImageFile
}.

(** [visionConfig.supportedFormats] *)
Definition supportedFormats : list string := ["image/jpeg"; "image/png"; "image/webp"].

(** [array.includes(x)] on strings *)
Definition arrayIncludes (xs : list string) (x : string) : bool :=
  existsb (String.eqb x) xs.

(** [showError(message)]: the message is put on the page (and hidden again
    after 8 seconds). *)
Definition showError (message : string) : Async GSt unit :=
  gupdate (show (ShowError message)).

(** [showVisionProcessingProgress()] *)
Definition showVisionProcessingProgress : Async GSt unit :=
  gupdate (setProcessingState
             (mkProcessing "initializing" 0 "Preparing image for analysis...")) ;;;
  updateVisionProgress.

(** [handleFileUpload(event)] of gemmorandum-multimodal.js; [file] is
    [event.target.files[0]]. *)
Definition handleFileUpload (file : option Upload) : Async GSt unit :=
  match file with
  | None => ret tt
  | Some file =>
      if negb (arrayIncludes supportedFormats (upload_type file)) then
        showError "Unsupported file format. Please use JPEG, PNG, or WebP."
      else if 10 * 1024 * 1024 <? upload_size file then
        showError "File too large. Please use files smaller than 10MB."
      else
        showVisionProcessingProgress ;;;
        processImageWithServerVision (upload_image file)
  end.

(** [handleFileUpload(event)] of gemmorandum-multimodal-fixed.js, as the file
    stands: a client that is not connected is asked to find the station
    first. The class of that file defines [showError] but neither
    [startManualEntry] nor [showVisionProcessingProgress]. *)
Definition handleFileUpload_fixed (file : option Upload) : Async GSt unit :=
  match file with
  | None => ret tt
  | Some file =>
      if negb (arrayIncludes supportedFormats (upload_type file)) then
        showError "Unsupported file format. Please use JPEG, PNG, or WebP."
      else if 10 * 1024 * 1024 <? upload_size file then
        showError "File too large. Please use files smaller than 10MB."
      else
        gs <- get ;;
        match aiClient (gthis gs) with
        | None =>
            showError "AI client not initialized. Please refresh the page and try again."
        | Some c =>
            if negb (isConnected c) then
              connected <- onClient detectStation ;;
              if negb connected then
                showError "AI server not available. Please check your connection or use manual entry." ;;;
                notAFunction "this.startManualEntry"
              else
                notAFunction (A := unit) "this.showVisionProcessingProgress" ;;;
                processImageWithServerVision_fixed (upload_image file)
            else
              notAFunction (A := unit) "this.showVisionProcessingProgress" ;;;
              processImageWithServerVision_fixed (upload_image file)
        end
  end.

(** [checkServerCapabilities()] of gemmorandum-multimodal.js;
    [sessionState.useServerVision] is passed in and its new value is
    returned. The log line after the assignment prints [serverInfo.mode] and
    the new value, inside the [try]. *)
Definition checkServerCapabilities (useServerVision : JSValue) : Async GSt JSValue :=
  try_catch
    (serverInfo <- onClient getServerInfo ;;
     if truthy serverInfo then
       vision <- lift_completion (getProp serverInfo "vision_processing") ;;
       mode <- lift_completion (getProp serverInfo "mode") ;;
       lift_completion (convert mode) ;;;
       lift_completion (convert (js_or vision (JBool false))) ;;;
       ret (js_or vision (JBool false))
     else ret useServerVision)
    (fun _ => ret (JBool false)).

(** [checkServerCapabilities()] of gemmorandum-multimodal-fixed.js *)
Definition checkServerCapabilities_fixed (useServerVision : JSValue) : Async GSt JSValue :=
  try_catch
    (gs <- get ;;
     match aiClient (gthis gs) with
     | None => ret (JBool false)
     | Some _ =>
         serverInfo <- onClient getServerInfo ;;
         if truthy serverInfo then
           vision <- lift_completion (getProp serverInfo "vision_processing") ;;
           mode <- lift_completion (getProp serverInfo "mode") ;;
           lift_completion (convert mode) ;;;
           lift_completion (convert (js_or vision (JBool false))) ;;;
           ret (js_or vision (JBool false))
         else ret useServerVision
     end)
    (fun _ => ret (JBool false)).

Definition newline : string := String (ascii_of_nat 10) EmptyString.
Definition quote : string := String (ascii_of_nat 34) EmptyString.

(** The text of the guidance prompt, for a form type and a current field
    that convert. *)
Definition promptText (userMessage : string) (formType currentField : JSValue) : string :=
  let prompt := "You are helping someone complete a " +:+ toStringJS formType +:+ " form."
                +:+ newline +:+ newline in
  let prompt := if truthy currentField
                then prompt +:+ "Currently working on: " +:+ toStringJS currentField +:+ newline
                else prompt in
  let prompt := prompt +:+ "User's response: " +:+ quote +:+ userMessage +:+ quote
                +:+ newline +:+ newline in
  let prompt := prompt +:+ "Please:" +:+ newline in
  let prompt := prompt +:+ "1. Acknowledge their response positively" +:+ newline in
  let prompt := prompt +:+ "2. Ask for the next most important field" +:+ newline in
  let prompt := prompt +:+ "3. Explain why this information is needed" +:+ newline in
  let prompt := prompt +:+ "4. Give an example if helpful" +:+ newline +:+ newline in
  prompt +:+ "Be encouraging and trauma-informed. Keep responses under 100 words.".

(** [buildFormGuidancePrompt(userMessage, context)]; of the context only
    [formType] and [currentField] are read: the form type is printed first,
    the current field when it is truthy. *)
Definition buildFormGuidancePrompt (userMessage : string) (formType currentField : JSValue)
  : Completion string :=
  match convert formType with
  | Throw e => Throw e
  | Return _ =>
      match (if truthy currentField then convert currentField else Return tt) with
      | Throw e => Throw e
      | Return _ => Return (promptText userMessage formType currentField)
      end
  end.

Definition getFallbackResponse (userMessage : string) : string :=
  "Thank you for providing that information. Let me help you with the next field on your form.".

(** [getContextualResponse(userMessage)]; [sessionState.currentField] is
    passed in. The prompt is built before the [try]; the chat is text-only:
    [multimodalChat(prompt)]. *)
Definition getContextualResponse (currentField : JSValue) (userMessage : string)
  : Async GSt JSValue :=
  gs <- get ;;
  prompt <- lift_completion
              (buildFormGuidancePrompt userMessage (formType (gthis gs)) currentField) ;;
  try_catch
    (result <- onClient (multimodalChat prompt None true) ;;
     lift_completion (getProp result "response"))
    (fun _ => ret (JStr (getFallbackResponse userMessage))).

End GemmorandumForms.

(** * Vocabulary of the properties *)

(** ** States, logs and replies *)

Definition cacheOf (st : St) : JSMap := visionCache (this st).

(** The position of the next fetch in the log, and the reply it will get. *)
Definition now (st : St) : nat := List.length (fetchLog (world st)).
Definition replyTo (st : St) (req : Request) : Reply := network (world st) (now st) req.

Definition logAll (reqs : list Request) (w : World) : World :=
  mkWorld (network w) (fetchLog w ++ reqs) (localStorage w).

Definition logged (req : Request) (st : St) : St := setWorld (logFetch req (world st)) st.
Definition disconnected (st : St) : St := setThis (setIsConnected false (this st)) st.

Definition withCache (vc : JSMap) (st : St) : St :=
  setThis (setVisionCache vc (this st)) st.

(** ** Probing and discovery *)

(** A status probe is answered "ready": the reply settles before the 3000 ms
    timer, is a success response, and its JSON body has a [status] that is one
    of the three recognized strings. *)
Definition probeReady (r : Reply) : bool :=
  (latency r <? 3000) &&
  match settled r with
  | Resolved resp =>
      ok resp &&
      match body resp with
      | Some data =>
          match getProp data "status" with
          | Return s => recognizedStatus s
          | Throw _ => false
          end
      | None => false
      end
  | NetworkError _ => false
  end.

Definition httpURL (ip : string) : string := "http://" +:+ ip.

(** Probing [urls] in order from fetch number [n]: the position and the
    address of the first one that is answered "ready". *)
Fixpoint firstReady (net : nat -> Request -> Reply) (n : nat) (urls : list string)
  : option (nat * string) :=
  match urls with
  | [] => None
  | url :: rest =>
      if probeReady (net n (statusProbe url)) then Some (O, url)
      else match firstReady net (S n) rest with
           | Some (i, u) => Some (S i, u)
           | None => None
           end
  end.

(** The persisted address, as the list of addresses it contributes to the
    probing order: none when nothing or the empty string is stored. *)
Definition savedURL (w : World) : list string :=
  match localStorage w !! "aiStationURL" with
  | Some u => if String.eqb u "" then [] else [u]
  | None => []
  end.

(** The order in which [detectStation] probes: the persisted address, the
    IP:port list of the constructor (with the override in front), the
    name-service hostnames. *)
Definition probeOrder (st : St) : list string :=
  savedURL (world st) ++ map httpURL (commonIPs (this st)) ++ map httpURL mdnsNames.

(** [st'] is [st] after the address [url] was adopted: the [probes] were
    logged in order, then the capability fetch to [url]; [persist] tells
    whether [localStorage.setItem] ran. *)
Definition Adopted (persist : bool) (st : St) (probes : list string) (url : string)
    (st' : St) : Prop :=
  exists k,
    st' = mkSt (mkWorld (network (world st))
                        (fetchLog (world st) ++ map statusProbe probes ++ [statusProbe url])
                        (if persist then <["aiStationURL" := url]> (localStorage (world st))
                         else localStorage (world st)))
               (setCapabilities k (setIsConnected true (setStationURL url (this st)))).

(** [st'] is [st] after discovery settled on [url], having probed [probes]. *)
Record Discovered (st : St) (probes : list string) (url : string) (st' : St) : Prop :=
  mkDiscovered {
    disc_station : stationURL (this st') = Some url;
    disc_connected : isConnected (this st') = true;
    disc_persisted : localStorage (world st') !! "aiStationURL" = Some url;
    disc_log : fetchLog (world st') =
               fetchLog (world st) ++ map statusProbe probes ++ [statusProbe url];
    disc_network : network (world st') = network (world st);
    disc_cache : visionCache (this st') = visionCache (this st);
    disc_budgets : timeout (this st') = timeout (this st) /\
                   visionTimeout (this st') = visionTimeout (this st) /\
                   translationTimeout (this st') = translationTimeout (this st)
  }.

(** ** How a dispatch ends *)

(** The fetch that [makeRequest] issues for an endpoint, once a station is
    known. *)
Definition dispatchOf (c : MultimodalAIStationClient) (endpoint : string) (data : JSValue)
    (options : Options) : Request :=
  mkRequest (requestMethod options) (urlText (stationURL c) +:+ endpoint) (Some data).

Definition timeoutError : JSError :=
  newError "Request timeout - AI station is taking too long to respond".

Definition serverError (resp : Response) : JSError :=
  newError ("API request failed: " +:+ toStringRadix 10 (status resp)
            +:+ " " +:+ statusText resp).

(** How a dispatch ends, read off the reply and the budget it runs under. *)
Definition dispatchEnd (budget : Z) (r : Reply) (st : St) : Completion JSValue * St :=
  if budget <=? latency r then (Throw timeoutError, st)
  else
    match settled r with
    | NetworkError msg => (Throw (TypeError msg), disconnected st)
    | Resolved resp =>
        if ok resp then
          match body resp with
          | Some v => (Return v, st)
          | None => (Throw (SyntaxError "Unexpected token in JSON"), disconnected st)
          end
        else (Throw (serverError resp), disconnected st)
    end.

Definition chatPayload (message : string) : JSValue := JObj [("message", JStr message)].

Definition translatePayload (text fromLang toLang context : string) : JSValue :=
  JObj [("text", JStr text); ("from", JStr fromLang); ("to", JStr toLang);
        ("context", JStr context)].

(** The options [translate] passes to [makeRequest]. *)
Definition translateOptions (c : MultimodalAIStationClient) : Options :=
  mkOptions (Some (translationTimeout c)) (Some "POST").

(** The budgets as the constructor sets them. *)
Definition standardBudgets (c : MultimodalAIStationClient) : Prop :=
  timeout c = 600000 /\ visionTimeout c = 600000 /\ translationTimeout c = 900000.

(** ** The cache *)

(** A sequence of [cacheVisionResult] calls. *)
Fixpoint cacheAll (entries : list (string * JSValue)) : Async St unit :=
  match entries with
  | [] => ret tt
  | (key, result) :: rest => cacheVisionResult key result ;;; cacheAll rest
  end.

(** [m] neither reads nor writes the vision cache: run with any other cache
    in place it gives the same completion and the same final state, that
    other cache still in place. *)
Definition CacheBlind {A} (m : Async St A) : Prop :=
  forall vc st, m (withCache vc st) = (fst (m st), withCache vc (snd (m st))).

(** ** Stations and clients of the examples *)

(** A world without any station: every fetch fails at once. *)
Definition offline : World :=
  mkWorld (fun _ _ => mkReply 0 (NetworkError "Failed to fetch")) [] ∅.

(** A client that has adopted the station at 192.168.1.87. *)
Definition connectedClient : MultimodalAIStationClient :=
  setIsConnected true (setStationURL "http://192.168.1.87:8080" (constructor None)).

(** A station that answers "ready" at 192.168.1.87:8080 only; the stored
    address is a stale one. *)
Definition dellStation : World :=
  mkWorld (fun _ req =>
             if String.eqb (req_url req) "http://192.168.1.87:8080/api/status"
             then mkReply 40 (Resolved (mkResponse 200 "OK"
                                (Some (JObj [("status", JStr "ready");
                                             ("multimodal_enabled", JBool true)]))))
             else mkReply 5000 (NetworkError "Failed to fetch"))
          []
          {[ "aiStationURL" := "http://10.0.0.9:8080" ]}.

(** A station that answers status probes at once and lets every other
    request hang for 700 seconds before it answers. *)
Definition slowStation : World :=
  mkWorld (fun _ req =>
             if String.eqb (req_method req) "GET"
             then mkReply 40 (Resolved (mkResponse 200 "OK"
                                (Some (JObj [("status", JStr "ready")]))))
             else mkReply 700000 (Resolved (mkResponse 200 "OK"
                                     (Some (JObj [("response", JStr "late");
                                                  ("translated_text", JStr "marhaban")])))))
          [] ∅.

(** A station whose connection drops on every request. *)
Definition droppingStation : World :=
  mkWorld (fun _ _ => mkReply 120 (NetworkError "Failed to fetch")) [] ∅.

(** A station that answers every request with HTTP 500. *)
Definition failingStation : World :=
  mkWorld (fun _ _ => mkReply 80 (Resolved (mkResponse 500 "Internal Server Error" None)))
          [] ∅.

(** A station that reads every image as the text "T". *)
Definition ocrStation : World :=
  mkWorld (fun _ req =>
             mkReply 900 (Resolved (mkResponse 200 "OK"
                            (Some (JObj [("extracted_text", JStr "T");
                                         ("confidence", JNum 1);
                                         ("language_detected", JStr "en")])))))
          [] ∅.

(** A station that answers every chat in English. *)
Definition chatStation : World :=
  mkWorld (fun _ req =>
             mkReply 1500 (Resolved (mkResponse 200 "OK"
                             (Some (JObj [("response", JStr "Welcome");
                                          ("language_detected", JStr "en")])))))
          [] ∅.

(** A station that reads the text "T" from every image and fails every
    document analysis with HTTP 500. *)
Definition ocrOnlyStation : World :=
  mkWorld (fun _ req =>
             if String.eqb (req_url req) "http://192.168.1.87:8080/api/vision/ocr"
             then mkReply 900 (Resolved (mkResponse 200 "OK"
                                 (Some (JObj [("extracted_text", JStr "T");
                                              ("confidence", JNum 1);
                                              ("language_detected", JStr "en")]))))
             else mkReply 300 (Resolved (mkResponse 500 "Internal Server Error" None)))
          [] ∅.

(** The engine of the examples: of the strings, one made of decimal digits
    with a digit other than 0 among them is positive; the examples compare
    no other string and no array with a number. *)
Definition digitsPositive (v : JSValue) : bool :=
  match v with
  | JStr s =>
      let codes := charCodes s in
      negb (String.eqb s "")
      && forallb (fun c => (48 <=? c) && (c <=? 57)) codes
      && existsb (fun c => negb (c =? 48)) codes
  | _ => false
  end.

(** The orchestrator of a fresh page with a client, on a given world. *)
Definition freshPage (w : World) (c : MultimodalAIStationClient) : Gemmorandum.GSt :=
  Gemmorandum.mkGSt w (Gemmorandum.constructor (Some c)) digitsPositive (fun _ _ => false).

Definition photo : Gemmorandum.ImageFile :=
  Gemmorandum.mkImageFile (Some "data:image/png;base64,AAAA")
                          (Some "data:image/jpeg;base64,AAAA").

(** The state after a chat dispatch that timed out on [slowStation]. *)
Definition afterTimedOutChat : St :=
  snd (makeRequest endpoints.chat (chatPayload "hello") noOptions
                   (mkSt slowStation connectedClient)).

Definition afterFirstOCR : St :=
  snd (serverOCR "data:image/jpeg;base64,AAAA" "en" true (mkSt ocrStation connectedClient)).

Definition afterOCR : St :=
  snd (serverOCR "data:image/jpeg;base64,AAAA" "en" true (mkSt ocrOnlyStation connectedClient)).

Definition afterFailedAnalysis : St :=
  snd (analyzeDocument "data:image/jpeg;base64,AAAA" "general" true afterOCR).

(** A station that reads "Asylum application" from the image that ends in Aa
    and "Medical intake" from every other image. *)
Definition twoFormsStation : World :=
  mkWorld (fun _ req =>
             match req_body req with
             | Some (JObj (("image", JStr image) :: _)) =>
                 mkReply 900 (Resolved (mkResponse 200 "OK"
                   (Some (JObj [("extracted_text",
                                 JStr (if String.eqb image "data:image/jpeg;base64,Aa"
                                       then "Asylum application" else "Medical intake"));
                                ("confidence", JNum 1)]))))
             | _ => mkReply 10 (Resolved (mkResponse 400 "Bad Request" None))
             end)
          [] ∅.

Definition afterAsylumForm : St :=
  snd (serverOCR "data:image/jpeg;base64,Aa" "en" true (mkSt twoFormsStation connectedClient)).

(** ** The vision pipeline after a failure *)

(** What the page is left with when the pipeline fails. *)
Definition failureShown : list Gemmorandum.UIEvent :=
  [ Gemmorandum.HideProgress;
    Gemmorandum.ShowError "Vision processing failed. Please try again or use manual entry.";
    Gemmorandum.ShowSection "form-capture-section" ].

(** The orchestrator after stage 1 succeeded and stage 2 failed leaving the
    client state [st2]: nothing of the session but the progress marker and
    the error display has changed. *)
Definition afterStage2Failure (gs : Gemmorandum.GSt) (st2 : St) : Gemmorandum.GSt :=
  Gemmorandum.mkGSt (world st2)
    (Gemmorandum.mkGem (Some (this st2))
       (Gemmorandum.currentLanguage (Gemmorandum.gthis gs))
       (Gemmorandum.mkProcessing "analysis" 50 "Analyzing document structure...")
       (Gemmorandum.formData (Gemmorandum.gthis gs))
       (Gemmorandum.formType (Gemmorandum.gthis gs))
       (Gemmorandum.ui (Gemmorandum.gthis gs) ++ failureShown))
    (Gemmorandum.numeral gs) (Gemmorandum.sameObject gs).

(** The orchestrator after the photo went through the pipeline on
    [ocrOnlyStation]. *)
Definition afterPartialFailure : Gemmorandum.GSt :=
  snd (Gemmorandum.processImageWithServerVision photo
         (freshPage ocrOnlyStation connectedClient)).

(** The cache key of the OCR call that the orchestrator makes for an image
    when the page language is [language]: [undefined] is the default 'en',
    and a value that is not a string hashes as the empty string does. *)
Definition ocrKey (imageData : string) (language : JSValue) : string :=
  generateCacheKey "ocr" imageData
    match language with
    | JStr l => l
    | JUndefined => "en"
    | _ => ""
    end.

(** ** The admission scenario *)

(** maxConcurrent = 3, maxQueueSize = 1, priorities
    [chat, chat, chat, emergency, chat] submitted in order as requests 1..5. *)
Definition fairnessRun : AdmissionScheduler.Scheduler * list AdmissionScheduler.Decision :=
  AdmissionScheduler.submitAll
    (AdmissionScheduler.start 3 1)
    (AdmissionScheduler.envelopes 1
       [ AdmissionScheduler.chat; AdmissionScheduler.chat; AdmissionScheduler.chat;
         AdmissionScheduler.emergency; AdmissionScheduler.chat ]).

(** The state the fourth submission meets. *)
Definition beforeEmergency : AdmissionScheduler.Scheduler :=
  fst (AdmissionScheduler.submitAll
         (AdmissionScheduler.start 3 1)
         (AdmissionScheduler.envelopes 1
            [ AdmissionScheduler.chat; AdmissionScheduler.chat; AdmissionScheduler.chat ])).

(** ** Health checks and configuration *)

(** The health check is satisfied by a reply: any success response,
    whatever its body. *)
Definition healthy (r : Reply) : bool :=
  match settled r with
  | Resolved resp => ok resp
  | NetworkError _ => false
  end.

(** What [getServerInfo] makes of a reply: the parsed body, whatever the
    HTTP status, and [null] otherwise. *)
Definition serverInfoOf (r : Reply) : JSValue :=
  match settled r with
  | Resolved resp => default JNull (body resp)
  | NetworkError _ => JNull
  end.

(** What the constructor fixes: the three budgets, the addresses to scan and
    the capacity of the cache. *)
Definition configOf (c : MultimodalAIStationClient) : Z * Z * Z * list string * Z :=
  (timeout c, visionTimeout c, translationTimeout c, commonIPs c, maxCacheSize c).

Definition KeepsConfig {A} (m : Async St A) : Prop :=
  forall st, configOf (this (snd (m st))) = configOf (this st).

(** The client with another cache capacity. *)
Definition withCapacity (n : Z) (c : MultimodalAIStationClient) : MultimodalAIStationClient :=
  mkClient (stationURL c) (isConnected c) (timeout c) (visionTimeout c) (translationTimeout c)
           (commonIPs c) (visionCache c) n (capabilities c).

(** A station that is up but still loading its model: it answers the status
    probe with a success response whose status is "loading". *)
Definition loadingStation : World :=
  mkWorld (fun _ _ => mkReply 40 (Resolved (mkResponse 200 "OK"
                                     (Some (JObj [("status", JStr "loading")])))))
          [] ∅.

(** A full document station: OCR reads "T" in English, the analysis finds an
    asylum application. *)
Definition documentStation : World :=
  mkWorld (fun _ req =>
             if String.eqb (req_url req) "http://192.168.1.87:8080/api/vision/ocr"
             then mkReply 900 (Resolved (mkResponse 200 "OK"
                                 (Some (JObj [("extracted_text", JStr "T");
                                              ("confidence", JNum 1);
                                              ("language_detected", JStr "en");
                                              ("processing_time", JNum 3)]))))
             else mkReply 1200 (Resolved (mkResponse 200 "OK"
                                  (Some (JObj [("document_type", JStr "asylum_application");
                                               ("completion_percentage", JNum 0);
                                               ("critical_fields", JArr [JStr "full_name"]);
                                               ("processing_time", JNum 4)])))))
          [] ∅.

(** ** Outcomes of the vision pipeline and of an upload *)

(** A field of a result that is known to be an object. *)
Definition prop (v : JSValue) (name : string) : JSValue :=
  match getProp v name with
  | Return x => x
  | Throw _ => JUndefined
  end.

(** The session result that [processVisionResults] assembles. *)
Definition sessionResult (ocrResult docResult : JSValue) : Gemmorandum.FormData :=
  Gemmorandum.mkFormData
    (prop ocrResult "extracted_text")
    (prop docResult "document_type")
    (prop ocrResult "language_detected")
    (js_or (prop docResult "extracted_fields") (JObj []))
    (js_or (prop docResult "critical_fields") (JArr []))
    (prop ocrResult "processing_time", prop docResult "processing_time").

Definition successShown : list Gemmorandum.UIEvent :=
  [ Gemmorandum.HideProgress; Gemmorandum.ShowAnalysis;
    Gemmorandum.ShowSection "formConversationSection" ].

(** The orchestrator after both stages returned and their results were put
    on the page, the client being left in [st2]: the language is the
    detected one, whatever it is. *)
Definition afterSuccess (gs : Gemmorandum.GSt) (st2 : St) (ocrResult docResult : JSValue)
  : Gemmorandum.GSt :=
  Gemmorandum.mkGSt (world st2)
    (Gemmorandum.mkGem (Some (this st2))
       (prop ocrResult "language_detected")
       (Gemmorandum.mkProcessing "complete" 100 "Processing complete!")
       (Some (sessionResult ocrResult docResult))
       (prop docResult "document_type")
       (Gemmorandum.ui (Gemmorandum.gthis gs) ++ successShown))
    (Gemmorandum.numeral gs) (Gemmorandum.sameObject gs).

(** Where the handling of two returned results can stop with an error:
    at the two log lines before [processVisionResults], at the language
    display, at the sum of the processing times, at the form info and the
    analysis message, or at the first question. *)
Inductive AbortPoint : Type :=
| AtLogLines
| AtLanguage
| AtSessionResult
| AtAnalysis
| AtGuidance.

(** The orchestrator after such a stop: the failure display follows what was
    shown, and the language, the form type and the session result are
    assigned as far as the handling got. *)
Definition afterAbort (point : AbortPoint) (gs : Gemmorandum.GSt) (st2 : St)
    (ocrResult docResult : JSValue) : Gemmorandum.GSt :=
  Gemmorandum.mkGSt (world st2)
    (Gemmorandum.mkGem (Some (this st2))
       match point with
       | AtLogLines => Gemmorandum.currentLanguage (Gemmorandum.gthis gs)
       | _ => prop ocrResult "language_detected"
       end
       (Gemmorandum.mkProcessing "complete" 100 "Processing complete!")
       match point with
       | AtAnalysis | AtGuidance => Some (sessionResult ocrResult docResult)
       | _ => Gemmorandum.formData (Gemmorandum.gthis gs)
       end
       match point with
       | AtLogLines | AtLanguage => Gemmorandum.formType (Gemmorandum.gthis gs)
       | _ => prop docResult "document_type"
       end
       (Gemmorandum.ui (Gemmorandum.gthis gs)
        ++ match point with
           | AtLogLines => []
           | AtGuidance => successShown
           | _ => [Gemmorandum.HideProgress]
           end
        ++ failureShown))
    (Gemmorandum.numeral gs) (Gemmorandum.sameObject gs).

(** Results as the page can show them. A value that is no object and no
    array converts wherever it is printed or used as a key. *)
Definition primitive (v : JSValue) : bool :=
  match v with
  | JArr _ | JObj _ => false
  | _ => true
  end.

Definition isString (v : JSValue) : bool :=
  match v with
  | JStr _ => true
  | _ => false
  end.

(** The critical fields are missing (or falsy), or an array of names. *)
Definition fieldNames (v : JSValue) : bool :=
  match v with
  | JArr xs => forallb isString xs
  | _ => negb (truthy v)
  end.

(** The extracted fields hold no object and no array. *)
Definition flat (v : JSValue) : bool :=
  match v with
  | JObj fields => forallb (fun kv => primitive (snd kv)) fields
  | JArr xs => forallb primitive xs
  | _ => true
  end.

Definition present (v : JSValue) : bool :=
  match v with
  | JNull | JUndefined => false
  | _ => true
  end.

(** A pair of results that [processVisionResults] can put on the page:
    neither is [null], the fields it prints are primitives, the critical
    fields are names and the extracted fields are flat. *)
Definition presentable (ocrResult docResult : JSValue) : bool :=
  present ocrResult && present docResult
  && primitive (prop ocrResult "confidence")
  && primitive (prop ocrResult "language_detected")
  && primitive (prop ocrResult "processing_time")
  && primitive (prop docResult "document_type")
  && primitive (prop docResult "processing_time")
  && primitive (prop docResult "completion_percentage")
  && fieldNames (prop docResult "critical_fields")
  && flat (prop docResult "extracted_fields").

(** The orchestrator after stage 1 failed, the client being left in [st1]. *)
Definition afterStage1Failure (gs : Gemmorandum.GSt) (st1 : St) : Gemmorandum.GSt :=
  Gemmorandum.mkGSt (world st1)
    (Gemmorandum.mkGem (Some (this st1))
       (Gemmorandum.currentLanguage (Gemmorandum.gthis gs))
       (Gemmorandum.mkProcessing "ocr" 10 "Extracting text from image...")
       (Gemmorandum.formData (Gemmorandum.gthis gs))
       (Gemmorandum.formType (Gemmorandum.gthis gs))
       (Gemmorandum.ui (Gemmorandum.gthis gs) ++ failureShown))
    (Gemmorandum.numeral gs) (Gemmorandum.sameObject gs).

(** The orchestrator with one more thing on the page. *)
Definition shown (events : list Gemmorandum.UIEvent) (gs : Gemmorandum.GSt)
  : Gemmorandum.GSt :=
  Gemmorandum.mkGSt (Gemmorandum.gworld gs)
    (Gemmorandum.mkGem (Gemmorandum.aiClient (Gemmorandum.gthis gs))
       (Gemmorandum.currentLanguage (Gemmorandum.gthis gs))
       (Gemmorandum.processingState (Gemmorandum.gthis gs))
       (Gemmorandum.formData (Gemmorandum.gthis gs))
       (Gemmorandum.formType (Gemmorandum.gthis gs))
       (Gemmorandum.ui (Gemmorandum.gthis gs) ++ events))
    (Gemmorandum.numeral gs) (Gemmorandum.sameObject gs).

(** The orchestrator with another progress marker. *)
Definition atStage (state : Gemmorandum.ProcessingState) (gs : Gemmorandum.GSt)
  : Gemmorandum.GSt :=
  Gemmorandum.mkGSt (Gemmorandum.gworld gs)
    (Gemmorandum.setProcessingState state (Gemmorandum.gthis gs))
    (Gemmorandum.numeral gs) (Gemmorandum.sameObject gs).

(** An upload is let through by the two checks of [handleFileUpload]. *)
Definition acceptedUpload (file : GemmorandumForms.Upload) : bool :=
  GemmorandumForms.arrayIncludes GemmorandumForms.supportedFormats
                                 (GemmorandumForms.upload_type file)
  && (GemmorandumForms.upload_size file <=? 10485760).

Definition pdfUpload : GemmorandumForms.Upload :=
  GemmorandumForms.mkUpload "form.pdf" "application/pdf" 52000 photo.

Definition photoUpload : GemmorandumForms.Upload :=
  GemmorandumForms.mkUpload "form.jpg" "image/jpeg" 52000 photo.

(** A station that translates into French. *)
Definition translationStation : World :=
  mkWorld (fun _ _ => mkReply 2000 (Resolved (mkResponse 200 "OK"
                         (Some (JObj [("translated_text", JStr "Bonjour");
                                      ("from_language", JStr "en");
                                      ("to_language", JStr "fr");
                                      ("confidence", JNum 1)])))))
          [] ∅.

(** A station whose every answer is the JSON value [null]. *)
Definition nullStation : World :=
  mkWorld (fun _ _ => mkReply 900 (Resolved (mkResponse 200 "OK" (Some JNull)))) [] ∅.

(** The fields of [R] that the log lines print all convert. *)
Definition printable (R : JSValue) (names : list string) : bool :=
  forallb (fun name => convertible (prop R name)) names.

(** The reply to [req] comes within [budget] and is a success response whose
    parsed body is [R]. *)
Definition answeredWith (st : St) (req : Request) (budget : Z) (R : JSValue) : Prop :=
  latency (replyTo st req) < budget /\
  exists resp, settled (replyTo st req) = Resolved resp /\ ok resp = true /\
               body resp = Some R.

(** The client after [cacheVisionResult(key, R)]. *)
Definition stored (key : string) (R : JSValue) (st : St) : St :=
  withCache (cacheVisionResult_map (maxCacheSize (this st)) key R (cacheOf st)) st.

(** The page after a call on the client has left the client and the world as
    in [st]. *)
Definition withClient (st : St) (gs : Gemmorandum.GSt) : Gemmorandum.GSt :=
  Gemmorandum.mkGSt (world st)
    (Gemmorandum.setAiClient (Some (this st)) (Gemmorandum.gthis gs))
    (Gemmorandum.numeral gs) (Gemmorandum.sameObject gs).

(** The client after a discovery that found no station. *)
Definition afterVainDiscovery (st : St) : St :=
  mkSt (logAll (map statusProbe (probeOrder st)) (world st)) (setIsConnected false (this st)).

(** ** Submissions of the examples *)

(** What [documentStation] reads from an image, and what it finds in it. *)
Definition readText : JSValue :=
  JObj [("extracted_text", JStr "T"); ("confidence", JNum 1);
        ("language_detected", JStr "en"); ("processing_time", JNum 3)].

Definition asylumAnalysis : JSValue :=
  JObj [("document_type", JStr "asylum_application");
        ("completion_percentage", JNum 0);
        ("critical_fields", JArr [JStr "full_name"]);
        ("processing_time", JNum 4)].

Definition afterDocumentOCR : St :=
  snd (serverOCR "data:image/jpeg;base64,AAAA" "en" true
                 (mkSt documentStation connectedClient)).

Definition afterDocumentAnalysis : St :=
  snd (analyzeDocument "data:image/jpeg;base64,AAAA" "general" true afterDocumentOCR).

(** The page after the photo went through the pipeline on [documentStation]. *)
Definition afterFirstSubmission : Gemmorandum.GSt :=
  snd (Gemmorandum.processImageWithServerVision photo
         (freshPage documentStation connectedClient)).

Definition afterFailedOCR : St :=
  snd (serverOCR "data:image/jpeg;base64,AAAA" "en" true
                 (mkSt failingStation connectedClient)).

(** A station like [documentStation] whose analysis lists its critical
    fields by number instead of by name. *)
Definition numberedAnalysis : JSValue :=
  JObj [("document_type", JStr "asylum_application");
        ("completion_percentage", JNum 0);
        ("critical_fields", JArr [JNum 1]);
        ("processing_time", JNum 4)].

Definition numbersStation : World :=
  mkWorld (fun _ req =>
             if String.eqb (req_url req) "http://192.168.1.87:8080/api/vision/ocr"
             then mkReply 900 (Resolved (mkResponse 200 "OK" (Some readText)))
             else mkReply 1200 (Resolved (mkResponse 200 "OK" (Some numberedAnalysis))))
          [] ∅.

Definition afterNumbersOCR : St :=
  snd (serverOCR "data:image/jpeg;base64,AAAA" "en" true
                 (mkSt numbersStation connectedClient)).

Definition afterNumbersAnalysis : St :=
  snd (analyzeDocument "data:image/jpeg;base64,AAAA" "general" true afterNumbersOCR).

(** A file that can be read but not drawn on a canvas. *)
Definition undrawable : Gemmorandum.ImageFile :=
  Gemmorandum.mkImageFile (Some "data:image/png;base64,AAAA") None.

(** A station whose status document has a [mode] that cannot be printed. *)
Definition oddModeStation : World :=
  mkWorld (fun _ _ => mkReply 40 (Resolved (mkResponse 200 "OK"
                         (Some (JObj [("status", JStr "ready");
                                      ("vision_processing", JBool true);
                                      ("mode", JObj [("toString", JNum 1)])])))))
          [] ∅.

(** A station whose OCR answer has a confidence that cannot be printed. *)
Definition oddConfidenceStation : World :=
  mkWorld (fun _ _ => mkReply 900 (Resolved (mkResponse 200 "OK"
                         (Some (JObj [("extracted_text", JStr "T");
                                      ("confidence", JObj [("toString", JNum 1)])])))))
          [] ∅.

(** * Properties *)

(** ** Generic facts about the monad *)

Lemma try_catch_rethrow {S A} (m : Async S A) (s : S) :
  try_catch m (fun error => throw error) s = m s.
Proof.
  unfold try_catch, throw. destruct (m s) as [[a | e] s']; reflexivity.
Qed.

(** ** The vision cache as a map *)

Lemma eqb_refl_str (k : string) : String.eqb k k = true.
Proof. apply String.eqb_refl. Qed.

Lemma Map_get_set_same (k : string) (v : JSValue) (m : JSMap) :
  Map.get k (Map.set k v m) = Some v.
Proof.
  induction m as [| [k' v'] m IH]; simpl.
  - now rewrite eqb_refl_str.
  - destruct (String.eqb k' k) eqn:E; simpl; rewrite E; auto.
Qed.

Lemma Map_get_set_other (k k' : string) (v : JSValue) (m : JSMap) :
  k <> k' -> Map.get k' (Map.set k v m) = Map.get k' m.
Proof.
  intros Hne. induction m as [| [k0 v0] m IH]; simpl.
  - destruct (String.eqb k k') eqn:E; auto.
    apply String.eqb_eq in E. contradiction.
  - destruct (String.eqb k0 k) eqn:E; simpl.
    + apply String.eqb_eq in E. subst k0.
      destruct (String.eqb k k') eqn:E'; auto.
      apply String.eqb_eq in E'. contradiction.
    + destruct (String.eqb k0 k'); auto.
Qed.

Lemma Map_size_set_le (k : string) (v : JSValue) (m : JSMap) :
  Map.size (Map.set k v m) <= Map.size m + 1.
Proof.
  unfold Map.size. induction m as [| [k' v'] m IH]; simpl List.length.
  - lia.
  - destruct (String.eqb k' k); simpl List.length; lia.
Qed.

Lemma Map_set_fresh (k : string) (v : JSValue) (m : JSMap) :
  Map.get k m = None -> Map.set k v m = m ++ [(k, v)].
Proof.
  induction m as [| [k' v'] m IH]; simpl; auto.
  destruct (String.eqb k' k); [discriminate |].
  intros H. now rewrite IH.
Qed.

Lemma Map_get_None_keys (k : string) (m : JSMap) :
  Map.get k m = None <-> ~ In k (Map.keys m).
Proof.
  unfold Map.keys. induction m as [| [k' v'] m IH]; simpl.
  - tauto.
  - destruct (String.eqb k' k) eqn:E.
    + apply String.eqb_eq in E. split; [discriminate | tauto].
    + apply String.eqb_neq in E. rewrite IH. tauto.
Qed.

Lemma Map_delete_first (k : string) (v : JSValue) (m : JSMap) :
  Map.delete k ((k, v) :: m) = m.
Proof. simpl. now rewrite eqb_refl_str. Qed.

(** What [cacheVisionResult] does to the map, by cases on its size. *)
Lemma cacheVisionResult_map_below (maxSize : Z) (k : string) (v : JSValue) (m : JSMap) :
  Map.size m < maxSize -> cacheVisionResult_map maxSize k v m = Map.set k v m.
Proof.
  intros H. unfold cacheVisionResult_map.
  destruct (maxSize <=? Map.size m) eqn:E; auto. apply Z.leb_le in E. lia.
Qed.

Lemma cacheVisionResult_map_full (maxSize : Z) (k : string) (v : JSValue)
    (oldest : string * JSValue) (rest : JSMap) :
  maxSize <= Map.size (oldest :: rest) ->
  cacheVisionResult_map maxSize k v (oldest :: rest) = Map.set k v rest.
Proof.
  intros H. unfold cacheVisionResult_map.
  destruct (maxSize <=? Map.size (oldest :: rest)) eqn:E.
  - destruct oldest as [k0 v0]. unfold Map.firstKey. now rewrite Map_delete_first.
  - apply Z.leb_gt in E. lia.
Qed.

Lemma cacheVisionResult_map_bound (maxSize : Z) (k : string) (v : JSValue) (m : JSMap) :
  1 <= maxSize -> Map.size m <= maxSize ->
  Map.size (cacheVisionResult_map maxSize k v m) <= maxSize.
Proof.
  intros Hmax Hsize.
  destruct (Z_lt_le_dec (Map.size m) maxSize) as [Hlt | Hge].
  - rewrite cacheVisionResult_map_below by assumption.
    pose proof (Map_size_set_le k v m). lia.
  - destruct m as [| oldest rest].
    + unfold Map.size in Hge. simpl in Hge. lia.
    + rewrite cacheVisionResult_map_full by assumption.
      pose proof (Map_size_set_le k v rest).
      unfold Map.size in *. simpl List.length in *. lia.
Qed.

(** ** C6: the capacity bound of the vision cache *)

Lemma cacheVisionResult_run (key : string) (result : JSValue) (st : St) :
  cacheVisionResult key result st =
  (Return tt,
   setThis (setVisionCache
              (cacheVisionResult_map (maxCacheSize (this st)) key result (cacheOf st))
              (this st)) st).
Proof. reflexivity. Qed.

Lemma cacheAll_returns (entries : list (string * JSValue)) (st : St) :
  fst (cacheAll entries st) = Return tt /\
  maxCacheSize (this (snd (cacheAll entries st))) = maxCacheSize (this st).
Proof.
  revert st. induction entries as [| [k v] entries IH]; intros st; simpl.
  - auto.
  - unfold bind. rewrite cacheVisionResult_run.
    destruct (IH (setThis (setVisionCache
              (cacheVisionResult_map (maxCacheSize (this st)) k v (cacheOf st))
              (this st)) st)) as [H1 H2].
    split; [exact H1 | rewrite H2; reflexivity].
Qed.

Lemma cacheAll_bound (entries : list (string * JSValue)) (st : St) :
  1 <= maxCacheSize (this st) ->
  Map.size (cacheOf st) <= maxCacheSize (this st) ->
  Map.size (cacheOf (snd (cacheAll entries st))) <= maxCacheSize (this st).
Proof.
  revert st. induction entries as [| [k v] entries IH]; intros st Hmax Hsize; simpl.
  - exact Hsize.
  - unfold bind. rewrite cacheVisionResult_run.
    apply (IH (setThis (setVisionCache
              (cacheVisionResult_map (maxCacheSize (this st)) k v (cacheOf st))
              (this st)) st)); simpl; auto.
    apply cacheVisionResult_map_bound; assumption.
Qed.

(** Fresh keys only: the cache holds the most recent [maxSize] keys, in the
    order of their insertion. *)
Lemma cacheAll_fresh_keys (maxSize : nat) (entries : list (string * JSValue)) :
  forall (st : St),
    (1 <= maxSize)%nat ->
    maxCacheSize (this st) = Z.of_nat maxSize ->
    (List.length (cacheOf st) <= maxSize)%nat ->
    NoDup (Map.keys (cacheOf st) ++ map fst entries) ->
    Map.keys (cacheOf (snd (cacheAll entries st))) =
    drop (List.length (cacheOf st) + List.length entries - maxSize)
         (Map.keys (cacheOf st) ++ map fst entries).
Proof.
  induction entries as [| [k v] entries IH]; intros st Hpos Hmax Hlen Hnd.
  - simpl. rewrite Nat.add_0_r, app_nil_r.
    replace (List.length (cacheOf st) - maxSize)%nat with 0%nat by lia.
    reflexivity.
  - simpl cacheAll. unfold bind. rewrite cacheVisionResult_run.
    set (m := cacheOf st) in *.
    assert (Hfresh : Map.get k m = None).
    { apply Map_get_None_keys. intros Hin.
      apply NoDup_app in Hnd as (_ & Hdis & _).
      apply (Hdis k); [now apply list_elem_of_In | apply list_elem_of_In; simpl; auto]. }
    destruct (Nat.eq_dec (List.length m) maxSize) as [Hfull | Hroom].
    + destruct m as [| [k0 v0] rest] eqn:Em; [simpl in Hfull; lia |].
      rewrite Hmax.
      rewrite cacheVisionResult_map_full
        by (unfold Map.size; rewrite Hfull; lia).
      assert (Hfresh' : Map.get k rest = None).
      { simpl in Hfresh. destruct (String.eqb k0 k); [discriminate | exact Hfresh]. }
      rewrite (Map_set_fresh _ _ _ Hfresh').
      rewrite IH; clear IH; simpl; unfold cacheOf; simpl; auto.
      * rewrite length_app. simpl in *.
        unfold Map.keys. rewrite map_app. simpl.
        rewrite <- app_assoc. simpl.
        match goal with
        | |- drop ?a _ = drop ?b _ =>
            replace a with (List.length entries) by lia;
            replace b with (S (List.length entries)) by lia
        end.
        reflexivity.
      * rewrite length_app. simpl in *. lia.
      * unfold Map.keys in *. rewrite map_app. simpl in *. rewrite <- app_assoc. simpl.
        apply NoDup_cons in Hnd as [_ Hnd]. exact Hnd.
    + rewrite Hmax.
      rewrite cacheVisionResult_map_below by (unfold Map.size; lia).
      rewrite (Map_set_fresh _ _ _ Hfresh).
      rewrite IH; clear IH; simpl; unfold cacheOf; simpl; auto.
      * rewrite length_app. simpl.
        unfold Map.keys. rewrite map_app. simpl. rewrite <- app_assoc. simpl.
        match goal with
        | |- drop ?a _ = drop ?b _ => replace a with b by lia
        end.
        reflexivity.
      * rewrite length_app. simpl. lia.
      * unfold Map.keys in *. rewrite map_app. simpl. rewrite <- app_assoc. simpl.
        exact Hnd.
Qed.

(** C6. With [maxCacheSize = 50] the vision cache never holds more than 50
    entries, whatever sequence of [cacheVisionResult] calls is made; a call
    made at capacity removes exactly the first entry of the map, the one
    inserted longest ago, before it sets the key; and after inserting keys
    that are all new the cache holds the latest 50 keys in insertion order. *)
Theorem C6_cache_capacity (st : St) :
  maxCacheSize (this st) = 50 ->
  Map.size (cacheOf st) <= 50 ->
  (forall entries, Map.size (cacheOf (snd (cacheAll entries st))) <= 50) /\
  (forall key result,
      Map.size (cacheOf st) = 50 ->
      exists oldest rest,
        cacheOf st = oldest :: rest /\
        cacheOf (snd (cacheVisionResult key result st)) = Map.set key result rest /\
        (Map.get key (cacheOf st) = None ->
         cacheOf (snd (cacheVisionResult key result st)) = rest ++ [(key, result)])) /\
  (forall entries,
      NoDup (Map.keys (cacheOf st) ++ map fst entries) ->
      Map.keys (cacheOf (snd (cacheAll entries st))) =
      drop (List.length (cacheOf st) + List.length entries - 50)
           (Map.keys (cacheOf st) ++ map fst entries)).
Proof.
  intros Hmax Hsize. split; [| split].
  - intros entries. pose proof (cacheAll_bound entries st) as H.
    rewrite Hmax in H. apply H; lia.
  - intros key result Hfull.
    destruct (cacheOf st) as [| oldest rest] eqn:Ecache.
    + unfold Map.size in Hfull. simpl in Hfull. lia.
    + exists oldest, rest. split; [reflexivity |].
      rewrite cacheVisionResult_run. unfold cacheOf at 1 3. simpl.
      rewrite Ecache, Hmax.
      rewrite cacheVisionResult_map_full by lia.
      split; [reflexivity |].
      intros Hnone. apply Map_set_fresh.
      destruct oldest as [k0 v0]. simpl in Hnone.
      destruct (String.eqb k0 key); [discriminate | exact Hnone].
  - intros entries Hnd.
    apply (cacheAll_fresh_keys 50 entries st); auto; try lia.
    unfold Map.size in Hsize. lia.
Qed.

Lemma C6_cache_capacity_witness :
  maxCacheSize (this (mkSt offline (constructor None))) = 50 /\
  Map.size (cacheOf (mkSt offline (constructor None))) <= 50 /\
  Map.size (cacheOf (snd (cacheAll [("ocr_a_b", JNum 1); ("document_a_c", JNum 2)]
                                   (mkSt offline (constructor None))))) <= 50.
Proof.
  split; [reflexivity |]. split; [discriminate |].
  apply (C6_cache_capacity (mkSt offline (constructor None))); [reflexivity | discriminate].
Defined.

(** ** C7 and C9: cache hits *)

Lemma cachedVisionRequest_hit (type endpoint imageData additional : string)
    (payload : JSValue) (logged : list string) (st : St) (R : JSValue) :
  Map.get (generateCacheKey type imageData additional) (cacheOf st) = Some R ->
  cachedVisionRequest type endpoint imageData additional payload logged true st
  = (Return R, st).
Proof.
  intros Hget. unfold cachedVisionRequest. rewrite try_catch_rethrow.
  unfold bind, get, Map.has. fold (cacheOf st). rewrite Hget. reflexivity.
Qed.

Lemma cacheVisionResult_stores (key : string) (result : JSValue) (st : St) :
  Map.get key (cacheOf (snd (cacheVisionResult key result st))) = Some result.
Proof.
  rewrite cacheVisionResult_run. unfold cacheOf. simpl.
  unfold cacheVisionResult_map. apply Map_get_set_same.
Qed.

(** *** The rolling hash modulo 2^32 *)

Lemma toInt32_repr (a : Z) : exists k, toInt32 a = a + k * 2 ^ 32.
Proof.
  unfold toInt32. pose proof (Z.div_mod a (2 ^ 32) ltac:(lia)) as Hdm.
  destruct (a mod 2 ^ 32 <? 2 ^ 31).
  - exists (- (a / 2 ^ 32)). lia.
  - exists (- (a / 2 ^ 32) - 1). lia.
Qed.

Lemma toInt32_periodic (a k : Z) : toInt32 (a + k * 2 ^ 32) = toInt32 a.
Proof. unfold toInt32. now rewrite Z_mod_plus_full. Qed.

(** One turn of the loop is [hash * 31 + char], wrapped to 32 bits. *)
Lemma hashStep_spec (hash char : Z) : hashStep hash char = toInt32 (31 * hash + char).
Proof.
  unfold hashStep, and32, shl32. rewrite Z.land_diag.
  destruct (toInt32_repr hash) as [k1 H1]. rewrite H1.
  rewrite Z.shiftl_mul_pow2 by lia.
  destruct (toInt32_repr ((hash + k1 * 2 ^ 32) * 2 ^ 5)) as [k2 H2]. rewrite H2.
  replace ((hash + k1 * 2 ^ 32) * 2 ^ 5 + k2 * 2 ^ 32 - hash + char)
    with (31 * hash + char + (32 * k1 + k2) * 2 ^ 32) by lia.
  apply toInt32_periodic.
Qed.

Lemma hashStep_two (hash c1 c2 : Z) :
  hashStep (hashStep hash c1) c2 = toInt32 (961 * hash + (31 * c1 + c2)).
Proof.
  rewrite !hashStep_spec.
  destruct (toInt32_repr (31 * hash + c1)) as [k Hk]. rewrite Hk.
  replace (31 * (31 * hash + c1 + k * 2 ^ 32) + c2)
    with (961 * hash + (31 * c1 + c2) + (31 * k) * 2 ^ 32) by lia.
  apply toInt32_periodic.
Qed.

Lemma charCodes_app (a b : string) : charCodes (a +:+ b) = charCodes a ++ charCodes b.
Proof.
  unfold charCodes. induction a as [| x a IH]; simpl; [reflexivity |].
  now rewrite IH.
Qed.

(** Two strings that differ only by "Aa" against "BB" at one place hash alike:
    31 * 65 + 97 = 31 * 66 + 66. *)
Lemma hashString_Aa_BB (before after : string) :
  hashString (before +:+ "Aa" +:+ after) = hashString (before +:+ "BB" +:+ after).
Proof.
  unfold hashString, hashCodes. f_equal.
  rewrite !charCodes_app, !fold_left_app.
  change (charCodes "Aa") with [65; 97]. change (charCodes "BB") with [66; 66].
  cbn [fold_left]. now rewrite !hashStep_two.
Qed.

(** C9. The cache key is not injective: the two distinct images
    "data:image/jpeg;base64,Aa" and "data:image/jpeg;base64,BB" have the same
    [hashString], so for every request kind and auxiliary parameter they get
    the same key (and so do the auxiliary parameters "Aa" and "BB" for every
    image); once a result is cached for the first image, [serverOCR] on the
    second returns that result from the cache, the state unchanged and no
    fetch issued. *)
Theorem C9_cache_key_collision :
  "data:image/jpeg;base64,Aa" <> "data:image/jpeg;base64,BB" /\
  hashString "data:image/jpeg;base64,Aa" = hashString "data:image/jpeg;base64,BB" /\
  (forall type additional,
      generateCacheKey type "data:image/jpeg;base64,Aa" additional =
      generateCacheKey type "data:image/jpeg;base64,BB" additional) /\
  (forall type imageData,
      generateCacheKey type imageData "Aa" = generateCacheKey type imageData "BB") /\
  (forall (st : St) (language : string) (R : JSValue),
      let cached :=
        snd (cacheVisionResult
               (generateCacheKey "ocr" "data:image/jpeg;base64,Aa" language) R st) in
      serverOCR "data:image/jpeg;base64,BB" language true cached = (Return R, cached)).
Proof.
  assert (Hhash : hashString "data:image/jpeg;base64,Aa" = hashString "data:image/jpeg;base64,BB")
    by exact (hashString_Aa_BB "data:image/jpeg;base64," "").
  split; [discriminate |]. split; [exact Hhash |]. split; [| split].
  - intros type additional. unfold generateCacheKey. now rewrite Hhash.
  - intros type imageData. unfold generateCacheKey.
    pose proof (hashString_Aa_BB "" "") as H.
    change (hashString "Aa" = hashString "BB") in H. now rewrite H.
  - intros st language R cached. unfold serverOCR.
    apply cachedVisionRequest_hit.
    unfold generateCacheKey. rewrite <- Hhash.
    apply cacheVisionResult_stores.
Qed.

(** The collision at work: the station would read "Medical intake" from the
    second image, but after the first image was processed the second one is
    answered from the cache with the text of the first, and no fetch is
    made for it. *)
Example collision_serves_other_image :
  fst (serverOCR "data:image/jpeg;base64,BB" "en" true (mkSt twoFormsStation connectedClient))
  = Return (JObj [("extracted_text", JStr "Medical intake"); ("confidence", JNum 1)]) /\
  serverOCR "data:image/jpeg;base64,BB" "en" true afterAsylumForm
  = (Return (JObj [("extracted_text", JStr "Asylum application"); ("confidence", JNum 1)]),
     afterAsylumForm) /\
  List.length (fetchLog (world afterAsylumForm)) = 1%nat.
Proof. vm_compute. repeat split; reflexivity. Qed.

(** ** Probes and discovery *)

Lemma testConnection_run (url : string) (st : St) :
  testConnection url st =
  (Return (probeReady (replyTo st (statusProbe url))),
   setWorld (logFetch (statusProbe url) (world st)) st).
Proof.
  unfold testConnection, try_catch, bind, fetch, fetch_world, fetch_outcome,
    probeReady, replyTo, now, json, lift_completion, ret.
  destruct (network (world st) (List.length (fetchLog (world st))) (statusProbe url))
    as [lat [resp | msg]]; simpl.
  - destruct (3000 <=? lat) eqn:E1, (lat <? 3000) eqn:E2; try lia; simpl; try reflexivity.
    destruct (ok resp); simpl; [| reflexivity].
    destruct (body resp) as [data |]; simpl; [| reflexivity].
    destruct (getProp data "status"); reflexivity.
  - destruct (3000 <=? lat) eqn:E1, (lat <? 3000) eqn:E2; try lia; reflexivity.
Qed.

Lemma setCapabilities_same (c : MultimodalAIStationClient) :
  setCapabilities (capabilities c) c = c.
Proof. destruct c; reflexivity. Qed.

Lemma updateCapabilities_run (st : St) :
  exists k,
    updateCapabilities st =
    (Return tt,
     mkSt (logFetch (statusProbe (urlText (stationURL (this st)))) (world st))
          (setCapabilities k (this st))).
Proof.
  unfold updateCapabilities, try_catch, bind, get, fetch, fetch_world, fetch_outcome,
    json, lift_completion, ret, update, modify, setThis, setWorld.
  destruct (network (world st) (List.length (fetchLog (world st)))
                    (statusProbe (urlText (stationURL (this st)))))
    as [lat [resp | msg]]; simpl.
  - destruct (body resp) as [data |]; simpl.
    + destruct (getProp data "multimodal_enabled") as [mm | e] eqn:E1; simpl;
        [| exists (capabilities (this st)); now rewrite setCapabilities_same].
      destruct (getProp data "vision_processing") as [vp | e]; simpl;
        [| exists (capabilities (this st)); now rewrite setCapabilities_same].
      destruct (getProp data "mode") as [mode | e]; simpl;
        [| exists (capabilities (this st)); now rewrite setCapabilities_same].
      destruct (getProp data "model_type") as [mt | e]; simpl;
        [| exists (capabilities (this st)); now rewrite setCapabilities_same].
      eexists. reflexivity.
    + exists (capabilities (this st)). now rewrite setCapabilities_same.
  - exists (capabilities (this st)). now rewrite setCapabilities_same.
Qed.

Lemma firstReady_app (net : nat -> Request -> Reply) (n : nat) (l1 l2 : list string) :
  firstReady net n (l1 ++ l2) =
  match firstReady net n l1 with
  | Some r => Some r
  | None =>
      match firstReady net (n + List.length l1) l2 with
      | Some (i, u) => Some ((List.length l1 + i)%nat, u)
      | None => None
      end
  end.
Proof.
  revert n. induction l1 as [| url l1 IH]; intros n; simpl.
  - rewrite Nat.add_0_r. destruct (firstReady net n l2) as [[i u] |]; reflexivity.
  - destruct (probeReady (net n (statusProbe url))); [reflexivity |].
    rewrite IH. destruct (firstReady net (S n) l1) as [[i u] |]; [reflexivity |].
    replace (n + S (List.length l1))%nat with (S n + List.length l1)%nat by lia.
    destruct (firstReady net (S n + List.length l1) l2) as [[i u] |]; reflexivity.
Qed.

(** What [firstReady] finds: the address at that position answers "ready" at
    its turn, and every address before it did not at its own turn. *)
Lemma firstReady_Some (net : nat -> Request -> Reply) (urls : list string) :
  forall n i url,
    firstReady net n urls = Some (i, url) ->
    urls !! i = Some url /\
    probeReady (net (n + i)%nat (statusProbe url)) = true /\
    (forall j u, (j < i)%nat -> urls !! j = Some u ->
                 probeReady (net (n + j)%nat (statusProbe u)) = false).
Proof.
  induction urls as [| url0 urls IH]; intros n i url H; simpl in H; [discriminate |].
  destruct (probeReady (net n (statusProbe url0))) eqn:E.
  - injection H as <- <-. rewrite Nat.add_0_r. repeat split; auto. intros; lia.
  - destruct (firstReady net (S n) urls) as [[i' u'] |] eqn:E'; [| discriminate].
    injection H as <- <-. destruct (IH _ _ _ E') as (H1 & H2 & H3).
    split; [exact H1 |]. split.
    + now replace (n + S i')%nat with (S n + i')%nat by lia.
    + intros [| j] u Hj Hu; simpl in Hu.
      * injection Hu as <-. now rewrite Nat.add_0_r.
      * replace (n + S j)%nat with (S n + j)%nat by lia. apply H3; [lia | exact Hu].
Qed.

Lemma firstReady_None (net : nat -> Request -> Reply) (urls : list string) :
  forall n,
    firstReady net n urls = None ->
    forall j u, urls !! j = Some u -> probeReady (net (n + j)%nat (statusProbe u)) = false.
Proof.
  induction urls as [| url0 urls IH]; intros n H j u Hu; [destruct j; discriminate |].
  simpl in H. destruct (probeReady (net n (statusProbe url0))) eqn:E; [discriminate |].
  destruct (firstReady net (S n) urls) as [[i' u'] |] eqn:E'; [discriminate |].
  destruct j as [| j]; simpl in Hu.
  - injection Hu as <-. now rewrite Nat.add_0_r.
  - replace (n + S j)%nat with (S n + j)%nat by lia. now apply IH.
Qed.

Lemma now_logFetch (req : Request) (st : St) :
  now (setWorld (logFetch req (world st)) st) = S (now st).
Proof. unfold now. simpl. rewrite length_app. simpl. lia. Qed.

Lemma logAll_nil (st : St) : setWorld (logAll [] (world st)) st = st.
Proof.
  destruct st as [[net log sto] c]. unfold setWorld, logAll. simpl.
  now rewrite app_nil_r.
Qed.

Lemma scanAddresses_run (ips : list string) :
  forall st,
    match firstReady (network (world st)) (now st) (map httpURL ips) with
    | Some (i, url) =>
        exists st', scanAddresses ips st = (Return true, st') /\
                    Adopted true st (take (S i) (map httpURL ips)) url st'
    | None =>
        scanAddresses ips st =
        (Return false, setWorld (logAll (map statusProbe (map httpURL ips)) (world st)) st)
    end.
Proof.
  induction ips as [| ip ips IH]; intros st.
  - simpl. unfold ret. now rewrite logAll_nil.
  - cbn [map firstReady].
    assert (Hstep : scanAddresses (ip :: ips) st =
                    if probeReady (network (world st) (now st) (statusProbe (httpURL ip)))
                    then (update (setStationURL (httpURL ip)) ;;;
                          update (setIsConnected true) ;;;
                          modify (fun st0 => setWorld (setItem "aiStationURL" (httpURL ip)
                                                               (world st0)) st0) ;;;
                          updateCapabilities ;;; ret true)
                           (setWorld (logFetch (statusProbe (httpURL ip)) (world st)) st)
                    else scanAddresses ips
                           (setWorld (logFetch (statusProbe (httpURL ip)) (world st)) st)).
    { cbn [scanAddresses]. unfold bind at 1. rewrite testConnection_run.
      unfold replyTo, httpURL.
      destruct (probeReady (network (world st) (now st) (statusProbe ("http://" +:+ ip))));
        reflexivity. }
    rewrite Hstep. clear Hstep.
    destruct (probeReady (network (world st) (now st) (statusProbe (httpURL ip)))) eqn:Eready.
    + unfold bind, update, modify. cbn [setThis setWorld world this].
      match goal with
      | |- context [updateCapabilities ?s] =>
          destruct (updateCapabilities_run s) as [k Hk]; rewrite Hk
      end.
      eexists. split; [reflexivity |].
      exists k. cbn. unfold logFetch. cbn. rewrite <- app_assoc. reflexivity.
    + specialize (IH (setWorld (logFetch (statusProbe (httpURL ip)) (world st)) st)).
      rewrite now_logFetch in IH. cbn [world setWorld logFetch network] in IH.
      destruct (firstReady (network (world st)) (S (now st)) (map httpURL ips))
        as [[i url] |] eqn:Efirst.
      * destruct IH as (st' & Hrun & k & Hst'). exists st'. split; [exact Hrun |].
        exists k. rewrite Hst'. cbn. rewrite <- app_assoc. reflexivity.
      * rewrite IH. unfold logAll, setWorld. cbn. rewrite <- app_assoc. reflexivity.
Qed.

Lemma trySavedURL_run (st : St) :
  match firstReady (network (world st)) (now st) (savedURL (world st)) with
  | Some (i, url) =>
      exists st', trySavedURL st = (Return true, st') /\
                  Adopted false st (take (S i) (savedURL (world st))) url st' /\
                  localStorage (world st) !! "aiStationURL" = Some url
  | None =>
      trySavedURL st =
      (Return false, setWorld (logAll (map statusProbe (savedURL (world st))) (world st)) st)
  end.
Proof.
  assert (Hstep : trySavedURL st =
                  match localStorage (world st) !! "aiStationURL" with
                  | Some u =>
                      if String.eqb u "" then (Return false, st)
                      else if probeReady (network (world st) (now st) (statusProbe u))
                           then (update (setStationURL u) ;;;
                                 update (setIsConnected true) ;;;
                                 updateCapabilities ;;; ret true)
                                  (setWorld (logFetch (statusProbe u) (world st)) st)
                           else (Return false,
                                 setWorld (logFetch (statusProbe u) (world st)) st)
                  | None => (Return false, st)
                  end).
  { unfold trySavedURL. unfold bind at 1. unfold get.
    destruct (localStorage (world st) !! "aiStationURL") as [u |]; [| reflexivity].
    destruct (String.eqb u ""); [reflexivity |].
    unfold bind at 1. rewrite testConnection_run. unfold replyTo.
    destruct (probeReady (network (world st) (now st) (statusProbe u))); reflexivity. }
  rewrite Hstep. clear Hstep. unfold savedURL.
  destruct (localStorage (world st) !! "aiStationURL") as [u |] eqn:Esaved.
  - destruct (String.eqb u "") eqn:Eempty.
    + simpl. now rewrite logAll_nil.
    + cbn [firstReady].
      destruct (probeReady (network (world st) (now st) (statusProbe u))).
      * unfold bind, update, modify. cbn [setThis setWorld world this].
        match goal with
        | |- context [updateCapabilities ?s] =>
            destruct (updateCapabilities_run s) as [k Hk]; rewrite Hk
        end.
        eexists. split; [reflexivity |]. split; [| reflexivity].
        exists k. cbn. unfold logFetch. cbn. rewrite <- app_assoc. reflexivity.
      * unfold logAll, setWorld, logFetch. reflexivity.
  - simpl. now rewrite logAll_nil.
Qed.

Lemma now_logAll (reqs : list Request) (st : St) :
  now (setWorld (logAll reqs (world st)) st) = (now st + List.length reqs)%nat.
Proof. unfold now. simpl. now rewrite length_app. Qed.

Lemma Adopted_saved (st : St) (probes : list string) (url : string) (st' : St) :
  Adopted false st probes url st' ->
  localStorage (world st) !! "aiStationURL" = Some url ->
  Discovered st probes url st'.
Proof.
  intros [k ->] Hsaved. constructor; cbn; auto.
Qed.

Lemma Adopted_scanned (st : St) (before probes : list string) (url : string) (st' : St) :
  Adopted true (setWorld (logAll (map statusProbe before) (world st)) st) probes url st' ->
  Discovered st (before ++ probes) url st'.
Proof.
  intros [k ->]. constructor; cbn; auto.
  - apply lookup_insert_eq.
  - now rewrite map_app, <- !app_assoc.
Qed.

Lemma firstReady_bound (net : nat -> Request -> Reply) (urls : list string) (n i : nat)
    (url : string) :
  firstReady net n urls = Some (i, url) -> (S i <= List.length urls)%nat.
Proof.
  intros H. apply firstReady_Some in H as (H & _). apply lookup_lt_Some in H. lia.
Qed.

Lemma detectStation_run (st : St) :
  match firstReady (network (world st)) (now st) (probeOrder st) with
  | Some (i, url) =>
      exists st', detectStation st = (Return true, st') /\
                  Discovered st (take (S i) (probeOrder st)) url st'
  | None =>
      detectStation st =
      (Return false,
       mkSt (logAll (map statusProbe (probeOrder st)) (world st))
            (setIsConnected false (this st)))
  end.
Proof.
  unfold probeOrder.
  set (saved := savedURL (world st)).
  set (ips := map httpURL (commonIPs (this st))).
  set (names := map httpURL mdnsNames).
  pose proof (trySavedURL_run st) as H1. fold saved in H1.
  set (st1 := setWorld (logAll (map statusProbe saved) (world st)) st) in *.
  pose proof (scanAddresses_run (commonIPs (this st)) st1) as H2. fold ips in H2.
  replace (now st1) with (now st + List.length saved)%nat in H2
    by (unfold st1; now rewrite now_logAll, length_map).
  change (network (world st1)) with (network (world st)) in H2.
  set (st2 := setWorld (logAll (map statusProbe ips) (world st1)) st1) in *.
  pose proof (scanAddresses_run mdnsNames st2) as H3. fold names in H3.
  replace (now st2) with (now st + List.length saved + List.length ips)%nat in H3
    by (unfold st2, st1; now rewrite !now_logAll, !length_map).
  change (network (world st2)) with (network (world st)) in H3.
  rewrite !firstReady_app.
  destruct (firstReady (network (world st)) (now st) saved) as [[i url] |] eqn:E1.
  { destruct H1 as (st' & Hrun & Had & Hsto). exists st'. split.
    - unfold detectStation. unfold bind at 1. now rewrite Hrun.
    - rewrite take_app_le by (eapply firstReady_bound; eassumption).
      now apply Adopted_saved. }
  assert (Hds1 : detectStation st =
                 (found <- scanAddresses (commonIPs (this st)) ;;
                  if found then ret true
                  else found <- scanAddresses mdnsNames ;;
                       if found then ret true
                       else update (setIsConnected false) ;;; ret false) st1).
  { unfold detectStation. unfold bind at 1. rewrite H1. unfold bind at 1. reflexivity. }
  destruct (firstReady (network (world st)) (now st + List.length saved) ips)
    as [[i url] |] eqn:E2.
  { destruct H2 as (st' & Hrun & Had). exists st'. split.
    - rewrite Hds1. unfold bind at 1. now rewrite Hrun.
    - replace (S (List.length saved + i)) with (List.length saved + S i)%nat by lia.
      rewrite take_app_add.
      rewrite take_app_le by (eapply firstReady_bound; eassumption).
      now apply Adopted_scanned. }
  assert (Hds2 : detectStation st =
                 (found <- scanAddresses mdnsNames ;;
                  if found then ret true
                  else update (setIsConnected false) ;;; ret false) st2).
  { rewrite Hds1. unfold bind at 1. now rewrite H2. }
  destruct (firstReady (network (world st)) (now st + List.length saved + List.length ips)
                       names) as [[i url] |] eqn:E3.
  { destruct H3 as (st' & Hrun & Had). exists st'. split.
    - rewrite Hds2. unfold bind at 1. now rewrite Hrun.
    - replace (S (List.length saved + (List.length ips + i)))
        with (List.length saved + (List.length ips + S i))%nat by lia.
      rewrite !take_app_add.
      apply Adopted_scanned in Had. destruct Had.
      constructor; auto.
      rewrite disc_log0. unfold st1. cbn. now rewrite !map_app, <- !app_assoc. }
  rewrite Hds2. unfold bind at 1. rewrite H3.
  unfold bind, update, modify, ret, st2, st1, logAll, setWorld, setThis. cbn.
  now rewrite !map_app, <- !app_assoc.
Qed.

Lemma probeReady_iff (r : Reply) :
  probeReady r = true <->
  latency r < 3000 /\
  exists resp data s,
    settled r = Resolved resp /\ ok resp = true /\ body resp = Some data /\
    getProp data "status" = Return (JStr s) /\
    (s = "ready" \/ s = "ok" \/ s = "online").
Proof.
  unfold probeReady. split.
  - intros H. apply andb_true_iff in H as [Hlat H]. apply Z.ltb_lt in Hlat.
    split; [exact Hlat |].
    destruct (settled r) as [resp | msg]; [| discriminate].
    apply andb_true_iff in H as [Hok H].
    destruct (body resp) as [data |] eqn:Ebody; [| discriminate].
    destruct (getProp data "status") as [s | e] eqn:Estatus; [| discriminate].
    destruct s as [| | b | n | s | xs | fields]; try discriminate.
    exists resp, data, s.
    split; [reflexivity |]. split; [exact Hok |]. split; [exact Ebody |].
    split; [exact Estatus |].
    simpl in H. apply orb_true_iff in H as [H | H];
      [apply orb_true_iff in H as [H | H] |]; apply String.eqb_eq in H; auto.
  - intros (Hlat & resp & data & s & -> & Hok & -> & -> & Hs).
    apply Z.ltb_lt in Hlat. rewrite Hlat, Hok. simpl.
    destruct Hs as [-> | [-> | ->]]; reflexivity.
Qed.

(** C4. [detectStation] probes the addresses of [probeOrder] in order (the
    persisted address first, then the IP:port list, then the name-service
    hostnames), each with a 3-second status probe. The first address whose
    probe is answered in time with a success response whose status is
    "ready", "ok" or "online" is adopted: the method returns true, the address
    is the client's station and is the value stored under aiStationURL, and
    exactly the addresses up to it were probed. When no probe is answered so,
    the method returns false, every address was probed once, and neither the
    station address nor the storage changes. The IP:port list is the built-in
    one, with the page's ai_server override in front when there is one. *)
Theorem C4_station_discovery (st : St) :
  (forall i url,
      firstReady (network (world st)) (now st) (probeOrder st) = Some (i, url) ->
      probeOrder st !! i = Some url /\
      probeReady (network (world st) (now st + i)%nat (statusProbe url)) = true /\
      (forall j u, (j < i)%nat -> probeOrder st !! j = Some u ->
                   probeReady (network (world st) (now st + j)%nat (statusProbe u)) = false) /\
      exists st', detectStation st = (Return true, st') /\
                  Discovered st (take (S i) (probeOrder st)) url st') /\
  (firstReady (network (world st)) (now st) (probeOrder st) = None ->
      (forall j u, probeOrder st !! j = Some u ->
                   probeReady (network (world st) (now st + j)%nat (statusProbe u)) = false) /\
      detectStation st =
      (Return false,
       mkSt (mkWorld (network (world st))
                     (fetchLog (world st) ++ map statusProbe (probeOrder st))
                     (localStorage (world st)))
            (setIsConnected false (this st)))) /\
  (forall r : Reply,
      probeReady r = true <->
      latency r < 3000 /\
      exists resp data s,
        settled r = Resolved resp /\ ok resp = true /\ body resp = Some data /\
        getProp data "status" = Return (JStr s) /\
        (s = "ready" \/ s = "ok" \/ s = "online")) /\
  probeOrder st
  = savedURL (world st) ++ map httpURL (commonIPs (this st)) ++ map httpURL mdnsNames /\
  (forall aiServer, exists override,
      commonIPs (constructor aiServer) = override ++ defaultIPs /\
      (List.length override <= 1)%nat).
Proof.
  pose proof (detectStation_run st) as Hrun.
  split; [| split; [| split; [| split; [reflexivity |]]]]; cycle 3.
  { intros [a |]; [| exists []; split; [reflexivity | simpl; lia]].
    unfold constructor, checkURLParameter. cbn [commonIPs].
    destruct (String.eqb a "");
      [exists [] | exists [a]]; split; try reflexivity; simpl; lia. }
  - intros i url Hfirst. rewrite Hfirst in Hrun.
    destruct (firstReady_Some _ _ _ _ _ Hfirst) as (H1 & H2 & H3).
    split; [exact H1 | split; [exact H2 | split; [exact H3 | exact Hrun]]].
  - intros Hnone. rewrite Hnone in Hrun. split; [| exact Hrun].
    now apply firstReady_None.
  - exact probeReady_iff.
Qed.

Lemma C4_station_discovery_witness :
  firstReady (network dellStation) 0 (probeOrder (mkSt dellStation (constructor None)))
  = Some (3%nat, "http://192.168.1.87:8080") /\
  exists st',
    detectStation (mkSt dellStation (constructor None)) = (Return true, st') /\
    Discovered (mkSt dellStation (constructor None))
               [ "http://10.0.0.9:8080"; "http://localhost:8080"; "http://127.0.0.1:8080";
                 "http://192.168.1.87:8080" ]
               "http://192.168.1.87:8080" st'.
Proof.
  assert (H : firstReady (network (world (mkSt dellStation (constructor None))))
                         (now (mkSt dellStation (constructor None)))
                         (probeOrder (mkSt dellStation (constructor None)))
              = Some (3%nat, "http://192.168.1.87:8080")) by (vm_compute; reflexivity).
  split; [exact H |].
  exact (proj2 (proj2 (proj2
    (proj1 (C4_station_discovery (mkSt dellStation (constructor None))) _ _ H)))).
Defined.

(** ** Dispatch *)

Lemma sendRequest_run (endpoint : string) (data : JSValue) (options : Options) (st : St) :
  sendRequest endpoint data options st =
  dispatchEnd (actualTimeout endpoint options (this st))
              (replyTo st (dispatchOf (this st) endpoint data options))
              (logged (dispatchOf (this st) endpoint data options) st).
Proof.
  unfold sendRequest, dispatchEnd, try_catch, bind, get, fetch, fetch_world, fetch_outcome,
    replyTo, now, dispatchOf, json, lift_completion, ret, throw, logged, disconnected,
    update, modify, serverError.
  destruct (network (world st) (List.length (fetchLog (world st)))
              (mkRequest (requestMethod options)
                         (urlText (stationURL (this st)) +:+ endpoint) (Some data)))
    as [lat [resp | msg]]; simpl;
    destruct (actualTimeout endpoint options (this st) <=? lat); try reflexivity.
  destruct (ok resp); simpl; [| reflexivity].
  destruct (body resp); reflexivity.
Qed.

Lemma makeRequest_connected (endpoint : string) (data : JSValue) (options : Options)
    (st : St) :
  needsDiscovery (this st) = false ->
  makeRequest endpoint data options st = sendRequest endpoint data options st.
Proof.
  intros H. unfold makeRequest. unfold bind at 1. unfold get.
  rewrite H. reflexivity.
Qed.

Lemma makeRequest_discovers (endpoint : string) (data : JSValue) (options : Options)
    (st : St) :
  needsDiscovery (this st) = true ->
  makeRequest endpoint data options st =
  (connected <- detectStation ;;
   if connected then sendRequest endpoint data options
   else throw (newError "No AI station available")) st.
Proof.
  intros H. unfold makeRequest. unfold bind at 1. unfold get.
  rewrite H. unfold bind, throw, ret.
  destruct (detectStation st) as [[[|] | e] st']; reflexivity.
Qed.

(** Every dispatch on a known station issues exactly one fetch, whatever its
    end. *)
Lemma dispatchEnd_world (budget : Z) (r : Reply) (st : St) :
  world (snd (dispatchEnd budget r st)) = world st.
Proof.
  unfold dispatchEnd, disconnected.
  destruct (budget <=? latency r); [reflexivity |].
  destruct (settled r) as [resp | msg]; [| reflexivity].
  destruct (ok resp); [| reflexivity]. destruct (body resp); reflexivity.
Qed.

Lemma makeRequest_one_fetch (endpoint : string) (data : JSValue) (options : Options)
    (st : St) :
  needsDiscovery (this st) = false ->
  fetchLog (world (snd (makeRequest endpoint data options st))) =
  fetchLog (world st) ++ [dispatchOf (this st) endpoint data options].
Proof.
  intros H. rewrite makeRequest_connected, sendRequest_run by assumption.
  now rewrite dispatchEnd_world.
Qed.

(** ** C2: what a failed dispatch does to the connection state *)

(** C2, as stated, fails on a timeout: a chat dispatch that ends in Timeout
    leaves [isConnected] true, so the next dispatch needs no discovery and
    goes straight to the same address; the log of the two dispatches holds
    the two POSTs and no status probe. *)
Lemma C2_timeout_keeps_station :
  fst (makeRequest endpoints.chat (chatPayload "hello") noOptions
                   (mkSt slowStation connectedClient)) = Throw timeoutError /\
  isConnected (this afterTimedOutChat) = true /\
  needsDiscovery (this afterTimedOutChat) = false /\
  fetchLog (world (snd (makeRequest endpoints.chat (chatPayload "again") noOptions
                                    afterTimedOutChat))) =
  [ mkRequest "POST" "http://192.168.1.87:8080/api/chat" (Some (chatPayload "hello"));
    mkRequest "POST" "http://192.168.1.87:8080/api/chat" (Some (chatPayload "again")) ].
Proof. vm_compute. repeat split; reflexivity. Qed.

(** C2 (amended). A dispatch on a known station issues exactly one fetch,
    whatever its end: a failed call is not retried. When it ends in
    NetworkFailure the TypeError is rethrown and [isConnected] is cleared, so
    the next dispatch runs [detectStation] before anything else and throws
    "No AI station available" when that fails. When it ends in Timeout the
    timeout error is thrown and the client is left as it was: the next
    dispatch goes to the same address without discovery. *)
Theorem C2_dispatch_failure_handling (st : St) (endpoint : string) (data : JSValue)
    (options : Options) :
  needsDiscovery (this st) = false ->
  let req := dispatchOf (this st) endpoint data options in
  let budget := actualTimeout endpoint options (this st) in
  let after := snd (makeRequest endpoint data options st) in
  fetchLog (world after) = fetchLog (world st) ++ [req] /\
  (forall msg,
      latency (replyTo st req) < budget ->
      settled (replyTo st req) = NetworkError msg ->
      fst (makeRequest endpoint data options st) = Throw (TypeError msg) /\
      isConnected (this after) = false /\
      forall endpoint' data' options',
        makeRequest endpoint' data' options' after =
        (connected <- detectStation ;;
         if connected then sendRequest endpoint' data' options'
         else throw (newError "No AI station available")) after) /\
  (budget <= latency (replyTo st req) ->
      fst (makeRequest endpoint data options st) = Throw timeoutError /\
      this after = this st /\
      forall endpoint' data' options',
        makeRequest endpoint' data' options' after = sendRequest endpoint' data' options' after).
Proof.
  intros Hknown req budget after.
  split; [apply makeRequest_one_fetch; exact Hknown |].
  assert (Hrun : makeRequest endpoint data options st =
                 dispatchEnd budget (replyTo st req) (logged req st)).
  { rewrite makeRequest_connected by exact Hknown. apply sendRequest_run. }
  unfold after. rewrite Hrun. unfold dispatchEnd. split.
  - intros msg Hlat Hnet.
    destruct (budget <=? latency (replyTo st req)) eqn:E; [apply Z.leb_le in E; lia |].
    rewrite Hnet. split; [reflexivity |]. split; [reflexivity |].
    intros. apply makeRequest_discovers. reflexivity.
  - intros Hlat. apply Z.leb_le in Hlat. rewrite Hlat.
    split; [reflexivity |]. split; [reflexivity |].
    intros. apply makeRequest_connected. exact Hknown.
Qed.

Lemma C2_dispatch_failure_handling_witness :
  needsDiscovery (this (mkSt droppingStation connectedClient)) = false /\
  isConnected
    (this (snd (makeRequest endpoints.chat (chatPayload "hello") noOptions
                            (mkSt droppingStation connectedClient)))) = false.
Proof.
  split; [reflexivity |].
  exact (proj1 (proj2 (proj1 (proj2
    (C2_dispatch_failure_handling (mkSt droppingStation connectedClient)
       endpoints.chat (chatPayload "hello") noOptions eq_refl))
    "Failed to fetch" eq_refl eq_refl))).
Defined.

(** ** C8: errors that reach the caller *)

(** C8 fails for family search: on a station that answers HTTP 500 the
    dispatch of [searchFamily] throws, exactly as the same failure makes
    [getMedicalAdvice] throw, but [searchFamily] returns the empty array,
    the value it also returns for a search without matches. *)
Theorem C8_searchFamily_swallows_failure :
  fst (makeRequest endpoints.search
         (JObj [("query", JStr "Amina Yusuf"); ("type", JStr "family")]) noOptions
         (mkSt failingStation connectedClient))
  = Throw (newError "API request failed: 500 Internal Server Error") /\
  fst (getMedicalAdvice "fever" "normal" (mkSt failingStation connectedClient))
  = Throw (newError "API request failed: 500 Internal Server Error") /\
  fst (searchFamily "Amina Yusuf" (mkSt failingStation connectedClient)) = Return (JArr []) /\
  forall (st : St) (query : string), exists v, fst (searchFamily query st) = Return v.
Proof.
  split; [vm_compute; reflexivity |]. split; [vm_compute; reflexivity |].
  split; [vm_compute; reflexivity |].
  intros st query. unfold searchFamily, try_catch, bind, ret, lift_completion.
  destruct (makeRequest endpoints.search _ noOptions st) as [[result | e] st'];
    [| eexists; reflexivity].
  destruct (getProp result "matches"); eexists; reflexivity.
Qed.

(** ** C5: the timeout tiers *)

Lemma getProp_throws_TypeError (v : JSValue) (name : string) (e : JSError) :
  getProp v name = Throw e -> err_name e = "TypeError".
Proof. destruct v; simpl; intros [= <-]; reflexivity. Qed.

Lemma transformTranslation_throws (result : JSValue) (e : JSError) :
  transformTranslation result = Throw e -> err_name e = "TypeError".
Proof.
  unfold transformTranslation. destruct (truthy result); [| discriminate].
  destruct (getProp result "translated_text") as [t | e1] eqn:E1.
  - destruct (truthy t); [| discriminate].
    destruct (getProp result "from_language") as [f | e2] eqn:E2.
    + destruct (getProp result "to_language") as [o | e3] eqn:E3; [discriminate |].
      intros [= <-]. eapply getProp_throws_TypeError; eassumption.
    + destruct (getProp result "to_language"); intros [= <-];
        eapply getProp_throws_TypeError; eassumption.
  - intros [= <-]. eapply getProp_throws_TypeError; eassumption.
Qed.

Lemma dispatchEnd_in_time (budget : Z) (r : Reply) (st : St) :
  latency r < budget -> fst (dispatchEnd budget r st) <> Throw timeoutError.
Proof.
  intros Hlat. unfold dispatchEnd.
  destruct (budget <=? latency r) eqn:E; [apply Z.leb_le in E; lia |].
  destruct (settled r) as [resp | msg]; [| cbn [fst]; discriminate].
  destruct (ok resp); [destruct (body resp); cbn [fst]; discriminate |].
  unfold serverError, timeoutError, newError. cbn [fst]. intros [= H].
Qed.

Lemma dispatchEnd_late (budget : Z) (r : Reply) (st : St) :
  budget <= latency r -> dispatchEnd budget r st = (Throw timeoutError, st).
Proof. intros H. unfold dispatchEnd. apply Z.leb_le in H. now rewrite H. Qed.

Lemma chatWithGemma_run (message : string) (st : St) :
  needsDiscovery (this st) = false ->
  chatWithGemma message st =
  dispatchEnd (timeout (this st))
              (replyTo st (dispatchOf (this st) endpoints.chat (chatPayload message) noOptions))
              (logged (dispatchOf (this st) endpoints.chat (chatPayload message) noOptions) st).
Proof.
  intros H. unfold chatWithGemma. rewrite try_catch_rethrow.
  rewrite makeRequest_connected by exact H. apply sendRequest_run.
Qed.

Lemma translate_timeout (text fromLang toLang context : string) (st : St) :
  needsDiscovery (this st) = false ->
  translationTimeout (this st) <> 0 ->
  let req := dispatchOf (this st) endpoints.translate
               (translatePayload text fromLang toLang context) (translateOptions (this st)) in
  (translationTimeout (this st) <= latency (replyTo st req) ->
   translate text fromLang toLang context st = (Throw timeoutError, logged req st)) /\
  (latency (replyTo st req) < translationTimeout (this st) ->
   fst (translate text fromLang toLang context st) <> Throw timeoutError).
Proof.
  intros Hknown Hbudget req.
  assert (Hactual : actualTimeout endpoints.translate (translateOptions (this st)) (this st)
                    = translationTimeout (this st)).
  { unfold actualTimeout, requestTimeout, translateOptions. simpl.
    destruct (translationTimeout (this st) =? 0) eqn:E; [apply Z.eqb_eq in E; lia | reflexivity]. }
  assert (Hrun : translate text fromLang toLang context st =
                 match dispatchEnd (translationTimeout (this st)) (replyTo st req)
                                   (logged req st) with
                 | (Return result, st') => (transformTranslation result, st')
                 | (Throw e, st') => (Throw e, st')
                 end).
  { unfold translate. rewrite try_catch_rethrow. unfold bind at 1. unfold get.
    unfold bind. fold (translatePayload text fromLang toLang context).
    fold (translateOptions (this st)).
    rewrite makeRequest_connected, sendRequest_run by exact Hknown.
    rewrite Hactual. reflexivity. }
  rewrite Hrun. split.
  - intros Hlate. now rewrite dispatchEnd_late.
  - intros Hlat. pose proof (dispatchEnd_in_time _ _ (logged req st) Hlat) as Hne.
    destruct (dispatchEnd (translationTimeout (this st)) (replyTo st req) (logged req st))
      as [[result | e] st']; [| exact Hne].
    cbn [fst]. intros Hthrow.
    apply transformTranslation_throws in Hthrow. discriminate.
Qed.

(** C5. The constructor sets three budgets: 600000 ms for standard requests,
    600000 ms for vision, 900000 ms for translation, the largest. A chat
    dispatch runs under [timeout], a translation dispatch under
    [translationTimeout], and every vision or multimodal endpoint under
    [visionTimeout], whatever options are passed. On a known station with
    these budgets a chat request whose reply takes 600000 ms or more ends in
    the timeout error and one that is answered sooner does not; a translation
    request ends in the timeout error from 900000 ms on and not before. *)
Theorem C5_timeout_tiers :
  (forall aiServer, standardBudgets (constructor aiServer)) /\
  (forall c options,
      actualTimeout endpoints.chat noOptions c = timeout c /\
      (translationTimeout c <> 0 ->
       actualTimeout endpoints.translate (translateOptions c) c = translationTimeout c) /\
      actualTimeout endpoints.vision.ocr options c = visionTimeout c /\
      actualTimeout endpoints.vision.document options c = visionTimeout c /\
      actualTimeout endpoints.vision.medical options c = visionTimeout c /\
      actualTimeout endpoints.multimodal.chat options c = visionTimeout c) /\
  (forall st message,
      needsDiscovery (this st) = false ->
      standardBudgets (this st) ->
      let req := dispatchOf (this st) endpoints.chat (chatPayload message) noOptions in
      (600000 <= latency (replyTo st req) ->
       chatWithGemma message st = (Throw timeoutError, logged req st)) /\
      (latency (replyTo st req) < 600000 ->
       fst (chatWithGemma message st) <> Throw timeoutError)) /\
  (forall st text fromLang toLang context,
      needsDiscovery (this st) = false ->
      standardBudgets (this st) ->
      let req := dispatchOf (this st) endpoints.translate
                   (translatePayload text fromLang toLang context)
                   (translateOptions (this st)) in
      (900000 <= latency (replyTo st req) ->
       translate text fromLang toLang context st = (Throw timeoutError, logged req st)) /\
      (latency (replyTo st req) < 900000 ->
       fst (translate text fromLang toLang context st) <> Throw timeoutError)).
Proof.
  split; [| split; [| split]].
  - intros aiServer. repeat split.
  - intros c options. repeat split.
    intros Hne. unfold actualTimeout, requestTimeout, translateOptions. simpl.
    destruct (translationTimeout c =? 0) eqn:E; [apply Z.eqb_eq in E; lia | reflexivity].
  - intros st message Hknown (Ht & _ & _) req.
    rewrite chatWithGemma_run by exact Hknown. fold req. rewrite Ht. split.
    + apply dispatchEnd_late.
    + apply dispatchEnd_in_time.
  - intros st text fromLang toLang context Hknown (_ & _ & Ht) req.
    assert (Hne : translationTimeout (this st) <> 0) by lia.
    pose proof (translate_timeout text fromLang toLang context st Hknown Hne) as H.
    cbv zeta in H. fold req in H. rewrite Ht in H. exact H.
Qed.

(** On [slowStation] every request is answered after 700 seconds: the chat
    times out, the translation comes back. *)
Lemma C5_timeout_tiers_witness :
  needsDiscovery (this (mkSt slowStation connectedClient)) = false /\
  standardBudgets (this (mkSt slowStation connectedClient)) /\
  fst (chatWithGemma "hello" (mkSt slowStation connectedClient)) = Throw timeoutError /\
  fst (translate "hello" "en" "ar" "general" (mkSt slowStation connectedClient))
  <> Throw timeoutError.
Proof.
  assert (Hb : standardBudgets (this (mkSt slowStation connectedClient)))
    by (repeat split).
  split; [reflexivity |]. split; [exact Hb |]. split.
  - rewrite (proj1 (proj1 (proj2 (proj2 C5_timeout_tiers))
                          (mkSt slowStation connectedClient) "hello" eq_refl Hb)).
    + reflexivity.
    + vm_compute. discriminate.
  - apply (proj2 (proj2 (proj2 (proj2 C5_timeout_tiers))
                        (mkSt slowStation connectedClient) "hello" "en" "ar" "general"
                        eq_refl Hb)).
    vm_compute. reflexivity.
Defined.

Example translate_on_slowStation :
  fst (translate "hello" "en" "ar" "general" (mkSt slowStation connectedClient))
  = Return (JObj [("translation", JStr "marhaban"); ("from_language", JUndefined);
                  ("to_language", JUndefined); ("success", JBool true)]).
Proof. vm_compute. reflexivity. Qed.

(** ** C7: the cache round trip *)

Lemma cachedVisionRequest_stores (type endpoint imageData additional : string)
    (payload : JSValue) (logged : list string) (st st' : St) (R : JSValue) :
  cachedVisionRequest type endpoint imageData additional payload logged true st
  = (Return R, st') ->
  Map.get (generateCacheKey type imageData additional) (cacheOf st') = Some R.
Proof.
  unfold cachedVisionRequest. rewrite try_catch_rethrow.
  unfold bind at 1. unfold get. cbn [andb]. fold (cacheOf st).
  unfold Map.has.
  destruct (Map.get (generateCacheKey type imageData additional) (cacheOf st))
    as [hit |] eqn:Ehit.
  - unfold ret. cbn [default]. intros [= <- <-]. exact Ehit.
  - unfold bind, lift_completion.
    destruct (makeRequest endpoint payload noOptions st) as [[result | e] st1];
      [| discriminate].
    destruct (printFields result logged); [| discriminate].
    rewrite cacheVisionResult_run. unfold ret. intros [= <- <-].
    unfold cacheOf. cbn. unfold cacheVisionResult_map. apply Map_get_set_same.
Qed.

Lemma cachedVisionRequest_round_trip (type endpoint imageData additional : string)
    (payload : JSValue) (logged : list string) (st st' : St) (R : JSValue) :
  cachedVisionRequest type endpoint imageData additional payload logged true st
  = (Return R, st') ->
  cachedVisionRequest type endpoint imageData additional payload logged true st'
  = (Return R, st').
Proof.
  intros H. apply cachedVisionRequest_hit.
  eapply cachedVisionRequest_stores. exact H.
Qed.

(** ** C10: methods that do not look at the vision cache *)

Lemma withCache_same (st : St) : withCache (cacheOf st) st = st.
Proof. destruct st as [w c]. destruct c. reflexivity. Qed.

Lemma CacheBlind_preserves {A} (m : Async St A) (st : St) :
  CacheBlind m -> cacheOf (snd (m st)) = cacheOf st.
Proof.
  intros H. specialize (H (cacheOf st) st). rewrite withCache_same in H.
  rewrite H at 1. reflexivity.
Qed.

Section Blind.
Context {A B : Type}.

Lemma ret_blind (a : A) : CacheBlind (ret a).
  Proof. intros vc st. reflexivity. Qed.

Lemma throw_blind (e : JSError) : CacheBlind (@throw St A e).
  Proof. intros vc st. reflexivity. Qed.

Lemma lift_completion_blind (c : Completion A) : CacheBlind (lift_completion c).
  Proof. intros vc st. reflexivity. Qed.

Lemma bind_blind (m : Async St A) (k : A -> Async St B) :
    CacheBlind m -> (forall a, CacheBlind (k a)) -> CacheBlind (bind m k).
  Proof.
    intros Hm Hk vc st. unfold bind. rewrite Hm.
    destruct (m st) as [[a | e] st']; cbn [fst snd]; [apply Hk | reflexivity].
  Qed.

Lemma try_catch_blind (m : Async St A) (h : JSError -> Async St A) :
    CacheBlind m -> (forall e, CacheBlind (h e)) -> CacheBlind (try_catch m h).
  Proof.
    intros Hm Hh vc st. unfold try_catch. rewrite Hm.
    destruct (m st) as [[a | e] st']; cbn [fst snd]; [reflexivity | apply Hh].
  Qed.

  (** A continuation of [get] that uses the state it is given only through
      what [withCache] leaves alone. *)
Lemma get_blind (k : St -> Async St A) :
    (forall vc st, k (withCache vc st) = k st) ->
    (forall s, CacheBlind (k s)) ->
    CacheBlind (bind get k).
  Proof.
    intros Hsame Hk vc st. unfold bind, get. rewrite Hsame. apply Hk.
  Qed.
End Blind.

Lemma update_blind (f : MultimodalAIStationClient -> MultimodalAIStationClient) :
  (forall vc c, f (setVisionCache vc c) = setVisionCache vc (f c)) ->
  CacheBlind (update f).
Proof.
  intros H vc st. unfold update, modify, withCache, setThis. cbn. now rewrite H.
Qed.

Lemma fetch_blind (timer : option Z) (req : Request) : CacheBlind (fetch timer req).
Proof. intros vc st. reflexivity. Qed.

Lemma testConnection_blind (url : string) : CacheBlind (testConnection url).
Proof. intros vc st. rewrite !testConnection_run. reflexivity. Qed.

Create HintDb blind.

#[local] Hint Resolve ret_blind throw_blind lift_completion_blind fetch_blind
  testConnection_blind : blind.

Ltac blind_step :=
  lazymatch goal with
  | |- CacheBlind (bind get _) => apply get_blind; [intros ? ?; reflexivity | intros ?]
  | |- CacheBlind (bind _ _) => apply bind_blind; [| intros ?]
  | |- CacheBlind (try_catch _ _) => apply try_catch_blind; [| intros ?]
  | |- CacheBlind (update _) => apply update_blind; intros ? ?; reflexivity
  | |- CacheBlind (if ?b then _ else _) => destruct b
  | |- CacheBlind (match ?c with _ => _ end) => destruct c
  | |- CacheBlind _ => solve [auto with blind]
  end.

Ltac blind := repeat blind_step.

Lemma updateCapabilities_blind : CacheBlind updateCapabilities.
Proof. unfold updateCapabilities. blind. Qed.

Lemma persist_blind (url : string) :
  CacheBlind (modify (fun st => setWorld (setItem "aiStationURL" url (world st)) st)).
Proof. intros vc st. reflexivity. Qed.

#[local] Hint Resolve updateCapabilities_blind persist_blind : blind.

Lemma scanAddresses_blind (addresses : list string) : CacheBlind (scanAddresses addresses).
Proof.
  induction addresses as [| ip rest IH]; cbn [scanAddresses]; blind.
Qed.

Lemma trySavedURL_blind : CacheBlind trySavedURL.
Proof. unfold trySavedURL. blind. Qed.

#[local] Hint Resolve scanAddresses_blind trySavedURL_blind : blind.

Lemma detectStation_blind : CacheBlind detectStation.
Proof. unfold detectStation. blind. Qed.

Lemma sendRequest_blind (endpoint : string) (data : JSValue) (options : Options) :
  CacheBlind (sendRequest endpoint data options).
Proof. unfold sendRequest. blind. Qed.

#[local] Hint Resolve detectStation_blind sendRequest_blind : blind.

Lemma makeRequest_blind (endpoint : string) (data : JSValue) (options : Options) :
  CacheBlind (makeRequest endpoint data options).
Proof. unfold makeRequest. blind. Qed.

#[local] Hint Resolve makeRequest_blind : blind.

Lemma multimodalChat_text_only_blind (text : string) (useCache : bool) :
  CacheBlind (multimodalChat text None useCache).
Proof.
  unfold multimodalChat. cbn [imageValue truthy andb]. blind.
Qed.

Lemma truthy_nonempty (s : string) : s <> "" -> truthy (JStr s) = true.
Proof.
  intros H. simpl. destruct (String.eqb s "") eqn:E; [| reflexivity].
  apply String.eqb_eq in E. contradiction.
Qed.

Lemma generateCacheKey_truthy (type imageData additional : string) :
  type <> "" -> truthy (JStr (generateCacheKey type imageData additional)) = true.
Proof.
  intros H. apply truthy_nonempty. unfold generateCacheKey.
  destruct type as [| a type]; [contradiction | discriminate].
Qed.

(** [multimodalChat] with an image and caching on, by what the cache holds. *)
Lemma multimodalChat_image_run (text image : string) (st : St) :
  image <> "" ->
  multimodalChat text (Some image) true st =
  match Map.get (generateCacheKey "chat" image text) (cacheOf st) with
  | Some hit => (Return hit, st)
  | None =>
      (result <- makeRequest endpoints.multimodal.chat
                   (JObj [("text", JStr text); ("image", JStr image)]) noOptions ;;
       lift_completion (printFields result ["language_detected"]) ;;;
       cacheVisionResult (generateCacheKey "chat" image text) result ;;;
       ret result) st
  end.
Proof.
  intros Himage. unfold multimodalChat. rewrite try_catch_rethrow.
  cbn [imageValue]. change (default "" (Some image)) with image.
  rewrite (truthy_nonempty _ Himage). cbn [andb].
  rewrite generateCacheKey_truthy by discriminate.
  unfold bind at 1. unfold get. fold (cacheOf st). unfold Map.has.
  destruct (Map.get (generateCacheKey "chat" image text) (cacheOf st)); reflexivity.
Qed.

(** ** C7: the round trip through the vision cache *)

Lemma printFields_printable (R : JSValue) (names : list string) :
  R <> JNull -> R <> JUndefined -> printable R names = true ->
  printFields R names = Return tt.
Proof.
  intros Hnull Hundef. unfold printable.
  induction names as [| name rest IH]; [reflexivity |].
  cbn [forallb printFields]. intros H. apply andb_true_iff in H as [Hname Hrest].
  assert (Hget : getProp R name = Return (prop R name))
    by (unfold prop; destruct R; try contradiction; reflexivity).
  rewrite Hget. unfold convert. rewrite Hname. now apply IH.
Qed.

(** The dispatch of a miss: the request, the fields printed in the log
    lines, the store, the return. *)
Lemma dispatch_and_store (endpoint : string) (payload : JSValue) (fields : list string)
    (key : string) (st : St) (R : JSValue) :
  needsDiscovery (this st) = false ->
  R <> JNull -> R <> JUndefined -> printable R fields = true ->
  answeredWith st (dispatchOf (this st) endpoint payload noOptions)
               (actualTimeout endpoint noOptions (this st)) R ->
  (result <- makeRequest endpoint payload noOptions ;;
   lift_completion (printFields result fields) ;;;
   cacheVisionResult key result ;;;
   ret result) st
  = (Return R, stored key R (logged (dispatchOf (this st) endpoint payload noOptions) st)).
Proof.
  intros Hknown Hnull Hundef Hprint (Hlat & resp & Hsettled & Hok & Hbody).
  unfold bind. rewrite makeRequest_connected, sendRequest_run by exact Hknown.
  unfold dispatchEnd.
  destruct (actualTimeout endpoint noOptions (this st)
            <=? latency (replyTo st (dispatchOf (this st) endpoint payload noOptions))) eqn:E;
    [apply Z.leb_le in E; lia |].
  rewrite Hsettled, Hok, Hbody. unfold lift_completion.
  rewrite printFields_printable by assumption. reflexivity.
Qed.

Lemma cachedVisionRequest_dispatch (type endpoint imageData additional : string)
    (payload : JSValue) (fields : list string) (st : St) (R : JSValue) :
  needsDiscovery (this st) = false ->
  R <> JNull -> R <> JUndefined -> printable R fields = true ->
  Map.get (generateCacheKey type imageData additional) (cacheOf st) = None ->
  answeredWith st (dispatchOf (this st) endpoint payload noOptions)
               (actualTimeout endpoint noOptions (this st)) R ->
  cachedVisionRequest type endpoint imageData additional payload fields true st
  = (Return R,
     stored (generateCacheKey type imageData additional) R
            (logged (dispatchOf (this st) endpoint payload noOptions) st)).
Proof.
  intros Hknown Hnull Hundef Hprint Hmiss Hanswer.
  unfold cachedVisionRequest. rewrite try_catch_rethrow.
  unfold bind at 1. unfold get. cbn [andb]. unfold Map.has. fold (cacheOf st).
  rewrite Hmiss. now apply dispatch_and_store.
Qed.

Lemma multimodalChat_stores (text image : string) (st st' : St) (R : JSValue) :
  image <> "" ->
  multimodalChat text (Some image) true st = (Return R, st') ->
  Map.get (generateCacheKey "chat" image text) (cacheOf st') = Some R.
Proof.
  intros Himage. rewrite multimodalChat_image_run by exact Himage.
  destruct (Map.get (generateCacheKey "chat" image text) (cacheOf st)) as [hit |] eqn:Ehit.
  - intros [= <- <-]. exact Ehit.
  - unfold bind, lift_completion.
    destruct (makeRequest endpoints.multimodal.chat _ noOptions st) as [[result | e] st1];
      [| discriminate].
    destruct (printFields result ["language_detected"]); [| discriminate].
    rewrite cacheVisionResult_run. unfold ret. intros [= <- <-].
    unfold cacheOf. cbn. unfold cacheVisionResult_map. apply Map_get_set_same.
Qed.

(** C7. With caching on, every vision request ([serverOCR],
    [analyzeDocument], [analyzeMedicalImage], and [multimodalChat] with an
    image) whose key is in the cache returns the stored result R and leaves
    the whole state, the fetch log included, as it was: no dispatch is made.
    Whenever one of them returns a result R, R is stored under the key of
    its (kind, image, parameter) triple, and the same call made again
    returns R from the cache. And a result does get in: on a known station,
    a request whose key is not in the cache and which is answered in time
    by a success response with body R (other than [null], and whose fields
    printed in the log lines convert) makes its one dispatch, returns R and
    stores it. The key is [generateCacheKey] of the triple, the same term at
    the lookup and at the store. *)
Theorem C7_cache_round_trip (st : St) (imageData aux : string) (R : JSValue) :
  ((Map.get (generateCacheKey "ocr" imageData aux) (cacheOf st) = Some R ->
    serverOCR imageData aux true st = (Return R, st)) /\
   (Map.get (generateCacheKey "document" imageData aux) (cacheOf st) = Some R ->
    analyzeDocument imageData aux true st = (Return R, st)) /\
   (Map.get (generateCacheKey "medical" imageData aux) (cacheOf st) = Some R ->
    analyzeMedicalImage imageData aux true st = (Return R, st)) /\
   (imageData <> "" ->
    Map.get (generateCacheKey "chat" imageData aux) (cacheOf st) = Some R ->
    multimodalChat aux (Some imageData) true st = (Return R, st))) /\
  ((forall st',
       serverOCR imageData aux true st = (Return R, st') ->
       Map.get (generateCacheKey "ocr" imageData aux) (cacheOf st') = Some R /\
       serverOCR imageData aux true st' = (Return R, st')) /\
   (forall st',
       analyzeDocument imageData aux true st = (Return R, st') ->
       Map.get (generateCacheKey "document" imageData aux) (cacheOf st') = Some R /\
       analyzeDocument imageData aux true st' = (Return R, st')) /\
   (forall st',
       analyzeMedicalImage imageData aux true st = (Return R, st') ->
       Map.get (generateCacheKey "medical" imageData aux) (cacheOf st') = Some R /\
       analyzeMedicalImage imageData aux true st' = (Return R, st')) /\
   (forall st',
       imageData <> "" ->
       multimodalChat aux (Some imageData) true st = (Return R, st') ->
       Map.get (generateCacheKey "chat" imageData aux) (cacheOf st') = Some R /\
       multimodalChat aux (Some imageData) true st' = (Return R, st'))) /\
  (needsDiscovery (this st) = false -> R <> JNull -> R <> JUndefined ->
   (forall req,
       req = dispatchOf (this st) endpoints.vision.ocr
               (JObj [("image", JStr imageData); ("language", JStr aux)]) noOptions ->
       Map.get (generateCacheKey "ocr" imageData aux) (cacheOf st) = None ->
       answeredWith st req (visionTimeout (this st)) R ->
       printable R ["confidence"; "character_count"; "word_count"] = true ->
       serverOCR imageData aux true st
       = (Return R, stored (generateCacheKey "ocr" imageData aux) R (logged req st))) /\
   (forall req,
       req = dispatchOf (this st) endpoints.vision.document
               (JObj [("image", JStr imageData); ("document_type", JStr aux)]) noOptions ->
       Map.get (generateCacheKey "document" imageData aux) (cacheOf st) = None ->
       answeredWith st req (visionTimeout (this st)) R ->
       printable R ["document_type"; "completion_percentage"] = true ->
       analyzeDocument imageData aux true st
       = (Return R, stored (generateCacheKey "document" imageData aux) R (logged req st))) /\
   (forall req,
       req = dispatchOf (this st) endpoints.vision.medical
               (JObj [("image", JStr imageData); ("symptoms", JStr aux)]) noOptions ->
       Map.get (generateCacheKey "medical" imageData aux) (cacheOf st) = None ->
       answeredWith st req (visionTimeout (this st)) R ->
       printable R ["urgency_level"] = true ->
       analyzeMedicalImage imageData aux true st
       = (Return R, stored (generateCacheKey "medical" imageData aux) R (logged req st))) /\
   (forall req,
       imageData <> "" ->
       req = dispatchOf (this st) endpoints.multimodal.chat
               (JObj [("text", JStr aux); ("image", JStr imageData)]) noOptions ->
       Map.get (generateCacheKey "chat" imageData aux) (cacheOf st) = None ->
       answeredWith st req (visionTimeout (this st)) R ->
       printable R ["language_detected"] = true ->
       multimodalChat aux (Some imageData) true st
       = (Return R, stored (generateCacheKey "chat" imageData aux) R (logged req st)))).
Proof.
  split; [| split].
  - split; [| split; [| split]]; try apply cachedVisionRequest_hit.
    intros Himage Hget. rewrite multimodalChat_image_run by exact Himage.
    now rewrite Hget.
  - split; [| split; [| split]].
    + intros st' H. split.
      * eapply cachedVisionRequest_stores. exact H.
      * eapply cachedVisionRequest_round_trip. exact H.
    + intros st' H. split.
      * eapply cachedVisionRequest_stores. exact H.
      * eapply cachedVisionRequest_round_trip. exact H.
    + intros st' H. split.
      * eapply cachedVisionRequest_stores. exact H.
      * eapply cachedVisionRequest_round_trip. exact H.
    + intros st' Himage H.
      pose proof (multimodalChat_stores aux imageData st st' R Himage H) as Hstored.
      split; [exact Hstored |].
      rewrite multimodalChat_image_run by exact Himage. now rewrite Hstored.
  - intros Hknown Hnull Hundef. split; [| split; [| split]].
    + intros req -> Hmiss Hanswer Hprint. now apply cachedVisionRequest_dispatch.
    + intros req -> Hmiss Hanswer Hprint. now apply cachedVisionRequest_dispatch.
    + intros req -> Hmiss Hanswer Hprint. now apply cachedVisionRequest_dispatch.
    + intros req Himage -> Hmiss Hanswer Hprint.
      rewrite multimodalChat_image_run by exact Himage. rewrite Hmiss.
      now apply dispatch_and_store.
Qed.

Lemma C7_cache_round_trip_witness :
  serverOCR "data:image/jpeg;base64,AAAA" "en" true (mkSt ocrStation connectedClient)
  = (Return (JObj [("extracted_text", JStr "T"); ("confidence", JNum 1);
                   ("language_detected", JStr "en")]), afterFirstOCR) /\
  serverOCR "data:image/jpeg;base64,AAAA" "en" true afterFirstOCR
  = (Return (JObj [("extracted_text", JStr "T"); ("confidence", JNum 1);
                   ("language_detected", JStr "en")]), afterFirstOCR) /\
  List.length (fetchLog (world afterFirstOCR)) = 1%nat.
Proof.
  assert (Hknown : needsDiscovery (this (mkSt ocrStation connectedClient)) = false)
    by reflexivity.
  assert (Hmiss : Map.get (generateCacheKey "ocr" "data:image/jpeg;base64,AAAA" "en")
                          (cacheOf (mkSt ocrStation connectedClient)) = None)
    by reflexivity.
  assert (Hanswer : answeredWith (mkSt ocrStation connectedClient)
                      (dispatchOf connectedClient endpoints.vision.ocr
                         (JObj [("image", JStr "data:image/jpeg;base64,AAAA");
                                ("language", JStr "en")]) noOptions)
                      (visionTimeout connectedClient)
                      (JObj [("extracted_text", JStr "T"); ("confidence", JNum 1);
                             ("language_detected", JStr "en")])).
  { split; [vm_compute; reflexivity |]. eexists. repeat split; reflexivity. }
  pose proof (C7_cache_round_trip (mkSt ocrStation connectedClient)
                "data:image/jpeg;base64,AAAA" "en"
                (JObj [("extracted_text", JStr "T"); ("confidence", JNum 1);
                       ("language_detected", JStr "en")])) as (_ & Hstore & Hdispatch).
  pose proof (proj1 (Hdispatch Hknown ltac:(discriminate) ltac:(discriminate))
                _ eq_refl Hmiss Hanswer eq_refl) as Hrun.
  assert (Hfirst : serverOCR "data:image/jpeg;base64,AAAA" "en" true
                             (mkSt ocrStation connectedClient)
                   = (Return (JObj [("extracted_text", JStr "T"); ("confidence", JNum 1);
                                    ("language_detected", JStr "en")]), afterFirstOCR)).
  { rewrite Hrun. apply f_equal. vm_compute. reflexivity. }
  split; [exact Hfirst |]. split; [| reflexivity].
  exact (proj2 (proj1 Hstore _ Hfirst)).
Defined.

(** On [oddConfidenceStation] the answer arrives, the log line throws on its
    confidence, and nothing is cached. *)
Example unprintable_confidence_is_not_cached :
  fst (serverOCR "data:image/jpeg;base64,AAAA" "en" true
         (mkSt oddConfidenceStation connectedClient))
  = Throw (TypeError "Cannot convert object to primitive value") /\
  cacheOf (snd (serverOCR "data:image/jpeg;base64,AAAA" "en" true
                  (mkSt oddConfidenceStation connectedClient))) = [] /\
  List.length (fetchLog (world (snd (serverOCR "data:image/jpeg;base64,AAAA" "en" true
                                       (mkSt oddConfidenceStation connectedClient)))))
  = 1%nat.
Proof. vm_compute. repeat split; reflexivity. Qed.

(** C10. A [multimodalChat] call without image never touches the vision
    cache, whatever [useCache] is: run with any other cache in place it gives
    the same completion and the same final state with that cache still in
    place, and the cache after the call is the cache before it. Only a call
    with an image and caching on looks its key up (a stored result is
    returned without dispatch) and stores the result of a successful
    dispatch. *)
Theorem C10_text_only_chat_skips_cache (text : string) (useCache : bool) (st : St) :
  (forall vc,
      multimodalChat text None useCache (withCache vc st) =
      (fst (multimodalChat text None useCache st),
       withCache vc (snd (multimodalChat text None useCache st)))) /\
  cacheOf (snd (multimodalChat text None useCache st)) = cacheOf st /\
  (forall image R,
      image <> "" ->
      Map.get (generateCacheKey "chat" image text) (cacheOf st) = Some R ->
      multimodalChat text (Some image) true st = (Return R, st)) /\
  (forall image R st',
      image <> "" ->
      multimodalChat text (Some image) true st = (Return R, st') ->
      Map.get (generateCacheKey "chat" image text) (cacheOf st') = Some R).
Proof.
  split; [| split; [| split]].
  - intros vc. apply multimodalChat_text_only_blind.
  - apply CacheBlind_preserves, multimodalChat_text_only_blind.
  - intros image R Himage Hget. rewrite multimodalChat_image_run by exact Himage.
    now rewrite Hget.
  - intros image R st' Himage. rewrite multimodalChat_image_run by exact Himage.
    destruct (Map.get (generateCacheKey "chat" image text) (cacheOf st)) as [hit |] eqn:Ehit.
    + intros [= <- <-]. exact Ehit.
    + unfold bind, lift_completion.
      destruct (makeRequest endpoints.multimodal.chat _ noOptions st) as [[result | e] st1];
        [| discriminate].
      destruct (printFields result ["language_detected"]); [| discriminate].
      rewrite cacheVisionResult_run. unfold ret. intros [= <- <-].
      unfold cacheOf. cbn. unfold cacheVisionResult_map. apply Map_get_set_same.
Qed.

Lemma C10_text_only_chat_skips_cache_witness :
  "data:image/jpeg;base64,AAAA" <> "" /\
  multimodalChat "What is this form?" (Some "data:image/jpeg;base64,AAAA") true
                 (mkSt chatStation connectedClient)
  = (Return (JObj [("response", JStr "Welcome"); ("language_detected", JStr "en")]),
     snd (multimodalChat "What is this form?" (Some "data:image/jpeg;base64,AAAA") true
                         (mkSt chatStation connectedClient))) /\
  Map.get (generateCacheKey "chat" "data:image/jpeg;base64,AAAA" "What is this form?")
          (cacheOf (snd (multimodalChat "What is this form?"
                                        (Some "data:image/jpeg;base64,AAAA") true
                                        (mkSt chatStation connectedClient))))
  = Some (JObj [("response", JStr "Welcome"); ("language_detected", JStr "en")]).
Proof.
  assert (Hne : "data:image/jpeg;base64,AAAA" <> "") by discriminate.
  assert (Hrun : multimodalChat "What is this form?" (Some "data:image/jpeg;base64,AAAA")
                                true (mkSt chatStation connectedClient)
                 = (Return (JObj [("response", JStr "Welcome");
                                  ("language_detected", JStr "en")]),
                    snd (multimodalChat "What is this form?"
                                        (Some "data:image/jpeg;base64,AAAA") true
                                        (mkSt chatStation connectedClient))))
    by (vm_compute; reflexivity).
  split; [exact Hne |]. split; [exact Hrun |].
  exact (proj2 (proj2 (proj2
    (C10_text_only_chat_skips_cache "What is this form?" true
       (mkSt chatStation connectedClient))))
    _ _ _ Hne Hrun).
Defined.

Example text_only_chat_leaves_cache_empty :
  cacheOf (snd (multimodalChat "hello" None true (mkSt chatStation connectedClient))) = [] /\
  fst (multimodalChat "hello" None true (mkSt chatStation connectedClient))
  = Return (JObj [("response", JStr "Welcome"); ("language_detected", JStr "en")]).
Proof. vm_compute. split; reflexivity. Qed.

(** ** C3: the admission scenario *)

Module SchedulerFacts.
Import AdmissionScheduler.

Lemma remove_lowest_length (victim : RequestEnvelope) (q : list RequestEnvelope) :
  lowest q = Some victim -> S (List.length (remove victim q)) = List.length q.
Proof.
  induction q as [| x q IH]; cbn [lowest remove]; [discriminate |].
  destruct (lowest q) as [l |] eqn:El.
  - destruct (rank (priorityClass x) <? rank (priorityClass l))%nat.
    + intros [= ->]. now rewrite Nat.eqb_refl.
    + intros [= ->]. destruct (id x =? id victim)%nat; [reflexivity |].
      cbn [List.length]. now rewrite IH.
  - intros [= ->]. now rewrite Nat.eqb_refl.
Qed.

(** The two bounds of the data model are kept by every submission. *)
Lemma submit_bounds (s : Scheduler) (r : RequestEnvelope) :
  (List.length (executing s) <= maxConcurrent s)%nat ->
  (List.length (queue s) <= maxQueueSize s)%nat ->
  (List.length (executing (fst (submit s r))) <= maxConcurrent (fst (submit s r)))%nat /\
  (List.length (queue (fst (submit s r))) <= maxQueueSize (fst (submit s r)))%nat.
Proof.
  intros He Hq. unfold submit.
  destruct (List.length (executing s) <? maxConcurrent s)%nat eqn:E1.
  - apply Nat.ltb_lt in E1. cbn. rewrite length_app. cbn. lia.
  - destruct (List.length (queue s) <? maxQueueSize s)%nat eqn:E2.
    + apply Nat.ltb_lt in E2. cbn. rewrite length_app. cbn. lia.
    + destruct (lowest (queue s)) as [victim |] eqn:El; [| cbn; lia].
      destruct (rank (priorityClass victim) <? rank (priorityClass r))%nat; [| cbn; lia].
      cbn. split; [exact He |]. rewrite length_app. cbn.
      pose proof (remove_lowest_length _ _ El). lia.
Qed.

(** An eviction takes its victim from the queue. *)
Lemma submit_evicts_from_queue (s : Scheduler) (r dropped : RequestEnvelope) :
  snd (submit s r) = QueuedEvicting dropped -> lowest (queue s) = Some dropped.
Proof.
  unfold submit.
  destruct (List.length (executing s) <? maxConcurrent s)%nat; [discriminate |].
  destruct (List.length (queue s) <? maxQueueSize s)%nat; [discriminate |].
  destruct (lowest (queue s)) as [victim |]; [| discriminate].
  destruct (rank (priorityClass victim) <? rank (priorityClass r))%nat; [| discriminate].
  now intros [= ->].
Qed.

End SchedulerFacts.

(** C3, as stated, fails on the admission rule: when the emergency request
    arrives the three chats execute and the queue is empty, so there is no
    queued chat to evict; the decision for the fourth submission is not an
    eviction and no request of the run is dropped. *)
Lemma C3_no_queued_chat_to_evict :
  AdmissionScheduler.queue beforeEmergency = [] /\
  ~ (exists dropped,
        snd fairnessRun !! 3%nat
        = Some (AdmissionScheduler.QueuedEvicting dropped)).
Proof.
  split; [reflexivity |]. intros [dropped H]. vm_compute in H. discriminate.
Qed.

(** C3 (amended). With maxConcurrent = 3 and maxQueueSize = 1 the
    submissions [chat, chat, chat, emergency, chat] are decided as: the three
    chats are admitted and execute; the emergency request takes the free
    queue slot, nothing is evicted; the last chat meets a full queue whose
    lowest entry, the emergency request, is not of lower priority than it,
    and is rejected. *)
Theorem C3_admission_fairness_scenario :
  snd fairnessRun
  = [ AdmissionScheduler.Executes; AdmissionScheduler.Executes; AdmissionScheduler.Executes;
      AdmissionScheduler.Queued; AdmissionScheduler.Rejected ] /\
  AdmissionScheduler.executing (fst fairnessRun)
  = AdmissionScheduler.envelopes 1 [ AdmissionScheduler.chat; AdmissionScheduler.chat;
                                     AdmissionScheduler.chat ] /\
  AdmissionScheduler.queue (fst fairnessRun)
  = [ AdmissionScheduler.mkEnvelope 4 AdmissionScheduler.emergency ] /\
  AdmissionScheduler.lowest (AdmissionScheduler.queue (fst fairnessRun))
  = Some (AdmissionScheduler.mkEnvelope 4 AdmissionScheduler.emergency) /\
  (AdmissionScheduler.rank AdmissionScheduler.emergency
   <? AdmissionScheduler.rank AdmissionScheduler.chat)%nat = false.
Proof. repeat split. Qed.

(** With one more chat ahead of it the emergency request does evict: the
    fourth chat is queued, the emergency request drops it and takes its
    slot, the last chat is rejected. *)
Example eviction_needs_a_queued_chat :
  snd (AdmissionScheduler.submitAll (AdmissionScheduler.start 3 1)
         (AdmissionScheduler.envelopes 1
            [ AdmissionScheduler.chat; AdmissionScheduler.chat; AdmissionScheduler.chat;
              AdmissionScheduler.chat; AdmissionScheduler.emergency; AdmissionScheduler.chat ]))
  = [ AdmissionScheduler.Executes; AdmissionScheduler.Executes; AdmissionScheduler.Executes;
      AdmissionScheduler.Queued;
      AdmissionScheduler.QueuedEvicting (AdmissionScheduler.mkEnvelope 4 AdmissionScheduler.chat);
      AdmissionScheduler.Rejected ].
Proof. reflexivity. Qed.

(** ** C1: a failure in stage 2 of the vision pipeline *)

Lemma cachedVisionRequest_blind_on_throw (type endpoint imageData additional : string)
    (payload : JSValue) (logged : list string) (useCache : bool) (st st' : St) (e : JSError) :
  cachedVisionRequest type endpoint imageData additional payload logged useCache st
  = (Throw e, st') ->
  cacheOf st' = cacheOf st.
Proof.
  unfold cachedVisionRequest. rewrite try_catch_rethrow.
  unfold bind at 1. unfold get.
  destruct (useCache && Map.has (generateCacheKey type imageData additional)
                                (visionCache (this st))); [discriminate |].
  unfold bind, lift_completion.
  pose proof (CacheBlind_preserves (makeRequest endpoint payload noOptions) st
                (makeRequest_blind _ _ _)) as Hkeep.
  destruct (makeRequest endpoint payload noOptions st) as [[result | e1] st1].
  - destruct (printFields result logged); [| intros [= <- <-]; exact Hkeep].
    destruct useCache; discriminate.
  - intros [= <- <-]. exact Hkeep.
Qed.

(** What [serverOCR] returns for a language of any type is in the cache, under
    the key of the image and that language. *)
Lemma serverOCR_value_stores (numeral : JSValue -> bool) (imageData : string)
    (language : JSValue) (st st' : St) (R : JSValue) :
  serverOCR_value numeral imageData language true st = (Return R, st') ->
  Map.get (ocrKey imageData language) (cacheOf st') = Some R.
Proof.
  assert (Hother :
            try_catch
              (lift_completion (hashOther numeral language) ;;;
               st0 <- get ;;
               (if true && Map.has (generateCacheKey "ocr" imageData "") (visionCache (this st0))
                then ret tt
                else lift_completion (convert language)) ;;;
               cachedVisionRequest "ocr" endpoints.vision.ocr imageData ""
                 (JObj [("image", JStr imageData); ("language", language)])
                 ["confidence"; "character_count"; "word_count"] true)
              (fun error => throw error) st = (Return R, st') ->
            Map.get (generateCacheKey "ocr" imageData "") (cacheOf st') = Some R).
  { rewrite try_catch_rethrow. unfold bind, lift_completion, get.
    destruct (hashOther numeral language); [| discriminate].
    destruct (true && Map.has (generateCacheKey "ocr" imageData "") (visionCache (this st))).
    - unfold ret. apply cachedVisionRequest_stores.
    - destruct (convert language); [| discriminate]. apply cachedVisionRequest_stores. }
  destruct language; try exact Hother; apply cachedVisionRequest_stores.
Qed.

Module GemmorandumFacts.
Import Gemmorandum.

Lemma visionStages_stage2_failure (gs : GSt) (c : MultimodalAIStationClient)
    (base64Image : string) (ocrResult : JSValue) (e : JSError) (st1 st2 : St) :
  aiClient (gthis gs) = Some c ->
  serverOCR_value (numeral gs) base64Image (currentLanguage (gthis gs)) true
                  (mkSt (gworld gs) c) = (Return ocrResult, st1) ->
  analyzeDocument base64Image "general" true st1 = (Throw e, st2) ->
  try_catch (visionStages base64Image) handleVisionProcessingError gs
  = (Return tt, afterStage2Failure gs st2).
Proof.
  intros Hclient Hocr Hdoc.
  unfold try_catch, visionStages, updateVisionProgress, bind, ret, gupdate, modify, get,
    onClient.
  cbn [gthis gworld numeral sameObject aiClient setProcessingState currentLanguage].
  rewrite Hclient, Hocr.
  cbn [gthis gworld numeral sameObject aiClient setProcessingState setAiClient currentLanguage].
  destruct st1 as [w1 c1]. cbn [world this]. rewrite Hdoc.
  unfold handleVisionProcessingError, bind, gupdate, modify, afterStage2Failure, failureShown.
  cbn. unfold show. cbn. rewrite <- !app_assoc. reflexivity.
Qed.

Lemma onClient_return {A} (gs : GSt) (c : MultimodalAIStationClient) (a : A) :
  aiClient (gthis gs) = Some c -> onClient (ret a) gs = (Return a, gs).
Proof.
  destruct gs as [w g n o]. destruct g. simpl. intros ->. reflexivity.
Qed.

End GemmorandumFacts.

(** C1, as stated, fails: stage 1 reads "T", stage 2 answers HTTP 500, and
    the session result [formData] is still the empty object of the
    constructor: it holds neither the text nor any partial-failure mark. The
    page shows the generic failure message and the capture section again. *)
Lemma C1_stage1_result_dropped :
  fst (serverOCR "data:image/jpeg;base64,AAAA" "en" true (mkSt ocrOnlyStation connectedClient))
  = Return (JObj [("extracted_text", JStr "T"); ("confidence", JNum 1);
                  ("language_detected", JStr "en")]) /\
  fst (analyzeDocument "data:image/jpeg;base64,AAAA" "general" true afterOCR)
  = Throw (newError "API request failed: 500 Internal Server Error") /\
  fst (Gemmorandum.processImageWithServerVision photo
         (freshPage ocrOnlyStation connectedClient)) = Return tt /\
  Gemmorandum.formData (Gemmorandum.gthis afterPartialFailure) = None /\
  Gemmorandum.formType (Gemmorandum.gthis afterPartialFailure) = JNull /\
  Gemmorandum.ui (Gemmorandum.gthis afterPartialFailure) = failureShown.
Proof. vm_compute. repeat split; reflexivity. Qed.

(** C1 (amended). When stage 1 returns an OCR result and stage 2 throws,
    [processImageWithServerVision] of gemmorandum-multimodal.js catches the
    error and reports a failure: the page shows the generic failure message
    and the capture section, the progress marker stays at the analysis
    stage, and [formData], the form type and the language are what they were
    before the image was submitted; no text, no partial-failure mark and no
    document type is recorded. The OCR result is kept only in the client's
    vision cache, under the key of the image and the page language. *)
Theorem C1_stage2_failure_reported (gs : Gemmorandum.GSt) (c : MultimodalAIStationClient)
    (file : Gemmorandum.ImageFile) (dataURL base64Image : string)
    (ocrResult : JSValue) (e : JSError) (st1 st2 : St) :
  Gemmorandum.aiClient (Gemmorandum.gthis gs) = Some c ->
  Gemmorandum.readAsDataURL file = Some dataURL ->
  Gemmorandum.canvasJPEG file = Some base64Image ->
  serverOCR_value (Gemmorandum.numeral gs) base64Image
                  (Gemmorandum.currentLanguage (Gemmorandum.gthis gs)) true
                  (mkSt (Gemmorandum.gworld gs) c) = (Return ocrResult, st1) ->
  analyzeDocument base64Image "general" true st1 = (Throw e, st2) ->
  Gemmorandum.processImageWithServerVision file gs
  = (Return tt, afterStage2Failure gs st2) /\
  Gemmorandum.formData (Gemmorandum.gthis (afterStage2Failure gs st2))
  = Gemmorandum.formData (Gemmorandum.gthis gs) /\
  Gemmorandum.formType (Gemmorandum.gthis (afterStage2Failure gs st2))
  = Gemmorandum.formType (Gemmorandum.gthis gs) /\
  Gemmorandum.currentLanguage (Gemmorandum.gthis (afterStage2Failure gs st2))
  = Gemmorandum.currentLanguage (Gemmorandum.gthis gs) /\
  Map.get (ocrKey base64Image (Gemmorandum.currentLanguage (Gemmorandum.gthis gs)))
          (cacheOf st2) = Some ocrResult.
Proof.
  intros Hclient Hread Hcanvas Hocr Hdoc.
  pose proof (GemmorandumFacts.visionStages_stage2_failure
                gs c base64Image ocrResult e st1 st2 Hclient Hocr Hdoc) as Hstages.
  assert (Hencode : Gemmorandum.onClient (Gemmorandum.processImageFile file) gs
                    = (Return base64Image, gs)).
  { unfold Gemmorandum.processImageFile. rewrite Hread, Hcanvas.
    now apply GemmorandumFacts.onClient_return with (c := c). }
  split; [| split; [| split; [| split]]].
  - unfold Gemmorandum.processImageWithServerVision.
    unfold try_catch, bind in *. rewrite Hencode. exact Hstages.
  - reflexivity.
  - reflexivity.
  - reflexivity.
  - apply serverOCR_value_stores in Hocr.
    unfold analyzeDocument in Hdoc. apply cachedVisionRequest_blind_on_throw in Hdoc.
    now rewrite Hdoc.
Qed.

Lemma C1_stage2_failure_reported_witness :
  Gemmorandum.processImageWithServerVision photo (freshPage ocrOnlyStation connectedClient)
  = (Return tt,
     afterStage2Failure (freshPage ocrOnlyStation connectedClient) afterFailedAnalysis) /\
  Map.get (generateCacheKey "ocr" "data:image/jpeg;base64,AAAA" "en")
          (cacheOf afterFailedAnalysis)
  = Some (JObj [("extracted_text", JStr "T"); ("confidence", JNum 1);
                ("language_detected", JStr "en")]).
Proof.
  assert (Hocr : serverOCR_value
                   (Gemmorandum.numeral (freshPage ocrOnlyStation connectedClient))
                   "data:image/jpeg;base64,AAAA"
                   (Gemmorandum.currentLanguage
                      (Gemmorandum.gthis (freshPage ocrOnlyStation connectedClient)))
                   true
                   (mkSt (Gemmorandum.gworld (freshPage ocrOnlyStation connectedClient))
                         connectedClient)
                 = (Return (JObj [("extracted_text", JStr "T"); ("confidence", JNum 1);
                                  ("language_detected", JStr "en")]), afterOCR))
    by (vm_compute; reflexivity).
  assert (Hdoc : analyzeDocument "data:image/jpeg;base64,AAAA" "general" true afterOCR
                 = (Throw (newError "API request failed: 500 Internal Server Error"),
                    afterFailedAnalysis))
    by (vm_compute; reflexivity).
  pose proof (C1_stage2_failure_reported
                (freshPage ocrOnlyStation connectedClient)
                connectedClient photo "data:image/png;base64,AAAA"
                "data:image/jpeg;base64,AAAA" _ _ afterOCR afterFailedAnalysis
                eq_refl eq_refl eq_refl Hocr Hdoc) as H.
  split; [exact (proj1 H) | exact (proj2 (proj2 (proj2 (proj2 H))))].
Defined.

(** * Further properties of the client *)

(** ** The health check *)

Lemma checkConnection_run (st : St) (u : string) :
  stationURL (this st) = Some u -> u <> "" ->
  checkConnection st =
  (Return (healthy (replyTo st (statusProbe u))),
   mkSt (logFetch (statusProbe u) (world st))
        (setIsConnected (healthy (replyTo st (statusProbe u))) (this st))).
Proof.
  intros Hu Hne. unfold checkConnection. unfold bind at 1. unfold get.
  rewrite Hu. rewrite truthy_nonempty by exact Hne. cbn [negb].
  change (urlText (Some u)) with u.
  unfold try_catch, bind, fetch, fetch_world, fetch_outcome, healthy, replyTo, now,
    update, modify, ret, setThis, setWorld.
  destruct (network (world st) (List.length (fetchLog (world st))) (statusProbe u))
    as [lat [resp | msg]]; reflexivity.
Qed.

Lemma checkConnection_no_station (st : St) :
  stationURL (this st) = None \/ stationURL (this st) = Some "" ->
  checkConnection st = (Return false, st).
Proof.
  intros [H | H]; unfold checkConnection, bind, get; rewrite H; reflexivity.
Qed.

Lemma probeReady_healthy (r : Reply) : probeReady r = true -> healthy r = true.
Proof.
  unfold probeReady, healthy. intros H. apply andb_true_iff in H as [_ H].
  destruct (settled r); [| discriminate]. now apply andb_true_iff in H as [H _].
Qed.

(** X1. The periodic health check never throws. With a station address it
    issues one status fetch and sets [isConnected] to what it returns: true
    exactly when the reply is a success response, whatever its body says;
    every reply that discovery accepts is accepted, but not the other way
    round. Without a station address it returns false, issues no fetch and
    leaves [isConnected] alone. *)
Theorem X1_checkConnection_sets_flag (st : St) :
  (forall u,
      stationURL (this st) = Some u -> u <> "" ->
      checkConnection st =
      (Return (healthy (replyTo st (statusProbe u))),
       mkSt (logFetch (statusProbe u) (world st))
            (setIsConnected (healthy (replyTo st (statusProbe u))) (this st)))) /\
  (stationURL (this st) = None \/ stationURL (this st) = Some "" ->
   checkConnection st = (Return false, st)) /\
  (forall r, probeReady r = true -> healthy r = true) /\
  (exists r, healthy r = true /\ probeReady r = false).
Proof.
  split; [| split; [| split]].
  - intros u. apply checkConnection_run.
  - apply checkConnection_no_station.
  - apply probeReady_healthy.
  - exists (mkReply 40 (Resolved (mkResponse 200 "OK" None))). split; reflexivity.
Qed.

Lemma X1_checkConnection_sets_flag_witness :
  stationURL (this (mkSt loadingStation connectedClient)) = Some "http://192.168.1.87:8080" /\
  checkConnection (mkSt loadingStation connectedClient) =
  (Return true,
   mkSt (logFetch (statusProbe "http://192.168.1.87:8080") loadingStation)
        (setIsConnected true connectedClient)) /\
  fst (testConnection "http://192.168.1.87:8080" (mkSt loadingStation connectedClient))
  = Return false.
Proof.
  split; [reflexivity |]. split; [| reflexivity].
  apply (proj1 (X1_checkConnection_sets_flag (mkSt loadingStation connectedClient))
               "http://192.168.1.87:8080" eq_refl).
  discriminate.
Defined.

Lemma needsDiscovery_setIsConnected (b : bool) (c : MultimodalAIStationClient) (u : string) :
  stationURL c = Some u -> u <> "" ->
  needsDiscovery (setIsConnected b c) = negb b.
Proof.
  intros Hu Hne. unfold needsDiscovery. cbn. rewrite Hu.
  destruct (String.eqb u "") eqn:E; [apply String.eqb_eq in E; contradiction |].
  now rewrite orb_false_r.
Qed.

(** X2. The health check decides how the next dispatch starts: after a
    check that found the station healthy the next [makeRequest] goes
    straight to the station, even if an earlier failure had cleared
    [isConnected]; after a check that failed, the next [makeRequest] runs
    [detectStation] first. *)
Theorem X2_health_check_then_dispatch (st : St) (u : string) :
  stationURL (this st) = Some u -> u <> "" ->
  (healthy (replyTo st (statusProbe u)) = true ->
   forall endpoint data options,
     makeRequest endpoint data options (snd (checkConnection st)) =
     sendRequest endpoint data options (snd (checkConnection st))) /\
  (healthy (replyTo st (statusProbe u)) = false ->
   forall endpoint data options,
     makeRequest endpoint data options (snd (checkConnection st)) =
     (connected <- detectStation ;;
      if connected then sendRequest endpoint data options
      else throw (newError "No AI station available")) (snd (checkConnection st))).
Proof.
  intros Hu Hne. rewrite (checkConnection_run st u Hu Hne). cbn [snd]. split.
  - intros Hh endpoint data options. apply makeRequest_connected. cbn [this].
    rewrite (needsDiscovery_setIsConnected _ _ u Hu Hne). now rewrite Hh.
  - intros Hh endpoint data options. apply makeRequest_discovers. cbn [this].
    rewrite (needsDiscovery_setIsConnected _ _ u Hu Hne). now rewrite Hh.
Qed.

Lemma X2_health_check_then_dispatch_witness :
  isConnected (this (disconnected (mkSt loadingStation connectedClient))) = false /\
  makeRequest endpoints.chat (chatPayload "hello") noOptions
    (snd (checkConnection (disconnected (mkSt loadingStation connectedClient)))) =
  sendRequest endpoints.chat (chatPayload "hello") noOptions
    (snd (checkConnection (disconnected (mkSt loadingStation connectedClient)))).
Proof.
  split; [reflexivity |].
  apply (proj1 (X2_health_check_then_dispatch
                  (disconnected (mkSt loadingStation connectedClient))
                  "http://192.168.1.87:8080" eq_refl ltac:(discriminate))).
  reflexivity.
Defined.

(** ** How a dispatch ends, and discovery on demand *)

(** X3. A dispatch on a known station that is answered in time by an error
    response throws "API request failed: <status> <statusText>" and clears
    [isConnected], as does a success response whose body is not JSON (with
    the SyntaxError); a success response with a JSON body is returned as it
    is and leaves the client untouched. In all three cases one fetch is
    logged. *)
Theorem X3_server_error_disconnects (st : St) (endpoint : string) (data : JSValue)
    (options : Options) (resp : Response) :
  needsDiscovery (this st) = false ->
  latency (replyTo st (dispatchOf (this st) endpoint data options))
  < actualTimeout endpoint options (this st) ->
  settled (replyTo st (dispatchOf (this st) endpoint data options)) = Resolved resp ->
  (ok resp = false ->
   makeRequest endpoint data options st =
   (Throw (serverError resp),
    disconnected (logged (dispatchOf (this st) endpoint data options) st))) /\
  (ok resp = true -> body resp = None ->
   makeRequest endpoint data options st =
   (Throw (SyntaxError "Unexpected token in JSON"),
    disconnected (logged (dispatchOf (this st) endpoint data options) st))) /\
  (forall v, ok resp = true -> body resp = Some v ->
   makeRequest endpoint data options st =
   (Return v, logged (dispatchOf (this st) endpoint data options) st)).
Proof.
  intros Hknown Hlat Hres.
  rewrite makeRequest_connected, sendRequest_run by exact Hknown.
  unfold dispatchEnd. rewrite Hres.
  destruct (actualTimeout endpoint options (this st)
            <=? latency (replyTo st (dispatchOf (this st) endpoint data options))) eqn:E;
    [apply Z.leb_le in E; lia |].
  split; [| split].
  - intros ->. reflexivity.
  - intros -> ->. reflexivity.
  - intros v -> ->. reflexivity.
Qed.

Lemma X3_server_error_disconnects_witness :
  needsDiscovery (this (mkSt failingStation connectedClient)) = false /\
  makeRequest endpoints.legal (JObj [("situation", JStr "detained")]) noOptions
              (mkSt failingStation connectedClient) =
  (Throw (newError "API request failed: 500 Internal Server Error"),
   disconnected (logged (dispatchOf connectedClient endpoints.legal
                                    (JObj [("situation", JStr "detained")]) noOptions)
                        (mkSt failingStation connectedClient))).
Proof.
  split; [reflexivity |].
  apply (proj1 (X3_server_error_disconnects (mkSt failingStation connectedClient)
                  endpoints.legal (JObj [("situation", JStr "detained")]) noOptions
                  (mkResponse 500 "Internal Server Error" None)
                  eq_refl eq_refl eq_refl)).
  reflexivity.
Defined.

Lemma probeOrder_nonempty (st : St) (i : nat) (url : string) :
  probeOrder st !! i = Some url -> url <> "".
Proof.
  unfold probeOrder. intros H. apply list_elem_of_lookup_2 in H.
  rewrite !elem_of_app in H. destruct H as [H | [H | H]].
  - unfold savedURL in H.
    destruct (localStorage (world st) !! "aiStationURL") as [u |]; [| inversion H].
    destruct (String.eqb u "") eqn:E; [inversion H |].
    apply list_elem_of_singleton in H. subst. now apply String.eqb_neq in E.
  - apply list_elem_of_fmap in H as (ip & -> & _). discriminate.
  - apply list_elem_of_fmap in H as (ip & -> & _). discriminate.
Qed.

(** X4. A dispatch that needs discovery and finds no station throws
    "No AI station available": every address of the probing order got its
    status probe, nothing was sent to the endpoint, [isConnected] is false
    and the station address and the storage are unchanged. *)
Theorem X4_no_station_no_request (st : St) (endpoint : string) (data : JSValue)
    (options : Options) :
  needsDiscovery (this st) = true ->
  firstReady (network (world st)) (now st) (probeOrder st) = None ->
  makeRequest endpoint data options st =
  (Throw (newError "No AI station available"),
   mkSt (mkWorld (network (world st))
                 (fetchLog (world st) ++ map statusProbe (probeOrder st))
                 (localStorage (world st)))
        (setIsConnected false (this st))).
Proof.
  intros Hneeds Hnone. rewrite makeRequest_discovers by exact Hneeds.
  pose proof (detectStation_run st) as Hrun. rewrite Hnone in Hrun.
  unfold bind. rewrite Hrun. reflexivity.
Qed.

Lemma X4_no_station_no_request_witness :
  needsDiscovery (this (mkSt offline (constructor None))) = true /\
  fst (makeRequest endpoints.chat (chatPayload "hello") noOptions
                   (mkSt offline (constructor None)))
  = Throw (newError "No AI station available") /\
  List.length (fetchLog (world (snd (makeRequest endpoints.chat (chatPayload "hello") noOptions
                                                 (mkSt offline (constructor None)))))) = 13%nat.
Proof.
  assert (H := X4_no_station_no_request (mkSt offline (constructor None))
                 endpoints.chat (chatPayload "hello") noOptions eq_refl eq_refl).
  split; [reflexivity |]. rewrite H. split; reflexivity.
Defined.

(** X5. A dispatch that needs discovery and finds a station sends its
    request to the address it has just adopted: after the status probes and
    the capability fetch, the last fetch of the log is the request to that
    address, and the client no longer needs discovery. *)
Theorem X5_discovery_then_request (st : St) (endpoint : string) (data : JSValue)
    (options : Options) (i : nat) (url : string) :
  needsDiscovery (this st) = true ->
  firstReady (network (world st)) (now st) (probeOrder st) = Some (i, url) ->
  exists st1,
    detectStation st = (Return true, st1) /\
    needsDiscovery (this st1) = false /\
    makeRequest endpoint data options st = sendRequest endpoint data options st1 /\
    fetchLog (world (snd (makeRequest endpoint data options st))) =
    fetchLog (world st) ++ map statusProbe (take (S i) (probeOrder st))
      ++ [statusProbe url; mkRequest (requestMethod options) (url +:+ endpoint) (Some data)].
Proof.
  intros Hneeds Hfirst.
  pose proof (detectStation_run st) as Hrun. rewrite Hfirst in Hrun.
  destruct Hrun as (st1 & Hdetect & Hdisc). exists st1.
  assert (Hurl : url <> "").
  { apply firstReady_Some in Hfirst as (Hi & _). eapply probeOrder_nonempty; eassumption. }
  assert (Hknown : needsDiscovery (this st1) = false).
  { unfold needsDiscovery. rewrite (disc_connected _ _ _ _ Hdisc), (disc_station _ _ _ _ Hdisc).
    cbn. now apply String.eqb_neq. }
  assert (Hmake : makeRequest endpoint data options st = sendRequest endpoint data options st1).
  { rewrite makeRequest_discovers by exact Hneeds. unfold bind. now rewrite Hdetect. }
  split; [exact Hdetect |]. split; [exact Hknown |]. split; [exact Hmake |].
  rewrite Hmake, sendRequest_run, dispatchEnd_world. unfold logged, dispatchOf. cbn.
  rewrite (disc_log _ _ _ _ Hdisc), (disc_station _ _ _ _ Hdisc).
  change (urlText (Some url)) with url. now rewrite <- !app_assoc.
Qed.

Lemma X5_discovery_then_request_witness :
  needsDiscovery (this (mkSt dellStation (constructor None))) = true /\
  last (fetchLog (world (snd (makeRequest endpoints.chat (chatPayload "hello") noOptions
                                          (mkSt dellStation (constructor None))))))
  = Some (mkRequest "POST" "http://192.168.1.87:8080/api/chat" (Some (chatPayload "hello"))).
Proof.
  split; [reflexivity |].
  destruct (X5_discovery_then_request (mkSt dellStation (constructor None))
              endpoints.chat (chatPayload "hello") noOptions 3
              "http://192.168.1.87:8080" eq_refl ltac:(vm_compute; reflexivity))
    as (st1 & _ & _ & _ & Hlog).
  rewrite Hlog. reflexivity.
Defined.

(** X6. A caller's own [timeout] option is the budget of a dispatch to any
    endpoint outside /vision/ and /multimodal/ (the family-tracing calls pass
    45, 60 and 30 seconds): the dispatch ends in the timeout error from that
    many milliseconds on and not before. For a vision or multimodal endpoint
    the option is ignored and the vision budget applies. *)
Theorem X6_caller_timeout (st : St) (endpoint : string) (data : JSValue)
    (t : Z) (method : option string) :
  needsDiscovery (this st) = false ->
  t <> 0 ->
  let options := mkOptions (Some t) method in
  let req := dispatchOf (this st) endpoint data options in
  (isVisionRequest endpoint = false ->
   (t <= latency (replyTo st req) ->
    makeRequest endpoint data options st = (Throw timeoutError, logged req st)) /\
   (latency (replyTo st req) < t ->
    fst (makeRequest endpoint data options st) <> Throw timeoutError)) /\
  (isVisionRequest endpoint = true ->
   (visionTimeout (this st) <= latency (replyTo st req) ->
    makeRequest endpoint data options st = (Throw timeoutError, logged req st)) /\
   (latency (replyTo st req) < visionTimeout (this st) ->
    fst (makeRequest endpoint data options st) <> Throw timeoutError)).
Proof.
  intros Hknown Ht options req.
  rewrite makeRequest_connected, sendRequest_run by exact Hknown. fold req.
  unfold actualTimeout, requestTimeout, options. cbn [opt_timeout].
  destruct (t =? 0) eqn:E; [apply Z.eqb_eq in E; contradiction |].
  split; intros ->; split.
  - apply dispatchEnd_late.
  - apply dispatchEnd_in_time.
  - apply dispatchEnd_late.
  - apply dispatchEnd_in_time.
Qed.

Lemma X6_caller_timeout_witness :
  needsDiscovery (this (mkSt slowStation connectedClient)) = false /\
  makeRequest "/api/gempath/analyze" (JObj [("session_id", JStr "s1")])
              (mkOptions (Some 45000) None) (mkSt slowStation connectedClient)
  = (Throw timeoutError,
     logged (dispatchOf connectedClient "/api/gempath/analyze"
                        (JObj [("session_id", JStr "s1")]) (mkOptions (Some 45000) None))
            (mkSt slowStation connectedClient)).
Proof.
  split; [reflexivity |].
  apply (proj1 (proj1 (X6_caller_timeout (mkSt slowStation connectedClient)
                         "/api/gempath/analyze" (JObj [("session_id", JStr "s1")])
                         45000 None eq_refl ltac:(discriminate)) eq_refl)).
  vm_compute. discriminate.
Defined.

(** ** What no method changes *)

Section Keeps.
Context {A B : Type}.

Lemma ret_keeps (a : A) : KeepsConfig (ret a).
Proof. intros st. reflexivity. Qed.

Lemma throw_keeps (e : JSError) : KeepsConfig (@throw St A e).
Proof. intros st. reflexivity. Qed.

Lemma lift_completion_keeps (c : Completion A) : KeepsConfig (lift_completion c).
Proof. intros st. reflexivity. Qed.

Lemma bind_keeps (m : Async St A) (k : A -> Async St B) :
  KeepsConfig m -> (forall a, KeepsConfig (k a)) -> KeepsConfig (bind m k).
Proof.
  intros Hm Hk st. specialize (Hm st). unfold bind.
  destruct (m st) as [[a | e] st']; cbn [snd] in *; [| exact Hm].
  now rewrite Hk.
Qed.

Lemma try_catch_keeps (m : Async St A) (h : JSError -> Async St A) :
  KeepsConfig m -> (forall e, KeepsConfig (h e)) -> KeepsConfig (try_catch m h).
Proof.
  intros Hm Hh st. specialize (Hm st). unfold try_catch.
  destruct (m st) as [[a | e] st']; cbn [snd] in *; [exact Hm |].
  now rewrite Hh.
Qed.

Lemma get_keeps (k : St -> Async St A) :
  (forall s, KeepsConfig (k s)) -> KeepsConfig (bind get k).
Proof. intros Hk st. unfold bind, get. apply Hk. Qed.
End Keeps.

Lemma update_keeps (f : MultimodalAIStationClient -> MultimodalAIStationClient) :
  (forall c, configOf (f c) = configOf c) -> KeepsConfig (update f).
Proof. intros H st. unfold update, modify. cbn. apply H. Qed.

Lemma fetch_keeps (timer : option Z) (req : Request) : KeepsConfig (fetch timer req).
Proof. intros st. reflexivity. Qed.

Lemma persist_keeps (url : string) :
  KeepsConfig (modify (fun st => setWorld (setItem "aiStationURL" url (world st)) st)).
Proof. intros st. reflexivity. Qed.

Create HintDb keeps.

#[local] Hint Resolve ret_keeps throw_keeps lift_completion_keeps fetch_keeps persist_keeps
  : keeps.

Ltac keeps_step :=
  lazymatch goal with
  | |- KeepsConfig (bind get _) => apply get_keeps; intros ?
  | |- KeepsConfig (bind _ _) => apply bind_keeps; [| intros ?]
  | |- KeepsConfig (try_catch _ _) => apply try_catch_keeps; [| intros ?]
  | |- KeepsConfig (update _) => apply update_keeps; intros ?; reflexivity
  | |- KeepsConfig (if ?b then _ else _) => destruct b
  | |- KeepsConfig (match ?c with _ => _ end) => destruct c
  | |- KeepsConfig _ => solve [auto with keeps]
  end.

Ltac keeps := cbv zeta; repeat keeps_step.

Lemma testConnection_keeps (url : string) : KeepsConfig (testConnection url).
Proof. unfold testConnection. keeps. Qed.

Lemma updateCapabilities_keeps : KeepsConfig updateCapabilities.
Proof. unfold updateCapabilities. keeps. Qed.

#[local] Hint Resolve testConnection_keeps updateCapabilities_keeps : keeps.

Lemma scanAddresses_keeps (addresses : list string) : KeepsConfig (scanAddresses addresses).
Proof. induction addresses as [| ip rest IH]; cbn [scanAddresses]; keeps. Qed.

Lemma trySavedURL_keeps : KeepsConfig trySavedURL.
Proof. unfold trySavedURL. keeps. Qed.

#[local] Hint Resolve scanAddresses_keeps trySavedURL_keeps : keeps.

Lemma detectStation_keeps : KeepsConfig detectStation.
Proof. unfold detectStation. keeps. Qed.

Lemma sendRequest_keeps (endpoint : string) (data : JSValue) (options : Options) :
  KeepsConfig (sendRequest endpoint data options).
Proof. unfold sendRequest. keeps. Qed.

#[local] Hint Resolve detectStation_keeps sendRequest_keeps : keeps.

Lemma makeRequest_keeps (endpoint : string) (data : JSValue) (options : Options) :
  KeepsConfig (makeRequest endpoint data options).
Proof. unfold makeRequest. keeps. Qed.

Lemma cacheVisionResult_keeps (key : string) (result : JSValue) :
  KeepsConfig (cacheVisionResult key result).
Proof. intros st. reflexivity. Qed.

#[local] Hint Resolve makeRequest_keeps cacheVisionResult_keeps : keeps.

Lemma cachedVisionRequest_keeps (type endpoint imageData additional : string)
    (payload : JSValue) (logged : list string) (useCache : bool) :
  KeepsConfig (cachedVisionRequest type endpoint imageData additional payload logged useCache).
Proof. unfold cachedVisionRequest. keeps. Qed.

Lemma multimodalChat_keeps (text : string) (imageData : option string) (useCache : bool) :
  KeepsConfig (multimodalChat text imageData useCache).
Proof. unfold multimodalChat. keeps. Qed.

Lemma translate_keeps (text fromLang toLang context : string) :
  KeepsConfig (translate text fromLang toLang context).
Proof. unfold translate. keeps. Qed.

Lemma searchFamily_keeps (query : string) : KeepsConfig (searchFamily query).
Proof. unfold searchFamily. keeps. Qed.

Lemma checkConnection_keeps : KeepsConfig checkConnection.
Proof. unfold checkConnection. keeps. Qed.

Lemma getServerInfo_keeps : KeepsConfig getServerInfo.
Proof. unfold getServerInfo. keeps. Qed.

(** X7. No method of the client changes what the constructor fixed: the
    three timeout budgets, the list of addresses to scan and the capacity of
    the cache are the same after discovery, health checks, dispatches and
    every request method, whatever the network answers. In particular the
    budgets of the constructor hold in every later state. *)
Theorem X7_configuration_is_kept (st : St) :
  configOf (this (snd (detectStation st))) = configOf (this st) /\
  configOf (this (snd (checkConnection st))) = configOf (this st) /\
  configOf (this (snd (getServerInfo st))) = configOf (this st) /\
  configOf (this (snd (clearVisionCache st))) = configOf (this st) /\
  (forall endpoint data options,
      configOf (this (snd (makeRequest endpoint data options st))) = configOf (this st)) /\
  (forall imageData aux useCache,
      configOf (this (snd (serverOCR imageData aux useCache st))) = configOf (this st) /\
      configOf (this (snd (analyzeDocument imageData aux useCache st))) = configOf (this st) /\
      configOf (this (snd (analyzeMedicalImage imageData aux useCache st)))
      = configOf (this st)) /\
  (forall text imageData useCache,
      configOf (this (snd (multimodalChat text imageData useCache st))) = configOf (this st)) /\
  (forall text fromLang toLang context,
      configOf (this (snd (translate text fromLang toLang context st))) = configOf (this st)) /\
  (forall text,
      configOf (this (snd (chatWithGemma text st))) = configOf (this st) /\
      configOf (this (snd (searchFamily text st))) = configOf (this st)) /\
  (forall a b,
      configOf (this (snd (getMedicalAdvice a b st))) = configOf (this st) /\
      configOf (this (snd (getLegalAdvice a b st))) = configOf (this st)) /\
  (forall c c', configOf c' = configOf c -> standardBudgets c -> standardBudgets c').
Proof.
  repeat match goal with
         | |- _ /\ _ => split
         | |- forall _, _ => intro
         end.
  - apply detectStation_keeps.
  - apply checkConnection_keeps.
  - apply getServerInfo_keeps.
  - reflexivity.
  - apply makeRequest_keeps.
  - apply cachedVisionRequest_keeps.
  - apply cachedVisionRequest_keeps.
  - apply cachedVisionRequest_keeps.
  - apply multimodalChat_keeps.
  - apply translate_keeps.
  - unfold chatWithGemma. rewrite try_catch_rethrow. apply makeRequest_keeps.
  - apply searchFamily_keeps.
  - unfold getMedicalAdvice. rewrite try_catch_rethrow. apply makeRequest_keeps.
  - unfold getLegalAdvice. rewrite try_catch_rethrow. apply makeRequest_keeps.
  - match goal with
    | Hc : configOf _ = configOf _, Hb : standardBudgets _ |- _ =>
        unfold configOf in Hc; unfold standardBudgets in *;
        destruct Hb as (H1 & H2 & H3); injection Hc as Ht Hv Hs _ _
    end.
    rewrite Ht, Hv, Hs. auto.
Qed.

Lemma X7_configuration_is_kept_witness :
  standardBudgets (constructor None) /\
  standardBudgets (this (snd (detectStation (mkSt dellStation (constructor None))))).
Proof.
  assert (Hb : standardBudgets (constructor None)) by (repeat split).
  split; [exact Hb |].
  destruct (X7_configuration_is_kept (mkSt dellStation (constructor None)))
    as (Hd & _ & _ & _ & _ & _ & _ & _ & _ & _ & Hstd).
  exact (Hstd _ _ Hd Hb).
Defined.

(** ** More on the vision cache *)

Lemma cachedVisionRequest_miss (type endpoint imageData additional : string)
    (payload : JSValue) (logged : list string) (useCache : bool) (st : St) :
  useCache && Map.has (generateCacheKey type imageData additional) (cacheOf st) = false ->
  cachedVisionRequest type endpoint imageData additional payload logged useCache st =
  (result <- makeRequest endpoint payload noOptions ;;
   lift_completion (printFields result logged) ;;;
   (if useCache
    then cacheVisionResult (generateCacheKey type imageData additional) result
    else ret tt) ;;;
   ret result) st.
Proof.
  intros H. unfold cachedVisionRequest. rewrite try_catch_rethrow.
  unfold bind at 1. unfold get. fold (cacheOf st). rewrite H. reflexivity.
Qed.

Lemma cachedVisionRequest_miss_world (type endpoint imageData additional : string)
    (payload : JSValue) (logged : list string) (useCache : bool) (st : St) :
  useCache && Map.has (generateCacheKey type imageData additional) (cacheOf st) = false ->
  world (snd (cachedVisionRequest type endpoint imageData additional payload logged
                                  useCache st))
  = world (snd (makeRequest endpoint payload noOptions st)).
Proof.
  intros H. rewrite cachedVisionRequest_miss by exact H.
  unfold bind, lift_completion, ret.
  destruct (makeRequest endpoint payload noOptions st) as [[result | e] st1];
    [| reflexivity].
  destruct (printFields result logged); [| reflexivity].
  destruct useCache; reflexivity.
Qed.

Lemma cachedVisionRequest_uncached_blind (type endpoint imageData additional : string)
    (payload : JSValue) (logged : list string) :
  CacheBlind (cachedVisionRequest type endpoint imageData additional payload logged false).
Proof. unfold cachedVisionRequest. cbv zeta. cbn [andb]. blind. Qed.

Lemma multimodalChat_uncached_blind (text : string) (imageData : option string) :
  CacheBlind (multimodalChat text imageData false).
Proof.
  unfold multimodalChat. rewrite andb_false_r. cbv zeta. blind.
Qed.

(** X8. With [useCache] false the vision cache is out of the picture for
    [serverOCR], [analyzeDocument], [analyzeMedicalImage] and
    [multimodalChat] (with or without image): whatever the cache holds, the
    completion and the rest of the final state are the same, and the cache
    after the call is the cache before it; a stored result is neither
    returned nor overwritten. *)
Theorem X8_uncached_calls_skip_cache (st : St) (imageData aux : string)
    (image : option string) :
  (forall vc,
      serverOCR imageData aux false (withCache vc st) =
      (fst (serverOCR imageData aux false st),
       withCache vc (snd (serverOCR imageData aux false st)))) /\
  (forall vc,
      analyzeDocument imageData aux false (withCache vc st) =
      (fst (analyzeDocument imageData aux false st),
       withCache vc (snd (analyzeDocument imageData aux false st)))) /\
  (forall vc,
      analyzeMedicalImage imageData aux false (withCache vc st) =
      (fst (analyzeMedicalImage imageData aux false st),
       withCache vc (snd (analyzeMedicalImage imageData aux false st)))) /\
  (forall vc,
      multimodalChat aux image false (withCache vc st) =
      (fst (multimodalChat aux image false st),
       withCache vc (snd (multimodalChat aux image false st)))) /\
  cacheOf (snd (serverOCR imageData aux false st)) = cacheOf st /\
  cacheOf (snd (analyzeDocument imageData aux false st)) = cacheOf st /\
  cacheOf (snd (analyzeMedicalImage imageData aux false st)) = cacheOf st /\
  cacheOf (snd (multimodalChat aux image false st)) = cacheOf st.
Proof.
  repeat match goal with |- _ /\ _ => split end.
  - intros vc. apply cachedVisionRequest_uncached_blind.
  - intros vc. apply cachedVisionRequest_uncached_blind.
  - intros vc. apply cachedVisionRequest_uncached_blind.
  - intros vc. apply multimodalChat_uncached_blind.
  - apply CacheBlind_preserves, cachedVisionRequest_uncached_blind.
  - apply CacheBlind_preserves, cachedVisionRequest_uncached_blind.
  - apply CacheBlind_preserves, cachedVisionRequest_uncached_blind.
  - apply CacheBlind_preserves, multimodalChat_uncached_blind.
Qed.

(** X9. After [clearVisionCache] the cache is empty and a vision request on
    a known station is dispatched again, whatever had been cached for it:
    the next [serverOCR] logs exactly one fetch, the OCR request. *)
Theorem X9_clear_cache_forces_dispatch (st : St) (imageData language : string) :
  needsDiscovery (this st) = false ->
  cacheOf (snd (clearVisionCache st)) = [] /\
  fetchLog (world (snd (serverOCR imageData language true (snd (clearVisionCache st))))) =
  fetchLog (world st)
  ++ [dispatchOf (this st) endpoints.vision.ocr
                 (JObj [("image", JStr imageData); ("language", JStr language)]) noOptions].
Proof.
  intros Hknown. split; [reflexivity |].
  unfold serverOCR. rewrite cachedVisionRequest_miss_world by reflexivity.
  rewrite makeRequest_one_fetch; [reflexivity |].
  exact Hknown.
Qed.

Lemma X9_clear_cache_forces_dispatch_witness :
  needsDiscovery (this afterFirstOCR) = false /\
  Map.has (generateCacheKey "ocr" "data:image/jpeg;base64,AAAA" "en") (cacheOf afterFirstOCR)
  = true /\
  List.length (fetchLog (world (snd (serverOCR "data:image/jpeg;base64,AAAA" "en" true
                                               (snd (clearVisionCache afterFirstOCR))))))
  = 2%nat.
Proof.
  split; [reflexivity |]. split; [reflexivity |].
  rewrite (proj2 (X9_clear_cache_forces_dispatch afterFirstOCR
                    "data:image/jpeg;base64,AAAA" "en" eq_refl)).
  reflexivity.
Defined.

(** X10. Results of different request kinds never share a cache key: for
    any images and parameters the keys made for 'ocr', 'document',
    'medical' and 'chat' are pairwise different, so the OCR of an image is
    never returned as its document analysis. *)
Theorem X10_kinds_have_separate_keys (i1 a1 i2 a2 : string) :
  generateCacheKey "ocr" i1 a1 <> generateCacheKey "document" i2 a2 /\
  generateCacheKey "ocr" i1 a1 <> generateCacheKey "medical" i2 a2 /\
  generateCacheKey "ocr" i1 a1 <> generateCacheKey "chat" i2 a2 /\
  generateCacheKey "document" i1 a1 <> generateCacheKey "medical" i2 a2 /\
  generateCacheKey "document" i1 a1 <> generateCacheKey "chat" i2 a2 /\
  generateCacheKey "medical" i1 a1 <> generateCacheKey "chat" i2 a2.
Proof. unfold generateCacheKey. repeat split; discriminate. Qed.

Lemma toInt32_range (z : Z) : - 2 ^ 31 <= toInt32 z < 2 ^ 31.
Proof.
  unfold toInt32. pose proof (Z.mod_pos_bound z (2 ^ 32) ltac:(lia)).
  destruct (z mod 2 ^ 32 <? 2 ^ 31) eqn:E; [apply Z.ltb_lt in E | apply Z.ltb_ge in E]; lia.
Qed.

Lemma hashCodes_range (codes : list Z) : - 2 ^ 31 <= hashCodes codes < 2 ^ 31.
Proof.
  unfold hashCodes.
  assert (H : forall h, - 2 ^ 31 <= h < 2 ^ 31 ->
                        - 2 ^ 31 <= fold_left hashStep codes h < 2 ^ 31).
  { induction codes as [| c codes IH]; intros h Hh; cbn [fold_left]; [exact Hh |].
    apply IH. rewrite hashStep_spec. apply toInt32_range. }
  apply H. lia.
Qed.

(** X11. The loop of [hashString], run over any sequence of code units (the
    values [charCodeAt] yields, of any size), always ends in a signed 32-bit
    integer, and one more code unit [c] after a sequence whose hash is [h]
    gives [31 * h + c] wrapped to 32 bits. *)
Theorem X11_hash_is_32_bit (codes : list Z) (c : Z) :
  - 2147483648 <= hashCodes codes < 2147483648 /\
  hashCodes (codes ++ [c]) = toInt32 (31 * hashCodes codes + c).
Proof.
  split; [apply hashCodes_range |].
  unfold hashCodes. rewrite fold_left_app. cbn [fold_left]. apply hashStep_spec.
Qed.

Lemma Map_keys_set (k : string) (v : JSValue) (m : JSMap) :
  Map.keys (Map.set k v m) = if Map.has k m then Map.keys m else Map.keys m ++ [k].
Proof.
  unfold Map.has, Map.keys. induction m as [| [k' v'] m IH]; cbn [Map.set Map.get map fst].
  - reflexivity.
  - destruct (String.eqb k' k) eqn:E; cbn [map fst]; [reflexivity |].
    rewrite IH. destruct (Map.get k m); reflexivity.
Qed.

Lemma Map_set_NoDup (k : string) (v : JSValue) (m : JSMap) :
  NoDup (Map.keys m) -> NoDup (Map.keys (Map.set k v m)).
Proof.
  intros H. rewrite Map_keys_set. unfold Map.has.
  destruct (Map.get k m) eqn:E; [exact H |].
  apply Map_get_None_keys in E. apply NoDup_app. split; [exact H |]. split.
  - intros x Hx Hk. apply list_elem_of_singleton in Hk. subst.
    apply E. now apply list_elem_of_In.
  - apply NoDup_singleton.
Qed.

Lemma cacheVisionResult_map_NoDup (maxSize : Z) (k : string) (v : JSValue) (m : JSMap) :
  NoDup (Map.keys m) -> NoDup (Map.keys (cacheVisionResult_map maxSize k v m)).
Proof.
  intros H. unfold cacheVisionResult_map. apply Map_set_NoDup.
  destruct (maxSize <=? Map.size m); [| exact H].
  destruct m as [| [k0 v0] rest]; [exact H |].
  unfold Map.firstKey. rewrite Map_delete_first.
  cbn in H. now apply NoDup_cons in H as [_ H].
Qed.

(** X12. The cache evicts by insertion order, not by use: when the oldest
    entry is the one for an image, a hit on it returns its result and leaves
    the cache as it is, and the next result that is cached at capacity under
    another key throws that very entry out. *)
Theorem X12_hit_does_not_protect (st : St) (imageData language key : string)
    (R v : JSValue) (rest : JSMap) :
  cacheOf st = (generateCacheKey "ocr" imageData language, R) :: rest ->
  NoDup (Map.keys (cacheOf st)) ->
  maxCacheSize (this st) <= Map.size (cacheOf st) ->
  key <> generateCacheKey "ocr" imageData language ->
  serverOCR imageData language true st = (Return R, st) /\
  Map.get (generateCacheKey "ocr" imageData language)
          (cacheOf (snd (cacheVisionResult key v (snd (serverOCR imageData language true st)))))
  = None.
Proof.
  intros Hcache Hnd Hfull Hkey.
  assert (Hhit : serverOCR imageData language true st = (Return R, st)).
  { apply cachedVisionRequest_hit. rewrite Hcache. cbn. now rewrite eqb_refl_str. }
  split; [exact Hhit |]. rewrite Hhit. cbn [snd].
  rewrite cacheVisionResult_run. unfold cacheOf at 1. cbn [this setThis setVisionCache visionCache].
  rewrite Hcache in *. rewrite cacheVisionResult_map_full by exact Hfull.
  cbn [snd this setThis setVisionCache visionCache].
  rewrite Map_get_set_other by exact Hkey.
  apply Map_get_None_keys. cbn in Hnd. apply NoDup_cons in Hnd as [Hnotin _].
  intros Hin. apply Hnotin. now apply list_elem_of_In.
Qed.

Lemma X12_hit_does_not_protect_witness :
  cacheOf (mkSt offline (withCapacity 2
             (setVisionCache [(generateCacheKey "ocr" "img-1" "en", JStr "first");
                              (generateCacheKey "ocr" "img-2" "en", JStr "second")]
                             connectedClient)))
  = (generateCacheKey "ocr" "img-1" "en", JStr "first")
      :: [(generateCacheKey "ocr" "img-2" "en", JStr "second")] /\
  Map.get (generateCacheKey "ocr" "img-1" "en")
          (cacheOf (snd (cacheVisionResult (generateCacheKey "ocr" "img-3" "en") (JStr "third")
             (snd (serverOCR "img-1" "en" true
                (mkSt offline (withCapacity 2
                   (setVisionCache [(generateCacheKey "ocr" "img-1" "en", JStr "first");
                                    (generateCacheKey "ocr" "img-2" "en", JStr "second")]
                                   connectedClient))))))))
  = None.
Proof.
  split; [reflexivity |].
  apply (X12_hit_does_not_protect
           (mkSt offline (withCapacity 2
              (setVisionCache [(generateCacheKey "ocr" "img-1" "en", JStr "first");
                               (generateCacheKey "ocr" "img-2" "en", JStr "second")]
                              connectedClient)))
           "img-1" "en" (generateCacheKey "ocr" "img-3" "en") (JStr "first") (JStr "third")
           [(generateCacheKey "ocr" "img-2" "en", JStr "second")] eq_refl).
  - vm_compute. apply NoDup_cons. split.
    + intros H. apply list_elem_of_singleton in H. discriminate.
    + apply NoDup_singleton.
  - vm_compute. discriminate.
  - vm_compute. discriminate.
Defined.

(** X13. The cache keeps its keys distinct, and while there is room nothing
    is lost: a [cacheVisionResult] made below capacity stores the result
    under its key and leaves every other key with the value it had. *)
Theorem X13_room_means_no_eviction (st : St) (key : string) (result : JSValue) :
  (NoDup (Map.keys (cacheOf st)) ->
   NoDup (Map.keys (cacheOf (snd (cacheVisionResult key result st))))) /\
  (Map.size (cacheOf st) < maxCacheSize (this st) ->
   Map.get key (cacheOf (snd (cacheVisionResult key result st))) = Some result /\
   forall other,
     other <> key ->
     Map.get other (cacheOf (snd (cacheVisionResult key result st)))
     = Map.get other (cacheOf st)).
Proof.
  rewrite cacheVisionResult_run. unfold cacheOf at 2 3 4. cbn [snd this setThis setVisionCache visionCache].
  split.
  - apply cacheVisionResult_map_NoDup.
  - intros Hroom. rewrite cacheVisionResult_map_below by exact Hroom.
    split; [apply Map_get_set_same |].
    intros other Hne. apply Map_get_set_other. congruence.
Qed.

Lemma X13_room_means_no_eviction_witness :
  Map.size (cacheOf afterFirstOCR) < maxCacheSize (this afterFirstOCR) /\
  Map.get (generateCacheKey "ocr" "data:image/jpeg;base64,AAAA" "en")
          (cacheOf (snd (cacheVisionResult "document_x_y" JNull afterFirstOCR)))
  = Map.get (generateCacheKey "ocr" "data:image/jpeg;base64,AAAA" "en")
            (cacheOf afterFirstOCR).
Proof.
  assert (Hroom : Map.size (cacheOf afterFirstOCR) < maxCacheSize (this afterFirstOCR))
    by (vm_compute; reflexivity).
  split; [exact Hroom |].
  apply (proj2 (proj2 (X13_room_means_no_eviction afterFirstOCR "document_x_y" JNull) Hroom)).
  vm_compute. discriminate.
Defined.

(** * Further properties of the orchestrator *)

Module UploadFacts.
Import Gemmorandum GemmorandumForms.

Lemma onClient_run {A} (m : Async St A) (gs : GSt) (c : MultimodalAIStationClient) :
  aiClient (gthis gs) = Some c ->
  onClient m gs =
  (fst (m (mkSt (gworld gs) c)),
   mkGSt (world (snd (m (mkSt (gworld gs) c))))
         (setAiClient (Some (this (snd (m (mkSt (gworld gs) c))))) (gthis gs))
         (numeral gs) (sameObject gs)).
Proof.
  intros H. unfold onClient. rewrite H.
  destruct (m (mkSt (gworld gs) c)) as [r st]. reflexivity.
Qed.

Lemma rejected_upload (file : Upload) (gs : GSt) :
  acceptedUpload file = false ->
  exists message,
    handleFileUpload (Some file) gs = (Return tt, shown [ShowError message] gs) /\
    handleFileUpload_fixed (Some file) gs = (Return tt, shown [ShowError message] gs) /\
    (message = "Unsupported file format. Please use JPEG, PNG, or WebP." \/
     message = "File too large. Please use files smaller than 10MB.").
Proof.
  unfold acceptedUpload, handleFileUpload, handleFileUpload_fixed. intros H.
  destruct (arrayIncludes supportedFormats (upload_type file)); cbn [negb andb] in *.
  - assert (Hbig : (10 * 1024 * 1024 <? upload_size file) = true).
    { apply Z.leb_gt in H. apply Z.ltb_lt. lia. }
    rewrite Hbig. eexists. split; [reflexivity |]. split; [reflexivity |]. now right.
  - eexists. split; [reflexivity |]. split; [reflexivity |]. now left.
Qed.

End UploadFacts.

(** X14. An upload whose type is not JPEG, PNG or WebP, or whose size is
    above 10 MiB, never reaches the station: both variants of
    [handleFileUpload] put one error message on the page and change nothing
    else (no fetch, client, form data and progress as they were); the type
    is checked first. Without a file nothing happens at all. *)
Theorem X14_rejected_upload_stays_local (gs : Gemmorandum.GSt) (file : GemmorandumForms.Upload) :
  (acceptedUpload file = false ->
   exists message,
     GemmorandumForms.handleFileUpload (Some file) gs
     = (Return tt, shown [Gemmorandum.ShowError message] gs) /\
     GemmorandumForms.handleFileUpload_fixed (Some file) gs
     = (Return tt, shown [Gemmorandum.ShowError message] gs) /\
     (message = "Unsupported file format. Please use JPEG, PNG, or WebP." \/
      message = "File too large. Please use files smaller than 10MB.")) /\
  (GemmorandumForms.arrayIncludes GemmorandumForms.supportedFormats
                                  (GemmorandumForms.upload_type file) = false ->
   GemmorandumForms.handleFileUpload (Some file) gs
   = (Return tt,
      shown [Gemmorandum.ShowError "Unsupported file format. Please use JPEG, PNG, or WebP."]
            gs)) /\
  GemmorandumForms.handleFileUpload None gs = (Return tt, gs) /\
  GemmorandumForms.handleFileUpload_fixed None gs = (Return tt, gs) /\
  (acceptedUpload file = true <->
   (GemmorandumForms.upload_type file = "image/jpeg" \/
    GemmorandumForms.upload_type file = "image/png" \/
    GemmorandumForms.upload_type file = "image/webp") /\
   GemmorandumForms.upload_size file <= 10485760).
Proof.
  split; [apply UploadFacts.rejected_upload |]. split; [| split; [| split]].
  - intros H. unfold GemmorandumForms.handleFileUpload. rewrite H. reflexivity.
  - reflexivity.
  - reflexivity.
  - unfold acceptedUpload, GemmorandumForms.arrayIncludes, GemmorandumForms.supportedFormats.
    cbn [existsb]. rewrite andb_true_iff, !orb_true_iff, !String.eqb_eq, Z.leb_le.
    intuition congruence.
Qed.

Lemma X14_rejected_upload_stays_local_witness :
  acceptedUpload pdfUpload = false /\
  GemmorandumForms.handleFileUpload (Some pdfUpload) (freshPage ocrStation connectedClient)
  = (Return tt,
     shown [Gemmorandum.ShowError "Unsupported file format. Please use JPEG, PNG, or WebP."]
           (freshPage ocrStation connectedClient)).
Proof.
  split; [reflexivity |].
  apply (proj1 (proj2 (X14_rejected_upload_stays_local
                         (freshPage ocrStation connectedClient) pdfUpload))).
  reflexivity.
Defined.

Lemma getServerInfo_run (st : St) :
  getServerInfo st =
  (Return (serverInfoOf (replyTo st (statusProbe (urlText (stationURL (this st)))))),
   logged (statusProbe (urlText (stationURL (this st)))) st).
Proof.
  unfold getServerInfo, try_catch, bind, get, fetch, fetch_world, fetch_outcome, json,
    lift_completion, ret, serverInfoOf, replyTo, now, logged.
  destruct (network (world st) (List.length (fetchLog (world st)))
                    (statusProbe (urlText (stationURL (this st)))))
    as [lat [resp | msg]]; cbn; [| reflexivity].
  destruct (body resp); reflexivity.
Qed.

Lemma truthy_getProp (v : JSValue) (name : string) :
  truthy v = true -> getProp v name = Return (prop v name).
Proof. unfold prop. destruct v; try discriminate; reflexivity. Qed.

Module PipelineFacts.
Import Gemmorandum GemmorandumForms.

Lemma eta_GSt (gs : GSt) (c : MultimodalAIStationClient) :
  aiClient (gthis gs) = Some c ->
  mkGSt (gworld gs) (setAiClient (Some c) (gthis gs)) (numeral gs) (sameObject gs) = gs.
Proof. destruct gs as [w g n o]. destruct g. cbn. intros ->. reflexivity. Qed.

Lemma fixed_upload_offline (gs : GSt) (c : MultimodalAIStationClient) (file : Upload) :
  aiClient (gthis gs) = Some c ->
  isConnected c = false ->
  acceptedUpload file = true ->
  firstReady (network (gworld gs)) (List.length (fetchLog (gworld gs)))
             (probeOrder (mkSt (gworld gs) c)) = None ->
  handleFileUpload_fixed (Some file) gs =
  (Throw (TypeError "this.startManualEntry is not a function"),
   shown [ShowError "AI server not available. Please check your connection or use manual entry."]
         (withClient (afterVainDiscovery (mkSt (gworld gs) c)) gs)).
Proof.
  intros Hclient Hoff Hacc Hnone.
  unfold acceptedUpload in Hacc. apply andb_true_iff in Hacc as [Htype Hsize].
  apply Z.leb_le in Hsize.
  assert (Hbig : (10 * 1024 * 1024 <? upload_size file) = false) by (apply Z.ltb_ge; lia).
  unfold handleFileUpload_fixed. rewrite Htype, Hbig. cbn [negb].
  unfold bind at 1. unfold get. rewrite Hclient, Hoff. cbn [negb].
  unfold bind at 1. rewrite (UploadFacts.onClient_run _ _ _ Hclient).
  pose proof (detectStation_run (mkSt (gworld gs) c)) as Hrun.
  unfold now in Hrun. cbn [world this] in Hrun. rewrite Hnone in Hrun.
  rewrite Hrun. cbn [fst snd negb world this].
  reflexivity.
Qed.

End PipelineFacts.

(** X15. gemmorandum-multimodal-fixed.js, as the file stands: an accepted
    upload on a client that is not connected starts with discovery; when no
    station answers, only the status probes are logged and the page shows
    "AI server not available ...", but the switch to manual entry does not
    happen: the class of that file has no [startManualEntry], so the call
    rejects with a TypeError, and the form type and the form data stay as
    they were. *)
Theorem X15_fixed_upload_without_station (gs : Gemmorandum.GSt)
    (c : MultimodalAIStationClient) (file : GemmorandumForms.Upload) :
  Gemmorandum.aiClient (Gemmorandum.gthis gs) = Some c ->
  isConnected c = false ->
  acceptedUpload file = true ->
  firstReady (network (Gemmorandum.gworld gs))
             (List.length (fetchLog (Gemmorandum.gworld gs)))
             (probeOrder (mkSt (Gemmorandum.gworld gs) c)) = None ->
  GemmorandumForms.handleFileUpload_fixed (Some file) gs =
  (Throw (TypeError "this.startManualEntry is not a function"),
   shown [Gemmorandum.ShowError
            "AI server not available. Please check your connection or use manual entry."]
         (withClient (afterVainDiscovery (mkSt (Gemmorandum.gworld gs) c)) gs)) /\
  fetchLog (Gemmorandum.gworld (snd (GemmorandumForms.handleFileUpload_fixed (Some file) gs)))
  = fetchLog (Gemmorandum.gworld gs)
    ++ map statusProbe (probeOrder (mkSt (Gemmorandum.gworld gs) c)) /\
  Gemmorandum.formType
    (Gemmorandum.gthis (snd (GemmorandumForms.handleFileUpload_fixed (Some file) gs)))
  = Gemmorandum.formType (Gemmorandum.gthis gs) /\
  Gemmorandum.formData
    (Gemmorandum.gthis (snd (GemmorandumForms.handleFileUpload_fixed (Some file) gs)))
  = Gemmorandum.formData (Gemmorandum.gthis gs).
Proof.
  intros Hclient Hoff Hacc Hnone.
  rewrite (PipelineFacts.fixed_upload_offline gs c file Hclient Hoff Hacc Hnone).
  repeat split.
Qed.

Lemma X15_fixed_upload_without_station_witness :
  acceptedUpload photoUpload = true /\
  fst (GemmorandumForms.handleFileUpload_fixed (Some photoUpload)
         (freshPage offline (constructor None)))
  = Throw (TypeError "this.startManualEntry is not a function") /\
  List.length
    (fetchLog (Gemmorandum.gworld
       (snd (GemmorandumForms.handleFileUpload_fixed (Some photoUpload)
               (freshPage offline (constructor None)))))) = 13%nat.
Proof.
  split; [reflexivity |].
  rewrite (proj1 (X15_fixed_upload_without_station (freshPage offline (constructor None))
                    (constructor None) photoUpload eq_refl eq_refl eq_refl eq_refl)).
  split; reflexivity.
Defined.

(** X16. [checkServerCapabilities] never throws and decides server vision
    from the status document alone: when the station's reply carries a
    truthy JSON document, whatever its HTTP status, the switch becomes that
    document's [vision_processing] (or false when it is missing or falsy);
    when the station cannot be reached or answers no JSON, the switch keeps
    the value it had, which is true on a fresh page; without a client it
    becomes false. The log line that follows the assignment is inside the
    [try]: when the document's [mode] or the new value of the switch does
    not convert, the [catch] sets the switch to false. The fixed variant
    returns the same in every case. *)
Theorem X16_server_vision_switch (gs : Gemmorandum.GSt) (useServerVision : JSValue) :
  GemmorandumForms.checkServerCapabilities_fixed useServerVision gs
  = GemmorandumForms.checkServerCapabilities useServerVision gs /\
  (Gemmorandum.aiClient (Gemmorandum.gthis gs) = None ->
   GemmorandumForms.checkServerCapabilities useServerVision gs = (Return (JBool false), gs)) /\
  (forall c,
      Gemmorandum.aiClient (Gemmorandum.gthis gs) = Some c ->
      let serverInfo := serverInfoOf (replyTo (mkSt (Gemmorandum.gworld gs) c)
                                              (statusProbe (urlText (stationURL c)))) in
      let vision := js_or (prop serverInfo "vision_processing") (JBool false) in
      fst (GemmorandumForms.checkServerCapabilities useServerVision gs) =
      Return
        (if truthy serverInfo
         then if convertible (prop serverInfo "mode") && convertible vision
              then vision else JBool false
         else useServerVision)).
Proof.
  assert (Hnone : Gemmorandum.aiClient (Gemmorandum.gthis gs) = None ->
                  GemmorandumForms.checkServerCapabilities useServerVision gs
                  = (Return (JBool false), gs)).
  { intros H. unfold GemmorandumForms.checkServerCapabilities, try_catch, bind,
      Gemmorandum.onClient. rewrite H. reflexivity. }
  split; [| split; [exact Hnone |]].
  - unfold GemmorandumForms.checkServerCapabilities_fixed.
    destruct (Gemmorandum.aiClient (Gemmorandum.gthis gs)) as [c |] eqn:Hc.
    + unfold try_catch at 1. unfold bind at 1. unfold get. rewrite Hc. reflexivity.
    + rewrite Hnone by reflexivity. unfold try_catch, bind, get. rewrite Hc. reflexivity.
  - intros c Hc serverInfo vision.
    unfold GemmorandumForms.checkServerCapabilities, try_catch.
    unfold bind at 1. rewrite (UploadFacts.onClient_run _ _ _ Hc), getServerInfo_run.
    cbn [fst snd this world]. fold serverInfo.
    destruct (truthy serverInfo) eqn:Et; [| reflexivity].
    unfold bind, lift_completion. rewrite !(truthy_getProp _ _ Et). fold vision.
    unfold convert.
    destruct (convertible (prop serverInfo "mode")); [| reflexivity].
    destruct (convertible vision); reflexivity.
Qed.

Lemma X16_server_vision_switch_witness :
  Gemmorandum.aiClient (Gemmorandum.gthis (freshPage offline connectedClient))
  = Some connectedClient /\
  fst (GemmorandumForms.checkServerCapabilities (JBool true)
         (freshPage offline connectedClient)) = Return (JBool true) /\
  fst (GemmorandumForms.checkServerCapabilities (JBool true)
         (freshPage loadingStation connectedClient)) = Return (JBool false).
Proof.
  split; [reflexivity |]. split.
  - rewrite (proj2 (proj2 (X16_server_vision_switch (freshPage offline connectedClient)
                             (JBool true))) connectedClient eq_refl).
    reflexivity.
  - rewrite (proj2 (proj2 (X16_server_vision_switch (freshPage loadingStation connectedClient)
                             (JBool true))) connectedClient eq_refl).
    reflexivity.
Defined.

(** On [oddModeStation] the status document offers vision processing, the
    log line throws on its [mode], and the switch ends up false. *)
Example unprintable_mode_disables_vision :
  fst (GemmorandumForms.checkServerCapabilities (JBool true)
         (freshPage oddModeStation connectedClient)) = Return (JBool false).
Proof. vm_compute. reflexivity. Qed.

Module StageFacts.
Import Gemmorandum.

Lemma getProp_present (v : JSValue) (name : string) :
  v <> JNull -> v <> JUndefined -> getProp v name = Return (prop v name).
Proof. unfold prop. destruct v; try contradiction; reflexivity. Qed.

Lemma getProp_after (v : JSValue) (name : string) (x : JSValue) :
  getProp v name = Return x -> v <> JNull /\ v <> JUndefined.
Proof. destruct v; try discriminate; split; discriminate. Qed.

Lemma sameValue_eq : forall a b : JSValue, sameValue a b = true -> a = b.
Proof.
  fix IH 1. intros a b.
  destruct a as [| | x | x | x | xs | fs], b as [| | y | y | y | ys | gs];
    try discriminate; cbn [sameValue]; intros H; try reflexivity.
  - apply Bool.eqb_prop in H. now subst.
  - apply Z.eqb_eq in H. now subst.
  - apply String.eqb_eq in H. now subst.
  - f_equal. revert ys H. induction xs as [| x xs IHxs]; intros [| y ys] H;
      try discriminate; [reflexivity |].
    apply andb_true_iff in H as [Hx Hrest].
    f_equal; [apply IH; exact Hx | apply IHxs; exact Hrest].
  - f_equal. revert gs H. induction fs as [| [k1 x] fs IHfs]; intros [| [k2 y] gs] H;
      try discriminate; [reflexivity |].
    apply andb_true_iff in H as [Hhead Hrest].
    apply andb_true_iff in Hhead as [Hk Hx]. apply String.eqb_eq in Hk. subst k2.
    f_equal; [f_equal; apply IH; exact Hx | apply IHfs; exact Hrest].
Qed.

Lemma strictEquals_eq (same : JSValue -> JSValue -> bool) (a b : JSValue) :
  strictEquals same a b = true -> a = b.
Proof.
  destruct a, b; try discriminate; cbn [strictEquals]; intros H; try reflexivity.
  - apply Bool.eqb_prop in H. now subst.
  - apply Z.eqb_eq in H. now subst.
  - apply String.eqb_eq in H. now subst.
  - apply andb_true_iff in H as [H _]. now apply sameValue_eq.
  - apply andb_true_iff in H as [H _]. now apply sameValue_eq.
Qed.

(** The analysis message and the first question change nothing of the
    modelled state. *)
Lemma createFormAnalysisMessage_reads (ocrResult docResult : JSValue) (gs : GSt) :
  snd (createFormAnalysisMessage ocrResult docResult gs) = gs.
Proof.
  unfold createFormAnalysisMessage, bind, lift_completion, get, ret.
  repeat match goal with
         | |- context [match ?c with _ => _ end] => destruct c; cbn [fst snd]
         | |- context [if ?c then _ else _] => destruct c; cbn [fst snd]
         end; reflexivity.
Qed.

Lemma startGuidedFormCompletion_reads (gs : GSt) :
  snd (startGuidedFormCompletion gs) = gs.
Proof.
  unfold startGuidedFormCompletion, bind, lift_completion, get, ret.
  repeat match goal with
         | |- context [match ?c with _ => _ end] => destruct c; cbn [fst snd]
         | |- context [if ?c then _ else _] => destruct c; cbn [fst snd]
         end; reflexivity.
Qed.

Ltac settle :=
  subst;
  unfold show, setCurrentLanguage, setFormType, setFormData;
  cbn [gworld gthis numeral sameObject aiClient currentLanguage processingState formData
       formType ui];
  unfold successShown; rewrite <- ?app_assoc; cbn [app];
  first [ left; reflexivity
        | right; eexists; left; reflexivity
        | right; eexists; right; left; reflexivity
        | right; eexists; right; right; left; reflexivity
        | right; eexists; right; right; right; reflexivity ].

Lemma processVisionResults_outcome (w : World) (cl : option MultimodalAIStationClient)
    (lang : JSValue) (ps : ProcessingState) (fd : option FormData) (ft : JSValue)
    (page : list UIEvent) (n : JSValue -> bool) (o : JSValue -> JSValue -> bool)
    (ocrResult docResult : JSValue) :
  ocrResult <> JNull -> ocrResult <> JUndefined ->
  docResult <> JNull -> docResult <> JUndefined ->
  let detected := prop ocrResult "language_detected" in
  let kind := prop docResult "document_type" in
  let result := Some (sessionResult ocrResult docResult) in
  let run := processVisionResults ocrResult docResult
               (mkGSt w (mkGem cl lang ps fd ft page) n o) in
  run = (Return tt, mkGSt w (mkGem cl detected ps result kind (page ++ successShown)) n o) \/
  exists e,
    run = (Throw e, mkGSt w (mkGem cl detected ps fd ft (page ++ [HideProgress])) n o) \/
    run = (Throw e, mkGSt w (mkGem cl detected ps fd kind (page ++ [HideProgress])) n o) \/
    run = (Throw e, mkGSt w (mkGem cl detected ps result kind (page ++ [HideProgress])) n o) \/
    run = (Throw e, mkGSt w (mkGem cl detected ps result kind (page ++ successShown)) n o).
Proof.
  intros Ho1 Ho2 Hd1 Hd2 detected kind result run.
  remember run as outcome eqn:Hrun. subst run.
  unfold processVisionResults, updateLanguageDisplay in Hrun.
  unfold bind, gupdate, modify, lift_completion, get, ret in Hrun.
  rewrite !(getProp_present ocrResult) in Hrun by assumption.
  rewrite !(getProp_present docResult) in Hrun by assumption.
  cbn [gworld gthis numeral sameObject show setCurrentLanguage setFormType setFormData
       aiClient currentLanguage processingState formData formType ui] in Hrun.
  fold detected kind in Hrun.
  destruct (strictEquals o detected lang) eqn:Eq; cbn [negb] in Hrun.
  - apply strictEquals_eq in Eq. subst lang.
    cbn [gworld gthis numeral sameObject show setCurrentLanguage setFormType setFormData
         aiClient currentLanguage processingState formData formType ui] in Hrun.
    destruct (convert (prop ocrResult "processing_time")); [| settle].
    destruct (convert (prop docResult "processing_time")); [| settle].
    destruct (getFormTypeDisplay kind); [| settle].
    match type of Hrun with
    | context [createFormAnalysisMessage ocrResult docResult ?s] =>
        pose proof (createFormAnalysisMessage_reads ocrResult docResult s) as Hreads;
        destruct (createFormAnalysisMessage ocrResult docResult s) as [c0 s0]
    end.
    cbn [snd] in Hreads. subst s0.
    destruct c0; [| settle].
    cbn [gworld gthis numeral sameObject show setCurrentLanguage setFormType setFormData
         aiClient currentLanguage processingState formData formType ui] in Hrun.
    match type of Hrun with
    | context [startGuidedFormCompletion ?s] =>
        pose proof (startGuidedFormCompletion_reads s) as Hreads;
        destruct (startGuidedFormCompletion s) as [c1 s1]
    end.
    cbn [snd] in Hreads. subst s1.
    destruct c1 as [[] | e]; settle.
  - cbn [gworld gthis numeral sameObject show setCurrentLanguage setFormType setFormData
         aiClient currentLanguage processingState formData formType ui] in Hrun.
    destruct (convert detected); [| settle].
    destruct (convert (prop ocrResult "processing_time")); [| settle].
    destruct (convert (prop docResult "processing_time")); [| settle].
    destruct (getFormTypeDisplay kind); [| settle].
    cbn [gworld gthis numeral sameObject show setCurrentLanguage setFormType setFormData
         aiClient currentLanguage processingState formData formType ui] in Hrun.
    match type of Hrun with
    | context [createFormAnalysisMessage ocrResult docResult ?s] =>
        pose proof (createFormAnalysisMessage_reads ocrResult docResult s) as Hreads;
        destruct (createFormAnalysisMessage ocrResult docResult s) as [c0 s0]
    end.
    cbn [snd] in Hreads. subst s0.
    destruct c0; [| settle].
    cbn [gworld gthis numeral sameObject show setCurrentLanguage setFormType setFormData
         aiClient currentLanguage processingState formData formType ui] in Hrun.
    match type of Hrun with
    | context [startGuidedFormCompletion ?s] =>
        pose proof (startGuidedFormCompletion_reads s) as Hreads;
        destruct (startGuidedFormCompletion s) as [c1 s1]
    end.
    cbn [snd] in Hreads. subst s1.
    destruct c1 as [[] | e]; settle.
Qed.

Lemma present_neq (v : JSValue) : present v = true -> v <> JNull /\ v <> JUndefined.
Proof. destruct v; try discriminate; split; discriminate. Qed.

Lemma primitive_convert (v : JSValue) : primitive v = true -> convert v = Return tt.
Proof. destruct v; try discriminate; reflexivity. Qed.

Lemma forEachField_names (xs : list JSValue) :
  forallb isString xs = true -> forEachField xs = Return tt.
Proof.
  induction xs as [| x xs IH]; [reflexivity |].
  cbn [forallb forEachField]. intros H. apply andb_true_iff in H as [Hx Hxs].
  destruct x; try discriminate. cbn. now apply IH.
Qed.

Lemma obj_get_from (P : JSValue -> bool) (key : string) (fields : list (string * JSValue)) :
  forallb (fun kv => P (snd kv)) fields = true ->
  forall acc x,
    (forall y, acc = Some y -> P y = true) ->
    fold_left (fun acc kv => if String.eqb (fst kv) key then Some (snd kv) else acc)
              fields acc = Some x ->
    P x = true.
Proof.
  induction fields as [| kv fields IH]; cbn [forallb fold_left]; intros H acc x Hacc Hget.
  - now apply Hacc.
  - apply andb_true_iff in H as [Hkv Hrest].
    apply (IH Hrest _ x) in Hget; [exact Hget |].
    intros y. destruct (String.eqb (fst kv) key); [| apply Hacc].
    intros [= <-]. exact Hkv.
Qed.

Lemma flat_member (v : JSValue) (key : string) :
  flat v = true -> present v = true ->
  exists x, getMember v key = Return x /\ primitive x = true.
Proof.
  intros Hflat Hpresent. destruct v; try discriminate.
  - eexists. split; reflexivity.
  - eexists. split; reflexivity.
  - cbn [getMember]. destruct (indexOfKey key (String.length s)).
    + eexists. split; reflexivity.
    + cbn [getProp]. destruct (String.eqb key "length"); eexists; split; reflexivity.
  - cbn [getMember]. destruct (indexOfKey key (List.length xs)) as [i |].
    + eexists. split; [reflexivity |]. cbn [flat] in Hflat.
      revert i. induction xs as [| y xs IH]; intros [| i]; try reflexivity;
        cbn [forallb] in Hflat; apply andb_true_iff in Hflat as [Hy Hxs]; cbn [nth].
      * exact Hy.
      * now apply IH.
    + cbn [getProp]. destruct (String.eqb key "length"); eexists; split; reflexivity.
  - cbn [getMember getProp]. eexists. split; [reflexivity |].
    unfold obj_get. cbn [flat] in Hflat.
    destruct (fold_left _ fields None) as [x |] eqn:E; [| reflexivity].
    cbn [default]. unfold id.
    eapply (obj_get_from primitive key fields Hflat None x); [discriminate | exact E].
Qed.

Lemma createFormAnalysisMessage_presentable (ocrResult docResult : JSValue) (gs : GSt) :
  presentable ocrResult docResult = true ->
  createFormAnalysisMessage ocrResult docResult gs = (Return tt, gs).
Proof.
  unfold presentable. rewrite !andb_true_iff.
  intros [[[[[[[[[Ho Hd] Hc] Hl] Hto] Hk] Htd] Hp] Hn] Hf].
  apply present_neq in Ho as [Ho1 Ho2]. apply present_neq in Hd as [Hd1 Hd2].
  unfold createFormAnalysisMessage, getFormTypeDisplay, bind, lift_completion, get, ret.
  rewrite !(getProp_present ocrResult) by assumption.
  rewrite !(getProp_present docResult) by assumption.
  rewrite !primitive_convert by assumption.
  destruct (prop docResult "critical_fields") as [| | b | z | s | xs | fields];
    cbn [fieldNames truthy negb] in *; try discriminate; try reflexivity;
    try (rewrite (proj1 (negb_true_iff _) Hn); reflexivity).
  cbn [getProp String.eqb Ascii.eqb Bool.eqb positive].
  destruct (0 <? Z.of_nat (List.length xs)); [| reflexivity].
  cbn [forEach]. now rewrite forEachField_names.
Qed.

Lemma startGuidedFormCompletion_presentable (ocrResult docResult : JSValue) (gs : GSt) :
  presentable ocrResult docResult = true ->
  formData (gthis gs) = Some (sessionResult ocrResult docResult) ->
  startGuidedFormCompletion gs = (Return tt, gs).
Proof.
  unfold presentable. rewrite !andb_true_iff.
  intros [[[[[[[[[Ho Hd] Hc] Hl] Hto] Hk] Htd] Hp] Hn] Hf] Hdata.
  unfold startGuidedFormCompletion. unfold bind at 1. unfold get. rewrite Hdata.
  cbn [sessionResult criticalFields extractedFields].
  assert (Hmember : forall key, exists x,
             getMember (js_or (prop docResult "extracted_fields") (JObj [])) key = Return x
             /\ primitive x = true).
  { intros key. unfold js_or.
    destruct (truthy (prop docResult "extracted_fields")) eqn:Et.
    - apply flat_member; [exact Hf |].
      destruct (prop docResult "extracted_fields"); try discriminate; reflexivity.
    - apply flat_member; reflexivity. }
  assert (Hcases : (exists xs, prop docResult "critical_fields" = JArr xs
                               /\ forallb isString xs = true)
                   \/ truthy (prop docResult "critical_fields") = false).
  { destruct (prop docResult "critical_fields") as [| | b | z | s | xs | fields];
      cbn [fieldNames] in Hn; try (right; now apply negb_true_iff).
    left. now exists xs. }
  destruct Hcases as [(xs & -> & Hnames) | Hfalsy];
    [| unfold js_or; rewrite Hfalsy; reflexivity].
  clear Hn. rename Hnames into Hn.
  cbn [truthy negb js_or]. unfold bind, lift_completion, ret.
  cbn [getProp String.eqb Ascii.eqb Bool.eqb strictEquals].
  destruct xs as [| x xs]; [reflexivity |].
  cbn [List.length forallb] in *. apply andb_true_iff in Hn as [Hx Hxs].
  destruct x as [| | | | f | |]; try discriminate.
  replace (Z.of_nat (S (List.length xs)) =? 0) with false by (symmetry; apply Z.eqb_neq; lia).
  cbn [getMember indexOfKey List.seq List.find List.length].
  change (toStringRadix 10 (Z.of_nat 0)) with "0". cbn [String.eqb Ascii.eqb Bool.eqb nth].
  cbn [convert convertible toStringJS replaceUnderscore].
  destruct (Hmember f) as (v & -> & Hv). now rewrite primitive_convert.
Qed.

Lemma processVisionResults_presentable (w : World) (cl : option MultimodalAIStationClient)
    (lang : JSValue) (ps : ProcessingState) (fd : option FormData) (ft : JSValue)
    (page : list UIEvent) (n : JSValue -> bool) (o : JSValue -> JSValue -> bool)
    (ocrResult docResult : JSValue) :
  presentable ocrResult docResult = true ->
  processVisionResults ocrResult docResult (mkGSt w (mkGem cl lang ps fd ft page) n o)
  = (Return tt,
     mkGSt w (mkGem cl (prop ocrResult "language_detected") ps
                    (Some (sessionResult ocrResult docResult))
                    (prop docResult "document_type") (page ++ successShown)) n o).
Proof.
  intros Hok. pose proof Hok as Hparts. unfold presentable in Hparts.
  rewrite !andb_true_iff in Hparts.
  destruct Hparts as [[[[[[[[[Ho Hd] Hc] Hl] Hto] Hk] Htd] Hp] Hn] Hf].
  apply present_neq in Ho as [Ho1 Ho2]. apply present_neq in Hd as [Hd1 Hd2].
  unfold processVisionResults, updateLanguageDisplay.
  unfold bind, gupdate, modify, lift_completion, get, ret.
  rewrite !(getProp_present ocrResult) by assumption.
  rewrite !(getProp_present docResult) by assumption.
  unfold getFormTypeDisplay. rewrite !primitive_convert by assumption.
  cbn [gworld gthis numeral sameObject show setCurrentLanguage setFormType setFormData
       aiClient currentLanguage processingState formData formType ui].
  destruct (strictEquals o (prop ocrResult "language_detected") lang) eqn:Eq; cbn [negb].
  - apply strictEquals_eq in Eq. subst lang.
    cbn [gworld gthis numeral sameObject].
    rewrite createFormAnalysisMessage_presentable by exact Hok.
    cbn [gworld gthis numeral sameObject].
    rewrite (startGuidedFormCompletion_presentable ocrResult docResult) by
      (try exact Hok; reflexivity).
    unfold show, setFormData, setFormType, successShown.
    cbn [aiClient currentLanguage processingState formData formType ui].
    rewrite <- !app_assoc. reflexivity.
  - cbn [gworld gthis numeral sameObject setCurrentLanguage currentLanguage].
    rewrite primitive_convert by assumption.
    cbn [gworld gthis numeral sameObject].
    rewrite createFormAnalysisMessage_presentable by exact Hok.
    cbn [gworld gthis numeral sameObject].
    rewrite (startGuidedFormCompletion_presentable ocrResult docResult) by
      (try exact Hok; reflexivity).
    unfold show, setFormData, setFormType, setCurrentLanguage, successShown.
    cbn [aiClient currentLanguage processingState formData formType ui].
    rewrite <- !app_assoc. reflexivity.
Qed.

(** Stage 1 and stage 2 have returned: what is left of the body. *)
Lemma visionStages_after_results (gs : GSt) (c : MultimodalAIStationClient)
    (base64Image : string) (ocrResult docResult : JSValue) (st1 st2 : St) :
  aiClient (gthis gs) = Some c ->
  serverOCR_value (numeral gs) base64Image (currentLanguage (gthis gs)) true
                  (mkSt (gworld gs) c) = (Return ocrResult, st1) ->
  analyzeDocument base64Image "general" true st1 = (Return docResult, st2) ->
  visionStages base64Image gs =
  (confidence <- lift_completion (getProp ocrResult "confidence") ;;
   lift_completion (convert confidence) ;;;
   document_type <- lift_completion (getProp docResult "document_type") ;;
   lift_completion (convert document_type) ;;;
   processVisionResults ocrResult docResult)
    (mkGSt (world st2)
           (mkGem (Some (this st2)) (currentLanguage (gthis gs))
                  (mkProcessing "complete" 100 "Processing complete!")
                  (formData (gthis gs)) (formType (gthis gs)) (ui (gthis gs)))
           (numeral gs) (sameObject gs)).
Proof.
  intros Hclient Hocr Hdoc.
  unfold visionStages, updateVisionProgress.
  unfold bind at 1. unfold gupdate at 1, modify at 1.
  unfold bind at 1. unfold ret at 1.
  unfold bind at 1. unfold get at 1.
  unfold bind at 1. unfold onClient at 1.
  cbn [gthis gworld numeral sameObject aiClient setProcessingState currentLanguage].
  rewrite Hclient, Hocr.
  unfold bind at 1. unfold gupdate at 1, modify at 1.
  unfold bind at 1. unfold ret at 1.
  unfold bind at 1. unfold onClient at 1.
  cbn [gthis gworld numeral sameObject aiClient setProcessingState setAiClient currentLanguage].
  destruct st1 as [w1 c1]. cbn [world this]. rewrite Hdoc.
  unfold bind at 1. unfold gupdate at 1, modify at 1.
  unfold bind at 1. unfold ret at 1.
  cbn [gthis gworld numeral sameObject aiClient setProcessingState setAiClient currentLanguage
       processingState formData formType ui].
  reflexivity.
Qed.

Lemma handled_failure (e : JSError) (w : World) (g : GemmorandumMultimodal)
    (n : JSValue -> bool) (o : JSValue -> JSValue -> bool) :
  handleVisionProcessingError e (mkGSt w g n o)
  = (Return tt,
     mkGSt w (mkGem (aiClient g) (currentLanguage g) (processingState g) (formData g)
                    (formType g) (ui g ++ failureShown)) n o).
Proof.
  unfold handleVisionProcessingError, bind, gupdate, modify, show, failureShown.
  cbn [gworld gthis numeral sameObject aiClient currentLanguage processingState formData
       formType ui].
  rewrite <- !app_assoc. reflexivity.
Qed.

Lemma stages_success (gs : GSt) (c : MultimodalAIStationClient)
    (base64Image : string) (ocrResult docResult : JSValue) (st1 st2 : St) :
  aiClient (gthis gs) = Some c ->
  serverOCR_value (numeral gs) base64Image (currentLanguage (gthis gs)) true
                  (mkSt (gworld gs) c) = (Return ocrResult, st1) ->
  analyzeDocument base64Image "general" true st1 = (Return docResult, st2) ->
  presentable ocrResult docResult = true ->
  try_catch (visionStages base64Image) handleVisionProcessingError gs
  = (Return tt, afterSuccess gs st2 ocrResult docResult).
Proof.
  intros Hclient Hocr Hdoc Hok.
  unfold try_catch.
  rewrite (visionStages_after_results gs c base64Image ocrResult docResult st1 st2)
    by assumption.
  pose proof Hok as Hparts. unfold presentable in Hparts.
  rewrite !andb_true_iff in Hparts.
  destruct Hparts as [[[[[[[[[Ho Hd] Hc] Hl] Hto] Hk] Htd] Hp] Hn] Hf].
  apply present_neq in Ho as [Ho1 Ho2]. apply present_neq in Hd as [Hd1 Hd2].
  unfold bind, lift_completion.
  rewrite (getProp_present ocrResult), (getProp_present docResult) by assumption.
  rewrite !primitive_convert by assumption.
  rewrite processVisionResults_presentable by exact Hok.
  reflexivity.
Qed.

Lemma stages_results_outcome (gs : GSt) (c : MultimodalAIStationClient)
    (base64Image : string) (ocrResult docResult : JSValue) (st1 st2 : St) :
  aiClient (gthis gs) = Some c ->
  serverOCR_value (numeral gs) base64Image (currentLanguage (gthis gs)) true
                  (mkSt (gworld gs) c) = (Return ocrResult, st1) ->
  analyzeDocument base64Image "general" true st1 = (Return docResult, st2) ->
  try_catch (visionStages base64Image) handleVisionProcessingError gs
  = (Return tt, afterSuccess gs st2 ocrResult docResult) \/
  exists point,
    try_catch (visionStages base64Image) handleVisionProcessingError gs
    = (Return tt, afterAbort point gs st2 ocrResult docResult).
Proof.
  intros Hclient Hocr Hdoc.
  unfold try_catch.
  rewrite (visionStages_after_results gs c base64Image ocrResult docResult st1 st2)
    by assumption.
  unfold bind, lift_completion.
  destruct (getProp ocrResult "confidence") as [confidence | e] eqn:Hconfidence;
    [| right; exists AtLogLines; rewrite handled_failure; reflexivity].
  destruct (convert confidence);
    [| right; exists AtLogLines; rewrite handled_failure; reflexivity].
  destruct (getProp docResult "document_type") as [kind | e] eqn:Hkind;
    [| right; exists AtLogLines; rewrite handled_failure; reflexivity].
  destruct (convert kind);
    [| right; exists AtLogLines; rewrite handled_failure; reflexivity].
  apply getProp_after in Hconfidence as [Ho1 Ho2].
  apply getProp_after in Hkind as [Hd1 Hd2].
  destruct (processVisionResults_outcome (world st2) (Some (this st2))
              (currentLanguage (gthis gs))
              (mkProcessing "complete" 100 "Processing complete!")
              (formData (gthis gs)) (formType (gthis gs)) (ui (gthis gs))
              (numeral gs) (sameObject gs)
              ocrResult docResult Ho1 Ho2 Hd1 Hd2)
    as [Hrun | (e & [Hrun | [Hrun | [Hrun | Hrun]]])];
    cbv zeta in Hrun; rewrite Hrun.
  - left. reflexivity.
  - right. exists AtLanguage. rewrite handled_failure. unfold afterAbort.
    cbn [ui aiClient currentLanguage processingState formData formType].
    rewrite <- app_assoc. reflexivity.
  - right. exists AtSessionResult. rewrite handled_failure. unfold afterAbort.
    cbn [ui aiClient currentLanguage processingState formData formType].
    rewrite <- app_assoc. reflexivity.
  - right. exists AtAnalysis. rewrite handled_failure. unfold afterAbort.
    cbn [ui aiClient currentLanguage processingState formData formType].
    rewrite <- app_assoc. reflexivity.
  - right. exists AtGuidance. rewrite handled_failure. unfold afterAbort.
    cbn [ui aiClient currentLanguage processingState formData formType].
    rewrite <- app_assoc. reflexivity.
Qed.

Lemma stages_stage1_failure (gs : GSt) (c : MultimodalAIStationClient)
    (base64Image : string) (e : JSError) (st1 : St) :
  aiClient (gthis gs) = Some c ->
  serverOCR_value (numeral gs) base64Image (currentLanguage (gthis gs)) true
                  (mkSt (gworld gs) c) = (Throw e, st1) ->
  try_catch (visionStages base64Image) handleVisionProcessingError gs
  = (Return tt, afterStage1Failure gs st1).
Proof.
  intros Hclient Hocr.
  unfold try_catch, visionStages, updateVisionProgress, bind, ret, gupdate, modify, get,
    onClient.
  cbn [gthis gworld numeral sameObject aiClient setProcessingState currentLanguage].
  rewrite Hclient, Hocr.
  rewrite handled_failure. reflexivity.
Qed.

(** Once the image is encoded, [processImageWithServerVision] is its stages
    under its handler. *)
Lemma encoded_run (gs : GSt) (c : MultimodalAIStationClient) (file : ImageFile)
    (dataURL base64Image : string) :
  aiClient (gthis gs) = Some c ->
  readAsDataURL file = Some dataURL ->
  canvasJPEG file = Some base64Image ->
  processImageWithServerVision file gs
  = try_catch (visionStages base64Image) handleVisionProcessingError gs.
Proof.
  intros Hclient Hread Hcanvas.
  assert (Hencode : onClient (processImageFile file) gs = (Return base64Image, gs)).
  { unfold processImageFile. rewrite Hread, Hcanvas.
    now apply GemmorandumFacts.onClient_return with (c := c). }
  unfold processImageWithServerVision, try_catch, bind. now rewrite Hencode.
Qed.

Lemma encoding_rejected (gs : GSt) (c : MultimodalAIStationClient) (file : ImageFile) :
  aiClient (gthis gs) = Some c ->
  readAsDataURL file = None \/ canvasJPEG file = None ->
  onClient (processImageFile file) gs = (Throw rejected, gs).
Proof.
  intros Hclient Hfile.
  assert (Hthrow : processImageFile file = throw rejected).
  { unfold processImageFile. destruct Hfile as [-> | ->]; [reflexivity |].
    destruct (readAsDataURL file); reflexivity. }
  rewrite Hthrow. destruct gs as [w g n o]. destruct g. cbn in Hclient. subst.
  reflexivity.
Qed.

Lemma original_cases (gs : GSt) (c : MultimodalAIStationClient) (file : ImageFile)
    (dataURL base64Image : string) :
  aiClient (gthis gs) = Some c ->
  readAsDataURL file = Some dataURL ->
  canvasJPEG file = Some base64Image ->
  match serverOCR_value (numeral gs) base64Image (currentLanguage (gthis gs)) true
                        (mkSt (gworld gs) c) with
  | (Throw _, st1) =>
      processImageWithServerVision file gs = (Return tt, afterStage1Failure gs st1)
  | (Return ocrResult, st1) =>
      match analyzeDocument base64Image "general" true st1 with
      | (Throw _, st2) =>
          processImageWithServerVision file gs = (Return tt, afterStage2Failure gs st2)
      | (Return docResult, st2) =>
          processImageWithServerVision file gs
          = (Return tt, afterSuccess gs st2 ocrResult docResult) \/
          exists point,
            processImageWithServerVision file gs
            = (Return tt, afterAbort point gs st2 ocrResult docResult)
      end
  end.
Proof.
  intros Hclient Hread Hcanvas.
  rewrite (encoded_run gs c file dataURL base64Image Hclient Hread Hcanvas).
  destruct (serverOCR_value (numeral gs) base64Image (currentLanguage (gthis gs)) true
                            (mkSt (gworld gs) c)) as [[ocrResult | e] st1] eqn:Hocr.
  - destruct (analyzeDocument base64Image "general" true st1)
      as [[docResult | e] st2] eqn:Hdoc.
    + now apply (stages_results_outcome gs c base64Image ocrResult docResult st1 st2).
    + now apply (GemmorandumFacts.visionStages_stage2_failure
                   gs c base64Image ocrResult e st1 st2).
  - now apply (stages_stage1_failure gs c base64Image e st1).
Qed.

Lemma original_not_encoded (gs : GSt) (file : ImageFile) :
  aiClient (gthis gs) = None \/ readAsDataURL file = None \/ canvasJPEG file = None ->
  processImageWithServerVision file gs = (Return tt, shown failureShown gs).
Proof.
  intros Hcase. unfold processImageWithServerVision, try_catch, bind.
  assert (Hthrow : exists e, onClient (processImageFile file) gs = (Throw e, gs)).
  { destruct (aiClient (gthis gs)) as [c |] eqn:Hclient.
    - exists rejected. apply (encoding_rejected gs c file Hclient).
      destruct Hcase as [Hnone | Hfile]; [discriminate | exact Hfile].
    - eexists. unfold onClient. rewrite Hclient. reflexivity. }
  destruct Hthrow as [e ->]. destruct gs as [w g n o]. now rewrite handled_failure.
Qed.

Lemma original_returns (gs : GSt) (file : ImageFile) :
  exists gs', processImageWithServerVision file gs = (Return tt, gs').
Proof.
  destruct (aiClient (gthis gs)) as [c |] eqn:Hclient;
    [| eexists; apply original_not_encoded; now left].
  destruct (readAsDataURL file) as [dataURL |] eqn:Hread;
    [| eexists; apply original_not_encoded; right; now left].
  destruct (canvasJPEG file) as [base64Image |] eqn:Hcanvas;
    [| eexists; apply original_not_encoded; right; now right].
  pose proof (original_cases gs c file dataURL base64Image Hclient Hread Hcanvas) as Hcases.
  destruct (serverOCR_value (numeral gs) base64Image (currentLanguage (gthis gs)) true
                            (mkSt (gworld gs) c)) as [[ocrResult | e] st1];
    [| eexists; exact Hcases].
  destruct (analyzeDocument base64Image "general" true st1) as [[docResult | e] st2];
    [| eexists; exact Hcases].
  destruct Hcases as [Hrun | [point Hrun]]; eexists; exact Hrun.
Qed.

(** The fixed file as it stands: whatever happens in the [try] block, the
    [catch] calls a method the class does not have. *)
Lemma fixed_rejects (gs : GSt) (file : ImageFile) :
  exists gs',
    processImageWithServerVision_fixed file gs
    = (Throw (TypeError "this.handleVisionProcessingError is not a function"), gs') /\
    gworld gs' = gworld gs.
Proof.
  unfold processImageWithServerVision_fixed.
  unfold try_catch at 1. unfold bind at 1. unfold get at 1.
  destruct (aiClient (gthis gs)) as [c |] eqn:Hclient;
    [| eexists; split; reflexivity].
  unfold bind at 1. unfold ret at 1. unfold bind at 1.
  assert (Hencode : exists r,
             try_catch (onClient (processImageFile file)) (fun _ => fileToBase64 file) gs
             = (r, gs)).
  { unfold try_catch, fileToBase64.
    destruct (readAsDataURL file) as [dataURL |] eqn:Hread;
      [destruct (canvasJPEG file) as [base64Image |] eqn:Hcanvas |].
    - unfold processImageFile. rewrite Hread, Hcanvas.
      rewrite (GemmorandumFacts.onClient_return gs c base64Image Hclient).
      eexists; reflexivity.
    - rewrite (encoding_rejected gs c file Hclient) by (now right).
      eexists; reflexivity.
    - rewrite (encoding_rejected gs c file Hclient) by (now left).
      eexists; reflexivity. }
  destruct Hencode as [r ->].
  destruct r as [base64Image | e]; eexists; split; reflexivity.
Qed.

Lemma fixed_fallback (gs : GSt) (c : MultimodalAIStationClient) (file : ImageFile)
    (dataURL : string) :
  aiClient (gthis gs) = Some c ->
  readAsDataURL file = Some dataURL ->
  processImageWithServerVision_fixed file gs
  = (Throw (TypeError "this.handleVisionProcessingError is not a function"),
     atStage (mkProcessing "ocr" 10 "Extracting text from image...") gs).
Proof.
  intros Hclient Hread.
  unfold processImageWithServerVision_fixed.
  unfold try_catch at 1. unfold bind at 1. unfold get at 1. rewrite Hclient.
  unfold bind at 1. unfold ret at 1. unfold bind at 1.
  assert (Hencode : exists base64Image,
             try_catch (onClient (processImageFile file)) (fun _ => fileToBase64 file) gs
             = (Return base64Image, gs)).
  { unfold try_catch, fileToBase64.
    destruct (canvasJPEG file) as [base64Image |] eqn:Hcanvas.
    - unfold processImageFile. rewrite Hread, Hcanvas.
      rewrite (GemmorandumFacts.onClient_return gs c base64Image Hclient).
      eexists; reflexivity.
    - rewrite (encoding_rejected gs c file Hclient) by (now right).
      rewrite Hread. eexists; reflexivity. }
  destruct Hencode as [base64Image ->]. reflexivity.
Qed.

End StageFacts.

(** X17. When both stages return results that the page can show (neither is
    null, the fields that are printed are primitives, the critical fields
    are names and the extracted fields are flat),
    [processImageWithServerVision] of gemmorandum-multimodal.js ends with
    the session result in [formData]: the extracted text and the detected
    language of stage 1, the document type of stage 2, its extracted fields
    and critical fields (an empty object and an empty array when they are
    missing), and the two processing times. The form type is the document
    type, the page language is the detected language whatever it is (also
    when it is missing), the progress marker is at 100, and the analysis and
    the conversation section are shown. *)
Theorem X17_pipeline_success (gs : Gemmorandum.GSt) (c : MultimodalAIStationClient)
    (file : Gemmorandum.ImageFile) (dataURL base64Image : string)
    (ocrResult docResult : JSValue) (st1 st2 : St) :
  Gemmorandum.aiClient (Gemmorandum.gthis gs) = Some c ->
  Gemmorandum.readAsDataURL file = Some dataURL ->
  Gemmorandum.canvasJPEG file = Some base64Image ->
  serverOCR_value (Gemmorandum.numeral gs) base64Image
                  (Gemmorandum.currentLanguage (Gemmorandum.gthis gs)) true
                  (mkSt (Gemmorandum.gworld gs) c) = (Return ocrResult, st1) ->
  analyzeDocument base64Image "general" true st1 = (Return docResult, st2) ->
  presentable ocrResult docResult = true ->
  Gemmorandum.processImageWithServerVision file gs
  = (Return tt, afterSuccess gs st2 ocrResult docResult).
Proof.
  intros Hclient Hread Hcanvas Hocr Hdoc Hok.
  rewrite (StageFacts.encoded_run gs c file dataURL base64Image Hclient Hread Hcanvas).
  now apply (StageFacts.stages_success gs c base64Image ocrResult docResult st1 st2).
Qed.

Lemma X17_pipeline_success_witness :
  Gemmorandum.processImageWithServerVision photo (freshPage documentStation connectedClient)
  = (Return tt,
     afterSuccess (freshPage documentStation connectedClient) afterDocumentAnalysis
                  readText asylumAnalysis).
Proof.
  assert (Hocr : serverOCR_value
                   (Gemmorandum.numeral (freshPage documentStation connectedClient))
                   "data:image/jpeg;base64,AAAA"
                   (Gemmorandum.currentLanguage
                      (Gemmorandum.gthis (freshPage documentStation connectedClient)))
                   true
                   (mkSt (Gemmorandum.gworld (freshPage documentStation connectedClient))
                         connectedClient)
                 = (Return readText, afterDocumentOCR))
    by (vm_compute; reflexivity).
  assert (Hdoc : analyzeDocument "data:image/jpeg;base64,AAAA" "general" true afterDocumentOCR
                 = (Return asylumAnalysis, afterDocumentAnalysis))
    by (vm_compute; reflexivity).
  exact (X17_pipeline_success (freshPage documentStation connectedClient)
           connectedClient photo "data:image/png;base64,AAAA" "data:image/jpeg;base64,AAAA"
           readText asylumAnalysis afterDocumentOCR afterDocumentAnalysis
           eq_refl eq_refl eq_refl Hocr Hdoc eq_refl).
Defined.

(** X18. When stage 1 fails, [processImageWithServerVision] of
    gemmorandum-multimodal.js aborts the session at once: stage 2 is never
    dispatched (the world is the one stage 1 left), the failure message and
    the capture section are shown, the progress marker stays at the OCR
    stage, and form data, form type and language are unchanged. *)
Theorem X18_stage1_failure_aborts (gs : Gemmorandum.GSt) (c : MultimodalAIStationClient)
    (file : Gemmorandum.ImageFile) (dataURL base64Image : string)
    (e : JSError) (st1 : St) :
  Gemmorandum.aiClient (Gemmorandum.gthis gs) = Some c ->
  Gemmorandum.readAsDataURL file = Some dataURL ->
  Gemmorandum.canvasJPEG file = Some base64Image ->
  serverOCR_value (Gemmorandum.numeral gs) base64Image
                  (Gemmorandum.currentLanguage (Gemmorandum.gthis gs)) true
                  (mkSt (Gemmorandum.gworld gs) c) = (Throw e, st1) ->
  Gemmorandum.processImageWithServerVision file gs
  = (Return tt, afterStage1Failure gs st1) /\
  Gemmorandum.gworld (afterStage1Failure gs st1) = world st1 /\
  Gemmorandum.formData (Gemmorandum.gthis (afterStage1Failure gs st1))
  = Gemmorandum.formData (Gemmorandum.gthis gs) /\
  Gemmorandum.formType (Gemmorandum.gthis (afterStage1Failure gs st1))
  = Gemmorandum.formType (Gemmorandum.gthis gs) /\
  Gemmorandum.currentLanguage (Gemmorandum.gthis (afterStage1Failure gs st1))
  = Gemmorandum.currentLanguage (Gemmorandum.gthis gs).
Proof.
  intros Hclient Hread Hcanvas Hocr.
  rewrite (StageFacts.encoded_run gs c file dataURL base64Image Hclient Hread Hcanvas).
  rewrite (StageFacts.stages_stage1_failure gs c base64Image e st1 Hclient Hocr).
  repeat split.
Qed.

Lemma X18_stage1_failure_aborts_witness :
  Gemmorandum.processImageWithServerVision photo (freshPage failingStation connectedClient)
  = (Return tt, afterStage1Failure (freshPage failingStation connectedClient) afterFailedOCR) /\
  List.length (fetchLog (world afterFailedOCR)) = 1%nat.
Proof.
  split; [| vm_compute; reflexivity].
  assert (Hocr : serverOCR_value
                   (Gemmorandum.numeral (freshPage failingStation connectedClient))
                   "data:image/jpeg;base64,AAAA"
                   (Gemmorandum.currentLanguage
                      (Gemmorandum.gthis (freshPage failingStation connectedClient)))
                   true
                   (mkSt (Gemmorandum.gworld (freshPage failingStation connectedClient))
                         connectedClient)
                 = (Throw (newError "API request failed: 500 Internal Server Error"),
                    afterFailedOCR))
    by (vm_compute; reflexivity).
  exact (proj1 (X18_stage1_failure_aborts (freshPage failingStation connectedClient)
           connectedClient photo "data:image/png;base64,AAAA" "data:image/jpeg;base64,AAAA"
           _ afterFailedOCR eq_refl eq_refl eq_refl Hocr)).
Defined.

(** X19. When the image cannot be encoded (the file cannot be read, or the
    canvas re-encoding of [processImageFile] fails),
    [processImageWithServerVision] of gemmorandum-multimodal.js reports the
    failure without contacting the station: the failure message and the
    capture section are shown and nothing else changes. In
    gemmorandum-multimodal-fixed.js a file that can be read is encoded by
    the fallback [fileToBase64], and the progress marker is set to the OCR
    stage; but the class of that file defines none of
    [updateVisionProgress], [processVisionResults] and
    [handleVisionProcessingError], so as the file stands the call stops
    there and rejects with a TypeError out of its own [catch], before any
    request is sent. *)
Theorem X19_encoding_failure (gs : Gemmorandum.GSt) (c : MultimodalAIStationClient)
    (file : Gemmorandum.ImageFile) :
  Gemmorandum.aiClient (Gemmorandum.gthis gs) = Some c ->
  Gemmorandum.readAsDataURL file = None \/ Gemmorandum.canvasJPEG file = None ->
  Gemmorandum.processImageWithServerVision file gs = (Return tt, shown failureShown gs) /\
  Gemmorandum.gworld (shown failureShown gs) = Gemmorandum.gworld gs /\
  (forall dataURL, Gemmorandum.readAsDataURL file = Some dataURL ->
     Gemmorandum.processImageWithServerVision_fixed file gs
     = (Throw (TypeError "this.handleVisionProcessingError is not a function"),
        atStage (Gemmorandum.mkProcessing "ocr" 10 "Extracting text from image...") gs)) /\
  (exists gs',
     Gemmorandum.processImageWithServerVision_fixed file gs
     = (Throw (TypeError "this.handleVisionProcessingError is not a function"), gs') /\
     Gemmorandum.gworld gs' = Gemmorandum.gworld gs).
Proof.
  intros Hclient Hfile. split; [| split; [| split]].
  - apply StageFacts.original_not_encoded. now right.
  - reflexivity.
  - intros dataURL Hread. now apply (StageFacts.fixed_fallback gs c file dataURL).
  - apply StageFacts.fixed_rejects.
Qed.

Lemma X19_encoding_failure_witness :
  Gemmorandum.processImageWithServerVision undrawable
    (freshPage documentStation connectedClient)
  = (Return tt, shown failureShown (freshPage documentStation connectedClient)) /\
  Gemmorandum.processImageWithServerVision_fixed undrawable
    (freshPage documentStation connectedClient)
  = (Throw (TypeError "this.handleVisionProcessingError is not a function"),
     atStage (Gemmorandum.mkProcessing "ocr" 10 "Extracting text from image...")
             (freshPage documentStation connectedClient)).
Proof.
  pose proof (X19_encoding_failure (freshPage documentStation connectedClient)
                connectedClient undrawable eq_refl (or_intror eq_refl)) as H.
  split; [exact (proj1 H) |].
  exact (proj1 (proj2 (proj2 H)) "data:image/png;base64,AAAA" eq_refl).
Defined.

(** X20. A submission to [processImageWithServerVision] of
    gemmorandum-multimodal.js whose two results are in the vision cache
    (under the OCR key of the image and the page language, a string, and
    under the document key of the image and "general"), and can be shown,
    completes without contacting the station: no fetch is issued and the
    client is left as it was, so it succeeds even when the station has gone
    away. *)
Theorem X20_cached_submission_needs_no_station (gs : Gemmorandum.GSt)
    (c : MultimodalAIStationClient) (file : Gemmorandum.ImageFile)
    (dataURL base64Image language : string) (ocrResult docResult : JSValue) :
  Gemmorandum.aiClient (Gemmorandum.gthis gs) = Some c ->
  Gemmorandum.readAsDataURL file = Some dataURL ->
  Gemmorandum.canvasJPEG file = Some base64Image ->
  Gemmorandum.currentLanguage (Gemmorandum.gthis gs) = JStr language ->
  Map.get (generateCacheKey "ocr" base64Image language) (visionCache c) = Some ocrResult ->
  Map.get (generateCacheKey "document" base64Image "general") (visionCache c)
  = Some docResult ->
  presentable ocrResult docResult = true ->
  Gemmorandum.processImageWithServerVision file gs
  = (Return tt, afterSuccess gs (mkSt (Gemmorandum.gworld gs) c) ocrResult docResult) /\
  Gemmorandum.gworld (snd (Gemmorandum.processImageWithServerVision file gs))
  = Gemmorandum.gworld gs /\
  Gemmorandum.aiClient (Gemmorandum.gthis
                          (snd (Gemmorandum.processImageWithServerVision file gs)))
  = Some c.
Proof.
  intros Hclient Hread Hcanvas Hlanguage Hocr Hdoc Hok.
  rewrite (StageFacts.encoded_run gs c file dataURL base64Image Hclient Hread Hcanvas).
  assert (Hrun : try_catch (Gemmorandum.visionStages base64Image)
                           Gemmorandum.handleVisionProcessingError gs
                 = (Return tt,
                    afterSuccess gs (mkSt (Gemmorandum.gworld gs) c) ocrResult docResult)).
  { apply (StageFacts.stages_success gs c base64Image ocrResult docResult
             (mkSt (Gemmorandum.gworld gs) c) (mkSt (Gemmorandum.gworld gs) c) Hclient).
    - rewrite Hlanguage. cbn [serverOCR_value]. unfold serverOCR.
      apply cachedVisionRequest_hit. exact Hocr.
    - unfold analyzeDocument. apply cachedVisionRequest_hit. exact Hdoc.
    - exact Hok. }
  rewrite Hrun. repeat split.
Qed.

Lemma X20_cached_submission_needs_no_station_witness :
  Gemmorandum.processImageWithServerVision photo afterFirstSubmission
  = (Return tt,
     afterSuccess afterFirstSubmission afterDocumentAnalysis readText asylumAnalysis) /\
  List.length (fetchLog (Gemmorandum.gworld afterFirstSubmission)) = 2%nat /\
  Gemmorandum.gworld (snd (Gemmorandum.processImageWithServerVision photo
                             afterFirstSubmission))
  = Gemmorandum.gworld afterFirstSubmission.
Proof.
  assert (Hclient : Gemmorandum.aiClient (Gemmorandum.gthis afterFirstSubmission)
                    = Some (this afterDocumentAnalysis))
    by (vm_compute; reflexivity).
  assert (Hlanguage : Gemmorandum.currentLanguage (Gemmorandum.gthis afterFirstSubmission)
                      = JStr "en")
    by (vm_compute; reflexivity).
  assert (Hocr : Map.get (generateCacheKey "ocr" "data:image/jpeg;base64,AAAA" "en")
                         (visionCache (this afterDocumentAnalysis)) = Some readText)
    by (vm_compute; reflexivity).
  assert (Hdoc : Map.get (generateCacheKey "document" "data:image/jpeg;base64,AAAA" "general")
                         (visionCache (this afterDocumentAnalysis)) = Some asylumAnalysis)
    by (vm_compute; reflexivity).
  assert (Hworld : mkSt (Gemmorandum.gworld afterFirstSubmission) (this afterDocumentAnalysis)
                   = afterDocumentAnalysis)
    by (vm_compute; reflexivity).
  pose proof (X20_cached_submission_needs_no_station afterFirstSubmission
                (this afterDocumentAnalysis) photo "data:image/png;base64,AAAA"
                "data:image/jpeg;base64,AAAA" "en" readText asylumAnalysis
                Hclient eq_refl eq_refl Hlanguage Hocr Hdoc eq_refl) as H.
  rewrite Hworld in H.
  split; [exact (proj1 H) | split; [vm_compute; reflexivity | exact (proj1 (proj2 H))]].
Defined.


Module GuidanceFacts.
Import Gemmorandum GemmorandumForms.

Lemma getContextualResponse_run (currentField : JSValue) (userMessage : string) (gs : GSt)
    (c : MultimodalAIStationClient) (prompt : string) :
  aiClient (gthis gs) = Some c ->
  buildFormGuidancePrompt userMessage (formType (gthis gs)) currentField = Return prompt ->
  let chat := multimodalChat prompt None true (mkSt (gworld gs) c) in
  getContextualResponse currentField userMessage gs =
  (Return match fst chat with
          | Return result =>
              match getProp result "response" with
              | Return v => v
              | Throw _ => JStr (getFallbackResponse userMessage)
              end
          | Throw _ => JStr (getFallbackResponse userMessage)
          end,
   mkGSt (world (snd chat)) (setAiClient (Some (this (snd chat))) (gthis gs))
         (numeral gs) (sameObject gs)).
Proof.
  intros Hclient Hprompt chat. unfold getContextualResponse. unfold bind at 1. unfold get.
  rewrite Hprompt. unfold bind at 1. unfold lift_completion at 1.
  unfold try_catch, bind. rewrite (UploadFacts.onClient_run _ gs c Hclient).
  fold chat. destruct (fst chat) as [result | e]; [| reflexivity].
  unfold lift_completion. destruct (getProp result "response"); reflexivity.
Qed.

Lemma getContextualResponse_no_client (currentField : JSValue) (userMessage : string)
    (gs : GSt) (prompt : string) :
  aiClient (gthis gs) = None ->
  buildFormGuidancePrompt userMessage (formType (gthis gs)) currentField = Return prompt ->
  getContextualResponse currentField userMessage gs
  = (Return (JStr (getFallbackResponse userMessage)), gs).
Proof.
  intros Hclient Hprompt. unfold getContextualResponse. unfold bind at 1. unfold get.
  rewrite Hprompt. unfold bind at 1. unfold lift_completion at 1.
  unfold try_catch, bind, onClient. rewrite Hclient. reflexivity.
Qed.

Lemma getContextualResponse_no_prompt (currentField : JSValue) (userMessage : string)
    (gs : GSt) (e : JSError) :
  buildFormGuidancePrompt userMessage (formType (gthis gs)) currentField = Throw e ->
  getContextualResponse currentField userMessage gs = (Throw e, gs).
Proof.
  intros Hprompt. unfold getContextualResponse. unfold bind at 1. unfold get.
  rewrite Hprompt. reflexivity.
Qed.

Lemma buildFormGuidancePrompt_cases (userMessage : string) (formType currentField : JSValue) :
  buildFormGuidancePrompt userMessage formType currentField
  = if convertible formType && (negb (truthy currentField) || convertible currentField)
    then Return (promptText userMessage formType currentField)
    else Throw (TypeError "Cannot convert object to primitive value").
Proof.
  unfold buildFormGuidancePrompt, convert.
  destruct (convertible formType); [| reflexivity].
  destruct (truthy currentField); [| reflexivity].
  destruct (convertible currentField); reflexivity.
Qed.

End GuidanceFacts.

(** X21. [getContextualResponse] builds its prompt before the [try]: the
    prompt prints the form type, and the current field when there is one,
    and when one of them does not convert the call throws that TypeError
    with nothing sent and nothing changed. Once the prompt is built the call
    does not throw. Without a client, or when the chat dispatch throws (no
    station, timeout, server error), or when the station answers [null], the
    caller gets the canned reply of [getFallbackResponse],
    indistinguishable from an answer of the model; when the chat returns an
    object the caller gets its [response] field. The request is a text-only
    chat: the vision cache of the client is the one before the call, and
    nothing of the session (language, progress, form data, form type, page)
    changes. *)
Theorem X21_guidance_falls_back (currentField : JSValue) (userMessage : string)
    (gs : Gemmorandum.GSt) :
  let formType := Gemmorandum.formType (Gemmorandum.gthis gs) in
  let prompt := GemmorandumForms.promptText userMessage formType currentField in
  let run := GemmorandumForms.getContextualResponse currentField userMessage gs in
  (convertible formType && (negb (truthy currentField) || convertible currentField) = false ->
   run = (Throw (TypeError "Cannot convert object to primitive value"), gs)) /\
  (convertible formType && (negb (truthy currentField) || convertible currentField) = true ->
   (exists v, fst run = Return v) /\
   (Gemmorandum.aiClient (Gemmorandum.gthis gs) = None ->
    run = (Return (JStr (GemmorandumForms.getFallbackResponse userMessage)), gs)) /\
   (forall c e,
       Gemmorandum.aiClient (Gemmorandum.gthis gs) = Some c ->
       fst (multimodalChat prompt None true (mkSt (Gemmorandum.gworld gs) c)) = Throw e ->
       fst run = Return (JStr (GemmorandumForms.getFallbackResponse userMessage))) /\
   (forall c,
       Gemmorandum.aiClient (Gemmorandum.gthis gs) = Some c ->
       fst (multimodalChat prompt None true (mkSt (Gemmorandum.gworld gs) c)) = Return JNull ->
       fst run = Return (JStr (GemmorandumForms.getFallbackResponse userMessage))) /\
   (forall c fields,
       Gemmorandum.aiClient (Gemmorandum.gthis gs) = Some c ->
       fst (multimodalChat prompt None true (mkSt (Gemmorandum.gworld gs) c))
       = Return (JObj fields) ->
       fst run = Return (prop (JObj fields) "response"))) /\
  (forall c,
      Gemmorandum.aiClient (Gemmorandum.gthis gs) = Some c ->
      exists c', Gemmorandum.aiClient (Gemmorandum.gthis (snd run)) = Some c' /\
                 visionCache c' = visionCache c) /\
  Gemmorandum.currentLanguage (Gemmorandum.gthis (snd run))
  = Gemmorandum.currentLanguage (Gemmorandum.gthis gs) /\
  Gemmorandum.processingState (Gemmorandum.gthis (snd run))
  = Gemmorandum.processingState (Gemmorandum.gthis gs) /\
  Gemmorandum.formData (Gemmorandum.gthis (snd run))
  = Gemmorandum.formData (Gemmorandum.gthis gs) /\
  Gemmorandum.formType (Gemmorandum.gthis (snd run))
  = Gemmorandum.formType (Gemmorandum.gthis gs) /\
  Gemmorandum.ui (Gemmorandum.gthis (snd run)) = Gemmorandum.ui (Gemmorandum.gthis gs).
Proof.
  intros formType prompt run.
  pose proof (GuidanceFacts.buildFormGuidancePrompt_cases userMessage formType currentField)
    as Hbuild.
  destruct (convertible formType && (negb (truthy currentField) || convertible currentField)).
  - fold prompt in Hbuild.
    split; [discriminate |].
    destruct (Gemmorandum.aiClient (Gemmorandum.gthis gs)) as [c |] eqn:Hclient.
    + pose proof (GuidanceFacts.getContextualResponse_run currentField userMessage gs c
                    prompt Hclient Hbuild) as Hrun.
      cbv zeta in Hrun. fold run in Hrun. rewrite Hrun. cbn [fst snd].
      split.
      { intros _. split; [eexists; reflexivity |]. split; [discriminate |].
        split; [intros c0 e [= <-] ->; reflexivity |].
        split; [intros c0 [= <-] ->; reflexivity |].
        intros c0 fields [= <-] ->; reflexivity. }
      split.
      { intros c0 [= <-]. eexists. split; [reflexivity |].
        apply (CacheBlind_preserves _ (mkSt (Gemmorandum.gworld gs) c)
                 (multimodalChat_text_only_blind prompt true)). }
      destruct gs as [w g n o]. destruct g. repeat split.
    + pose proof (GuidanceFacts.getContextualResponse_no_client currentField userMessage gs
                    prompt Hclient Hbuild) as Hrun.
      fold run in Hrun. rewrite Hrun. cbn [fst snd].
      split.
      { intros _. split; [eexists; reflexivity |]. split; [reflexivity |].
        repeat split; discriminate. }
      repeat split; discriminate.
  - pose proof (GuidanceFacts.getContextualResponse_no_prompt currentField userMessage gs _
                  Hbuild) as Hrun.
    fold run in Hrun. rewrite Hrun. cbn [fst snd].
    split; [reflexivity |]. split; [discriminate |].
    split; [intros c Hc; exists c; split; [exact Hc | reflexivity] |].
    repeat split.
Qed.

Lemma X21_guidance_falls_back_witness :
  fst (GemmorandumForms.getContextualResponse (JStr "full_name") "Amina Yusuf"
         (freshPage failingStation connectedClient))
  = Return (JStr (GemmorandumForms.getFallbackResponse "Amina Yusuf")) /\
  GemmorandumForms.getContextualResponse (JObj [("toString", JNum 1)]) "Amina Yusuf"
    (freshPage failingStation connectedClient)
  = (Throw (TypeError "Cannot convert object to primitive value"),
     freshPage failingStation connectedClient).
Proof.
  pose proof (X21_guidance_falls_back (JStr "full_name") "Amina Yusuf"
                (freshPage failingStation connectedClient)) as Hname.
  pose proof (X21_guidance_falls_back (JObj [("toString", JNum 1)]) "Amina Yusuf"
                (freshPage failingStation connectedClient)) as Hobject.
  cbv zeta in Hname, Hobject.
  split.
  - refine (proj1 (proj2 (proj2 (proj1 (proj2 Hname) eq_refl)))
              connectedClient (newError "API request failed: 500 Internal Server Error")
              eq_refl _).
    vm_compute. reflexivity.
  - exact (proj1 Hobject eq_refl).
Defined.

(** * Further properties: capabilities and translation *)

Lemma getProp_not_nullish (v : JSValue) (name : string) :
  v <> JNull -> v <> JUndefined -> getProp v name = Return (prop v name).
Proof. unfold prop. destruct v; try contradiction; reflexivity. Qed.

(** X22. [updateCapabilities] never throws, issues exactly one fetch (the
    status probe of the current station, without timer) and leaves the
    address, the connection flag, the budgets and the cache alone. Whenever
    the reply carries a parsed body other than [null], and whatever its HTTP
    status, all four capabilities are replaced, a missing or falsy field by
    its default ([false], [false], 'unknown', 'unknown'); on a network
    failure, an unparsable body or a [null] body the capabilities stay as
    they were. *)
Theorem X22_capabilities_refresh (st : St) :
  let probe := statusProbe (urlText (stationURL (this st))) in
  let after := snd (updateCapabilities st) in
  fst (updateCapabilities st) = Return tt /\
  world after = logFetch probe (world st) /\
  stationURL (this after) = stationURL (this st) /\
  isConnected (this after) = isConnected (this st) /\
  cacheOf after = cacheOf st /\
  configOf (this after) = configOf (this st) /\
  (forall resp data,
      settled (replyTo st probe) = Resolved resp ->
      body resp = Some data -> data <> JNull -> data <> JUndefined ->
      capabilities (this after)
      = mkCapabilities (js_or (prop data "multimodal_enabled") (JBool false))
                       (js_or (prop data "vision_processing") (JBool false))
                       (js_or (prop data "mode") (JStr "unknown"))
                       (js_or (prop data "model_type") (JStr "unknown"))) /\
  (serverInfoOf (replyTo st probe) = JNull ->
   capabilities (this after) = capabilities (this st)).
Proof.
  intros probe after.
  destruct (updateCapabilities_run st) as [k Hrun]. fold probe in Hrun.
  assert (Hafter : after = mkSt (logFetch probe (world st)) (setCapabilities k (this st)))
    by (unfold after; now rewrite Hrun).
  rewrite Hrun, Hafter. cbn [fst snd world this].
  split; [reflexivity |]. split; [reflexivity |].
  split; [destruct (this st); reflexivity |]. split; [destruct (this st); reflexivity |].
  split; [unfold cacheOf; destruct (this st); reflexivity |].
  split; [destruct (this st); reflexivity |].
  assert (Hk : capabilities (setCapabilities k (this st))
               = capabilities (this (snd (updateCapabilities st))))
    by now rewrite Hrun.
  rewrite Hk. clear Hrun Hafter Hk k after.
  unfold updateCapabilities, try_catch, bind, get, fetch, fetch_world, fetch_outcome,
    json, lift_completion, ret, update, modify, setThis, setWorld, serverInfoOf, replyTo, now.
  fold probe.
  destruct (network (world st) (List.length (fetchLog (world st))) probe)
    as [lat [resp | msg]]; cbn [settled latency].
  - split.
    + intros resp' data [= <-] Hbody Hnull Hundef. rewrite Hbody.
      rewrite !(getProp_not_nullish data) by assumption.
      cbn. destruct (this st); reflexivity.
    + destruct (body resp) as [data |]; [| reflexivity].
      cbn [default]. unfold id. intros ->. reflexivity.
  - split; [discriminate | reflexivity].
Qed.

Lemma X22_capabilities_refresh_witness :
  capabilities (this (snd (updateCapabilities (mkSt dellStation connectedClient))))
  = mkCapabilities (JBool true) (JBool false) (JStr "unknown") (JStr "unknown").
Proof.
  rewrite (proj1 (proj2 (proj2 (proj2 (proj2 (proj2 (proj2
             (X22_capabilities_refresh (mkSt dellStation connectedClient))))))))
             (mkResponse 200 "OK" (Some (JObj [("status", JStr "ready");
                                               ("multimodal_enabled", JBool true)])))
             (JObj [("status", JStr "ready"); ("multimodal_enabled", JBool true)])
             eq_refl eq_refl ltac:(discriminate) ltac:(discriminate)).
  reflexivity.
Defined.

Lemma translate_run (text fromLang toLang context : string) (st : St) :
  needsDiscovery (this st) = false ->
  translationTimeout (this st) <> 0 ->
  let req := dispatchOf (this st) endpoints.translate
               (translatePayload text fromLang toLang context) (translateOptions (this st)) in
  translate text fromLang toLang context st =
  match dispatchEnd (translationTimeout (this st)) (replyTo st req) (logged req st) with
  | (Return result, st') => (transformTranslation result, st')
  | (Throw e, st') => (Throw e, st')
  end.
Proof.
  intros Hknown Hbudget req.
  assert (Hactual : actualTimeout endpoints.translate (translateOptions (this st)) (this st)
                    = translationTimeout (this st)).
  { unfold actualTimeout, requestTimeout, translateOptions. simpl.
    destruct (translationTimeout (this st) =? 0) eqn:E; [apply Z.eqb_eq in E; lia | reflexivity]. }
  unfold translate. rewrite try_catch_rethrow. unfold bind at 1. unfold get.
  unfold bind. fold (translatePayload text fromLang toLang context).
  fold (translateOptions (this st)).
  rewrite makeRequest_connected, sendRequest_run by exact Hknown.
  rewrite Hactual. reflexivity.
Qed.

(** X23. What [translate] hands to the frontend, on a known station that
    answers in time with a success response. An object with a truthy
    [translated_text] is reshaped into exactly four fields: [translation],
    [from_language], [to_language] and [success: true]; every other field
    of the answer is dropped. Any other parsed body (an object without
    translated text, or a falsy value such as [null]) is returned as it
    came, without a [success] field and without an error. One fetch is made
    and the client is unchanged. *)
Theorem X23_translate_reshapes (text fromLang toLang context : string) (st : St)
    (resp : Response) (result : JSValue) :
  needsDiscovery (this st) = false ->
  translationTimeout (this st) <> 0 ->
  let req := dispatchOf (this st) endpoints.translate
               (translatePayload text fromLang toLang context) (translateOptions (this st)) in
  latency (replyTo st req) < translationTimeout (this st) ->
  settled (replyTo st req) = Resolved resp ->
  ok resp = true ->
  body resp = Some result ->
  translate text fromLang toLang context st =
  (Return (if truthy result && truthy (prop result "translated_text")
           then JObj [("translation", prop result "translated_text");
                      ("from_language", prop result "from_language");
                      ("to_language", prop result "to_language");
                      ("success", JBool true)]
           else result),
   logged req st).
Proof.
  intros Hknown Hbudget req Hlat Hsettled Hok Hbody.
  rewrite translate_run by assumption. fold req.
  unfold dispatchEnd. destruct (translationTimeout (this st) <=? latency (replyTo st req)) eqn:E;
    [apply Z.leb_le in E; lia |].
  rewrite Hsettled, Hok, Hbody. unfold transformTranslation.
  destruct (truthy result) eqn:Htruthy; [| reflexivity].
  rewrite !(truthy_getProp result) by exact Htruthy. cbn [andb].
  destruct (truthy (prop result "translated_text")); reflexivity.
Qed.

Lemma X23_translate_reshapes_witness :
  translate "Hello" "en" "fr" "general" (mkSt translationStation connectedClient)
  = (Return (JObj [("translation", JStr "Bonjour"); ("from_language", JStr "en");
                   ("to_language", JStr "fr"); ("success", JBool true)]),
     logged (dispatchOf connectedClient endpoints.translate
               (translatePayload "Hello" "en" "fr" "general")
               (translateOptions connectedClient))
            (mkSt translationStation connectedClient)).
Proof.
  exact (X23_translate_reshapes "Hello" "en" "fr" "general"
           (mkSt translationStation connectedClient)
           (mkResponse 200 "OK"
              (Some (JObj [("translated_text", JStr "Bonjour");
                           ("from_language", JStr "en");
                           ("to_language", JStr "fr");
                           ("confidence", JNum 1)])))
           (JObj [("translated_text", JStr "Bonjour"); ("from_language", JStr "en");
                  ("to_language", JStr "fr"); ("confidence", JNum 1)])
           eq_refl ltac:(discriminate) eq_refl eq_refl eq_refl eq_refl).
Defined.

(** * Further properties: discovery across page loads *)

Lemma savedURL_stored (w : World) (url : string) :
  localStorage w !! "aiStationURL" = Some url -> url <> "" -> savedURL w = [url].
Proof.
  intros Hsaved Hne. unfold savedURL. rewrite Hsaved.
  destruct (String.eqb url "") eqn:E; [apply String.eqb_eq in E; contradiction | reflexivity].
Qed.

(** X24. The address that discovery adopts is found again by the next page
    load with a single probe. After a [detectStation] that settled on [url],
    any client on the resulting browser state (a new one made by the
    constructor included), whatever its own address list, probes [url]
    first; when the station still answers, it adopts [url] after that one
    probe and the capability fetch, and the stored address stays [url]. *)
Theorem X24_reload_probes_saved_address (st : St) (i : nat) (url : string)
    (c : MultimodalAIStationClient) :
  firstReady (network (world st)) (now st) (probeOrder st) = Some (i, url) ->
  let reloaded := mkSt (world (snd (detectStation st))) c in
  probeReady (replyTo reloaded (statusProbe url)) = true ->
  fst (detectStation reloaded) = Return true /\
  stationURL (this (snd (detectStation reloaded))) = Some url /\
  isConnected (this (snd (detectStation reloaded))) = true /\
  fetchLog (world (snd (detectStation reloaded)))
  = fetchLog (world reloaded) ++ [statusProbe url; statusProbe url] /\
  localStorage (world (snd (detectStation reloaded))) !! "aiStationURL" = Some url.
Proof.
  intros Hfound reloaded Hready.
  pose proof (detectStation_run st) as Hfirst. rewrite Hfound in Hfirst.
  destruct Hfirst as (st' & Hrun & Hdisc).
  assert (Hne : url <> "").
  { apply firstReady_Some in Hfound as (Hat & _). eapply probeOrder_nonempty. exact Hat. }
  assert (Hworld : world reloaded = world st') by (unfold reloaded; now rewrite Hrun).
  assert (Hsaved : savedURL (world reloaded) = [url]).
  { rewrite Hworld. apply savedURL_stored; [apply (disc_persisted _ _ _ _ Hdisc) | exact Hne]. }
  pose proof (detectStation_run reloaded) as Hagain.
  assert (Hfirst : firstReady (network (world reloaded)) (now reloaded) (probeOrder reloaded)
                   = Some (O, url)).
  { unfold probeOrder. rewrite Hsaved. cbn [app firstReady].
    unfold replyTo in Hready. now rewrite Hready. }
  rewrite Hfirst in Hagain. destruct Hagain as (st'' & Hrun2 & Hdisc2).
  rewrite Hrun2. cbn [fst snd].
  split; [reflexivity |].
  split; [apply (disc_station _ _ _ _ Hdisc2) |].
  split; [apply (disc_connected _ _ _ _ Hdisc2) |].
  split; [| apply (disc_persisted _ _ _ _ Hdisc2)].
  rewrite (disc_log _ _ _ _ Hdisc2). unfold probeOrder. rewrite Hsaved. reflexivity.
Qed.

Lemma X24_reload_probes_saved_address_witness :
  fetchLog (world (snd (detectStation
     (mkSt (world (snd (detectStation (mkSt dellStation (constructor None)))))
           (constructor None)))))
  = fetchLog (world (snd (detectStation (mkSt dellStation (constructor None)))))
    ++ [statusProbe "http://192.168.1.87:8080"; statusProbe "http://192.168.1.87:8080"].
Proof.
  assert (Hfound : firstReady (network (world (mkSt dellStation (constructor None))))
                     (now (mkSt dellStation (constructor None)))
                     (probeOrder (mkSt dellStation (constructor None)))
                   = Some (3%nat, "http://192.168.1.87:8080"))
    by (vm_compute; reflexivity).
  assert (Hready : probeReady (replyTo
                     (mkSt (world (snd (detectStation (mkSt dellStation (constructor None)))))
                           (constructor None))
                     (statusProbe "http://192.168.1.87:8080")) = true)
    by (vm_compute; reflexivity).
  exact (proj1 (proj2 (proj2 (proj2
    (X24_reload_probes_saved_address (mkSt dellStation (constructor None)) 3
       "http://192.168.1.87:8080" (constructor None) Hfound Hready))))).
Defined.

(** * Further properties: how a submission can end *)

(** X25. Whatever the file, the network and the state of the client,
    [processImageWithServerVision] of gemmorandum-multimodal.js never
    throws, and how it ends is decided by the encoding and by what the two
    stage requests come to. Without a client or without an encoded image the
    failure display is shown and nothing else changes. When stage 1 throws,
    the failure display is shown at the OCR stage; when stage 1 returns and
    stage 2 throws, at the analysis stage; in both cases the session result,
    the form type and the language are untouched. When both stages return,
    either the results are put on the page (success display, progress 100,
    [formData] the session result), or the handling of the results throws
    on the way and the failure display is shown at progress 100 with the
    language, the form type and the session result assigned as far as the
    handling got: so a failure display can come with [formData] already
    assigned. *)
Theorem X25_submission_outcomes (file : Gemmorandum.ImageFile) (gs : Gemmorandum.GSt) :
  (exists gs', Gemmorandum.processImageWithServerVision file gs = (Return tt, gs')) /\
  (Gemmorandum.aiClient (Gemmorandum.gthis gs) = None \/
   Gemmorandum.readAsDataURL file = None \/ Gemmorandum.canvasJPEG file = None ->
   Gemmorandum.processImageWithServerVision file gs = (Return tt, shown failureShown gs)) /\
  (forall c dataURL base64Image,
      Gemmorandum.aiClient (Gemmorandum.gthis gs) = Some c ->
      Gemmorandum.readAsDataURL file = Some dataURL ->
      Gemmorandum.canvasJPEG file = Some base64Image ->
      match serverOCR_value (Gemmorandum.numeral gs) base64Image
                            (Gemmorandum.currentLanguage (Gemmorandum.gthis gs)) true
                            (mkSt (Gemmorandum.gworld gs) c) with
      | (Throw _, st1) =>
          Gemmorandum.processImageWithServerVision file gs
          = (Return tt, afterStage1Failure gs st1)
      | (Return ocrResult, st1) =>
          match analyzeDocument base64Image "general" true st1 with
          | (Throw _, st2) =>
              Gemmorandum.processImageWithServerVision file gs
              = (Return tt, afterStage2Failure gs st2)
          | (Return docResult, st2) =>
              Gemmorandum.processImageWithServerVision file gs
              = (Return tt, afterSuccess gs st2 ocrResult docResult) \/
              exists point,
                Gemmorandum.processImageWithServerVision file gs
                = (Return tt, afterAbort point gs st2 ocrResult docResult)
          end
      end).
Proof.
  split; [apply StageFacts.original_returns |].
  split; [apply StageFacts.original_not_encoded |].
  intros c dataURL base64Image. apply StageFacts.original_cases.
Qed.

(** On [numbersStation] both stages return, the critical fields are numbers,
    the analysis message cannot be built, and the page shows the failure
    display with the session result assigned. *)
Lemma X25_submission_outcomes_witness :
  (Gemmorandum.processImageWithServerVision photo (freshPage numbersStation connectedClient)
   = (Return tt, afterSuccess (freshPage numbersStation connectedClient)
                   afterNumbersAnalysis readText numberedAnalysis) \/
   exists point,
     Gemmorandum.processImageWithServerVision photo (freshPage numbersStation connectedClient)
     = (Return tt, afterAbort point (freshPage numbersStation connectedClient)
                     afterNumbersAnalysis readText numberedAnalysis)) /\
  Gemmorandum.processImageWithServerVision photo (freshPage numbersStation connectedClient)
  = (Return tt, afterAbort AtAnalysis (freshPage numbersStation connectedClient)
                  afterNumbersAnalysis readText numberedAnalysis) /\
  Gemmorandum.formData
    (Gemmorandum.gthis (afterAbort AtAnalysis (freshPage numbersStation connectedClient)
                          afterNumbersAnalysis readText numberedAnalysis))
  = Some (sessionResult readText numberedAnalysis).
Proof.
  assert (Hocr : serverOCR_value
                   (Gemmorandum.numeral (freshPage numbersStation connectedClient))
                   "data:image/jpeg;base64,AAAA"
                   (Gemmorandum.currentLanguage
                      (Gemmorandum.gthis (freshPage numbersStation connectedClient)))
                   true
                   (mkSt (Gemmorandum.gworld (freshPage numbersStation connectedClient))
                         connectedClient)
                 = (Return readText, afterNumbersOCR))
    by (vm_compute; reflexivity).
  assert (Hdoc : analyzeDocument "data:image/jpeg;base64,AAAA" "general" true afterNumbersOCR
                 = (Return numberedAnalysis, afterNumbersAnalysis))
    by (vm_compute; reflexivity).
  pose proof (proj2 (proj2 (X25_submission_outcomes photo
                              (freshPage numbersStation connectedClient)))
                connectedClient "data:image/png;base64,AAAA" "data:image/jpeg;base64,AAAA"
                eq_refl eq_refl eq_refl) as H.
  rewrite Hocr, Hdoc in H.
  split; [exact H |]. split; vm_compute; reflexivity.
Defined.

(** * Further properties: failed vision calls *)

Lemma multimodalChat_blind_on_throw (text : string) (image : option string) (useCache : bool)
    (st st' : St) (e : JSError) :
  multimodalChat text image useCache st = (Throw e, st') -> cacheOf st' = cacheOf st.
Proof.
  unfold multimodalChat. rewrite try_catch_rethrow. cbv zeta.
  unfold bind at 1. unfold get.
  pose proof (CacheBlind_preserves
                (makeRequest endpoints.multimodal.chat
                   (JObj [("text", JStr text); ("image", imageValue image)]) noOptions) st
                (makeRequest_blind _ _ _)) as Hkeep.
  destruct (truthy (imageValue image) && useCache).
  - destruct (Map.has (generateCacheKey "chat" (default "" image) text)
                      (visionCache (this st))); [discriminate |].
    unfold bind, lift_completion.
    destruct (makeRequest endpoints.multimodal.chat _ noOptions st) as [[result | e1] st1].
    + destruct (printFields result ["language_detected"]); [| intros [= <- <-]; exact Hkeep].
      cbn [andb].
      destruct (truthy (JStr (generateCacheKey "chat" (default "" image) text)));
        discriminate.
    + intros [= <- <-]. exact Hkeep.
  - unfold bind, lift_completion.
    destruct (makeRequest endpoints.multimodal.chat _ noOptions st) as [[result | e1] st1].
    + destruct (printFields result ["language_detected"]); [| intros [= <- <-]; exact Hkeep].
      discriminate.
    + intros [= <- <-]. exact Hkeep.
Qed.

(** X26. A vision call that fails stores nothing: when [serverOCR],
    [analyzeDocument], [analyzeMedicalImage] or [multimodalChat] throws, the
    cache is the one before the call. A [null] answer counts as a failure:
    on a known station that answers an uncached OCR request in time with a
    success response whose body is [null], [serverOCR] throws a TypeError
    after its one fetch, caches nothing and leaves the client as it was, so
    the station is still taken as connected. *)
Theorem X26_failed_vision_call_caches_nothing (st : St) (imageData aux : string)
    (useCache : bool) :
  (forall e st', serverOCR imageData aux useCache st = (Throw e, st') ->
                 cacheOf st' = cacheOf st) /\
  (forall e st', analyzeDocument imageData aux useCache st = (Throw e, st') ->
                 cacheOf st' = cacheOf st) /\
  (forall e st', analyzeMedicalImage imageData aux useCache st = (Throw e, st') ->
                 cacheOf st' = cacheOf st) /\
  (forall image e st', multimodalChat aux image useCache st = (Throw e, st') ->
                       cacheOf st' = cacheOf st) /\
  (forall resp,
      let req := dispatchOf (this st) endpoints.vision.ocr
                   (JObj [("image", JStr imageData); ("language", JStr aux)]) noOptions in
      needsDiscovery (this st) = false ->
      Map.has (generateCacheKey "ocr" imageData aux) (cacheOf st) = false ->
      latency (replyTo st req) < visionTimeout (this st) ->
      settled (replyTo st req) = Resolved resp ->
      ok resp = true ->
      body resp = Some JNull ->
      exists message,
        serverOCR imageData aux true st = (Throw (TypeError message), logged req st)).
Proof.
  split; [| split; [| split; [| split]]].
  - intros e st'. apply cachedVisionRequest_blind_on_throw.
  - intros e st'. apply cachedVisionRequest_blind_on_throw.
  - intros e st'. apply cachedVisionRequest_blind_on_throw.
  - intros image e st'. apply multimodalChat_blind_on_throw.
  - intros resp req Hknown Hmiss Hlat Hsettled Hok Hbody.
    unfold serverOCR. rewrite cachedVisionRequest_miss by (now rewrite Hmiss).
    unfold bind. rewrite makeRequest_connected, sendRequest_run by exact Hknown.
    fold req. unfold dispatchEnd.
    change (actualTimeout endpoints.vision.ocr noOptions (this st))
      with (visionTimeout (this st)).
    destruct (visionTimeout (this st) <=? latency (replyTo st req)) eqn:E;
      [apply Z.leb_le in E; lia |].
    rewrite Hsettled, Hok, Hbody. eexists. reflexivity.
Qed.

Lemma X26_failed_vision_call_caches_nothing_witness :
  exists message,
    serverOCR "data:image/jpeg;base64,AAAA" "en" true (mkSt nullStation connectedClient)
    = (Throw (TypeError message),
       logged (dispatchOf connectedClient endpoints.vision.ocr
                 (JObj [("image", JStr "data:image/jpeg;base64,AAAA");
                        ("language", JStr "en")]) noOptions)
              (mkSt nullStation connectedClient)).
Proof.
  exact (proj2 (proj2 (proj2 (proj2
    (X26_failed_vision_call_caches_nothing (mkSt nullStation connectedClient)
       "data:image/jpeg;base64,AAAA" "en" true))))
    (mkResponse 200 "OK" (Some JNull)) eq_refl eq_refl eq_refl eq_refl eq_refl eq_refl).
Defined.
